(** * Fumikari e-book reader: pagination and reading session of DirectEpubReader

    A shallow embedding of [src/components/DirectEpubReader.tsx]:
    the DOM operations the component relies on, the greedy paginator
    [splitIntoPages], the chapter extraction loop of [parseEpub], and the
    reading session (page index, navigation, double page toggle, progress
    sink).

    JavaScript numbers that hold indices and counters are [Z]; the
    fractional progress is a rational [Q], read as the binary64 value
    nearest to it where the code multiplies it; strings are [string],
    in UTF-8.
    The browser is a parameter: its HTML parser and its layout engine are
    Section variables, so every statement holds for whatever the browser
    computes. *)

From Stdlib Require Import ZArith QArith Qround Qminmax Qabs Zquot String Ascii List Lia Bool.
From Stdlib Require Import DecimalString.
From Stdlib Require SpecFloat.
From stdpp Require Import gmap strings.
Import ListNotations.

Set Warnings "-register-all".
Local Open Scope Z_scope.

(** ** JavaScript string helpers *)

Module Js.

(** [a || b] on strings: the empty string is the only falsy string. *)
Definition or (a b : string) : string :=
  match a with
  | EmptyString => b
  | _ => a
  end.

(** White space removed by [String.prototype.trim]: the characters of
    WhiteSpace and LineTerminator. Strings are held in UTF-8, so a
    character above U+007F is the sequence of its two or three bytes.

    Below 128: TAB, LF, VT, FF, CR and SPACE. *)
Definition isWhiteSpace (c : ascii) : bool :=
  let n := nat_of_ascii c in
  ((9 <=? n)%nat && (n <=? 13)%nat) || (n =? 32)%nat.

(** In two bytes: U+00A0, the no-break space. *)
Definition isWhiteSpace2 (c1 c2 : ascii) : bool :=
  (nat_of_ascii c1 =? 194)%nat && (nat_of_ascii c2 =? 160)%nat.

(** In three bytes: U+1680, U+2000 to U+200A, U+2028, U+2029, U+202F,
    U+205F, U+3000 and U+FEFF. *)
Definition isWhiteSpace3 (c1 c2 c3 : ascii) : bool :=
  let n1 := nat_of_ascii c1 in
  let n2 := nat_of_ascii c2 in
  let n3 := nat_of_ascii c3 in
  ((n1 =? 225) && (n2 =? 154) && (n3 =? 128))%nat
  || ((n1 =? 226) && (n2 =? 128)
      && (((128 <=? n3) && (n3 <=? 138)) || (n3 =? 168) || (n3 =? 169)
          || (n3 =? 175)))%nat
  || ((n1 =? 226) && (n2 =? 129) && (n3 =? 159))%nat
  || ((n1 =? 227) && (n2 =? 128) && (n3 =? 128))%nat
  || ((n1 =? 239) && (n2 =? 187) && (n3 =? 191))%nat.

Fixpoint trimStart (s : string) : string :=
  match s with
  | EmptyString => EmptyString
  | String c1 r1 =>
      if isWhiteSpace c1 then trimStart r1
      else
        match r1 with
        | EmptyString => s
        | String c2 r2 =>
            if isWhiteSpace2 c1 c2 then trimStart r2
            else
              match r2 with
              | EmptyString => s
              | String c3 r3 =>
                  if isWhiteSpace3 c1 c2 c3 then trimStart r3 else s
              end
        end
  end.

(** [trimEnd] cuts the string where only white space follows. *)
Fixpoint trimEnd (s : string) : string :=
  match s with
  | EmptyString => EmptyString
  | String c rest =>
      match trimStart s with
      | EmptyString => EmptyString
      | _ => String c (trimEnd rest)
      end
  end.

Definition trim (s : string) : string := trimEnd (trimStart s).

(** [s !== ''] *)
Definition nonEmpty (s : string) : bool :=
  match s with
  | EmptyString => false
  | _ => true
  end.

(** Number to string conversion of a template literal, for integers. *)
Definition ofZ (z : Z) : string := NilZero.string_of_int (Z.to_int z).

(** [Array.prototype.join('')] *)
Definition join (l : list string) : string := String.concat "" l.

End Js.

(** ** The DOM

    A document tree as the browser holds it after parsing: character data
    and elements with their attributes and children. *)

Inductive node : Type :=
| Text (data : string)
| Elem (tag : string) (attrs : list (string * string)) (children : list node).

Module Dom.

Definition isElement (n : node) : bool :=
  match n with
  | Elem _ _ _ => true
  | Text _ => false
  end.

Definition tagName (n : node) : string :=
  match n with
  | Elem t _ _ => t
  | Text _ => ""
  end.

Definition childNodes (n : node) : list node :=
  match n with
  | Elem _ _ cs => cs
  | Text _ => []
  end.

Definition inTags (tags : list string) (t : string) : bool :=
  existsb (String.eqb t) tags.

(** A group of type selectors ([p, div, h1]) matches an element by its
    local name. *)
Definition matchesSel (tags : list string) (n : node) : bool :=
  match n with
  | Elem t _ _ => inTags tags t
  | Text _ => false
  end.

(** Descendants in document (pre-)order, the node itself excluded. *)
Fixpoint descendants (n : node) : list node :=
  match n with
  | Text _ => []
  | Elem _ _ cs => flat_map (fun c => c :: descendants c) cs
  end.

(** [root.querySelectorAll(sel)]: every matching descendant, nested ones
    included, in document order. *)
Definition querySelectorAll (tags : list string) (root : node) : list node :=
  List.filter (matchesSel tags) (descendants root).

(** [root.querySelector(sel)] *)
Definition querySelector (tags : list string) (root : node) : option node :=
  head (querySelectorAll tags root).

(** [node.textContent] *)
Fixpoint textContent (n : node) : string :=
  match n with
  | Text s => s
  | Elem _ _ cs => Js.join (map textContent cs)
  end.

(** *** Serialisation (the fragment serialisation algorithm) *)

(** The double quote character. *)
Definition dquote : ascii := ascii_of_nat 34.

Definition escapeChar (inAttr : bool) (c : ascii) : string :=
  if Ascii.eqb c "&" then "&amp;"
  else if inAttr then (if Ascii.eqb c dquote then "&quot;" else String c EmptyString)
  else if Ascii.eqb c "<" then "&lt;"
  else if Ascii.eqb c ">" then "&gt;"
  else String c EmptyString.

(** U+00A0, two bytes in UTF-8, is written as a character reference in
    text and in attribute values alike. *)
Fixpoint escape (inAttr : bool) (s : string) : string :=
  match s with
  | EmptyString => EmptyString
  | String c rest =>
      match rest with
      | EmptyString => escapeChar inAttr c
      | String c' rest' =>
          if Js.isWhiteSpace2 c c' then "&nbsp;" +:+ escape inAttr rest'
          else escapeChar inAttr c +:+ escape inAttr rest
      end
  end.

Definition voidTags : list string :=
  ["area"; "base"; "br"; "col"; "embed"; "hr"; "img"; "input"; "link";
   "meta"; "source"; "track"; "wbr"].

(** Elements whose text children are written out unescaped. *)
Definition rawTextTags : list string :=
  ["style"; "script"; "xmp"; "iframe"; "noembed"; "noframes"; "plaintext"].

Definition serializeAttr (a : string * string) : string :=
  " " +:+ fst a +:+ "=" +:+ String dquote (escape true (snd a))
      +:+ String dquote EmptyString.

Definition startTag (t : string) (attrs : list (string * string)) : string :=
  "<" +:+ t +:+ Js.join (map serializeAttr attrs) +:+ ">".

Definition endTag (t : string) : string := "</" +:+ t +:+ ">".

(** [serialize raw n]: [raw] tells whether the parent is a raw text element. *)
Fixpoint serialize (raw : bool) (n : node) : string :=
  match n with
  | Text s => if raw then s else escape false s
  | Elem t attrs cs =>
      if inTags voidTags t then startTag t attrs
      else startTag t attrs
           +:+ Js.join (map (serialize (inTags rawTextTags t)) cs)
           +:+ endTag t
  end.

(** [element.innerHTML] (getter) *)
Definition innerHTML (n : node) : string :=
  Js.join (map (serialize (inTags rawTextTags (tagName n))) (childNodes n)).

(** [element.outerHTML]. Only elements have the property; on character
    data the read yields [undefined], which [||] treats like the empty
    string. *)
Definition outerHTML (n : node) : string :=
  match n with
  | Elem _ _ _ => serialize false n
  | Text _ => ""
  end.

End Dom.

(** ** JavaScript numbers

    A number is a binary64 value, here a [spec_float] of the Standard
    Library at precision 53: every operation rounds its exact result to
    the nearest value, ties to the even mantissa. *)

Module Double.

Definition prec : Z := 53.
Definition emax : Z := 1024.

(** An integer as a number. *)
Definition ofZ (z : Z) : SpecFloat.spec_float :=
  SpecFloat.binary_normalize prec emax z 0 false.

(** The number a decimal or a quotient denotes: the binary64 value
    nearest to the rational. *)
Definition ofQ (q : Q) : SpecFloat.spec_float :=
  let r := Qred q in
  SpecFloat.SFdiv prec emax (ofZ (Qnum r)) (ofZ (Zpos (Qden r))).

(** [x * y] *)
Definition mul (x y : SpecFloat.spec_float) : SpecFloat.spec_float :=
  SpecFloat.SFmul prec emax x y.

(** [Math.floor(x)] of a finite number; [None] when [x] is infinite or
    not a number. *)
Definition floor (x : SpecFloat.spec_float) : option Z :=
  match x with
  | SpecFloat.S754_zero _ => Some 0
  | SpecFloat.S754_finite negative m e =>
      let magnitude :=
        if 0 <=? e then Z.shiftl (Zpos m) e else Z.shiftr (Zpos m) (- e) in
      let integral :=
        (0 <=? e) || (Z.shiftl magnitude (- e) =? Zpos m) in
      Some (if negative
            then (if integral then - magnitude else - magnitude - 1)
            else magnitude)
  | _ => None
  end.

End Double.

(** ** Data of the component *)

Inductive Theme : Type := light | dark | sepia.

Record TextSettings : Type := {
  fontSize : Z;
  fontFamily : string;
  lineHeight : Q;
  margin : Z;
  theme : Theme
}.

Module EpubChapter.
Record t : Type := {
  id : string;
  title : string;
  content : string;
  href : string
}.
End EpubChapter.

Module EpubPage.
Record t : Type := {
  id : string;
  content : string;
  chapterTitle : string;
  pageNumber : Z
}.
End EpubPage.

Record EpubMetadata : Type := {
  md_title : string;
  md_author : string;
  md_language : string
}.

(** The [Book] prop, reduced to the fields the reader uses. *)
Record Book : Type := {
  book_id : string;
  fileName : string;
  progress : Q;
  currentPage : Z
}.

(** ** The paginator: [splitIntoPages] *)

Module Paginator.
Section WithBrowser.

(** [tempDiv.innerHTML = html]: the children the browser's HTML parser
    gives the detached [div]. *)
Variable parseFragment : string -> list node.

(** [tempContainer.scrollHeight] after [tempContainer.innerHTML = html],
    the container being styled from the settings. *)
Variable scrollHeight : TextSettings -> string -> Z.

(** [window.innerHeight] *)
Variable innerHeight : Z.

(** [Math.floor((window.innerHeight - 240) * 0.92)], with 0.92 as the
    rational 92/100 and the product taken exactly. *)
Definition pageHeight : Z :=
  Qfloor (inject_Z (innerHeight - 240) * (92 # 100)).

Definition blockTags : list string :=
  ["p"; "div"; "h1"; "h2"; "h3"; "h4"; "h5"; "h6"; "blockquote"; "pre"; "li"].

(** The detached [div] holding a chapter's parsed content. *)
Definition tempDiv (chapter : EpubChapter.t) : node :=
  Elem "div" [] (parseFragment (EpubChapter.content chapter)).

(** The block list of a chapter: the selected elements, or the whole
    [tempDiv] when nothing was selected. *)
Definition chapterElements (chapter : EpubChapter.t) : list node :=
  let elements := Dom.querySelectorAll blockTags (tempDiv chapter) in
  if (length elements =? 0)%nat then elements ++ [tempDiv chapter] else elements.

(** [element.outerHTML || element.textContent || ''] *)
Definition elementHtml (element : node) : string :=
  Js.or (Dom.outerHTML element) (Js.or (Dom.textContent element) "").

Definition newPage (pages : list EpubPage.t) (content title : string)
    (pageNumber : Z) : EpubPage.t :=
  {| EpubPage.id := "page-" +:+ Js.ofZ (Z.of_nat (length pages) + 1);
     EpubPage.content := content;
     EpubPage.chapterTitle := title;
     EpubPage.pageNumber := pageNumber |}.

(** The mutable state of the inner loop: [pages], [currentPageContent]
    and [pageNumber]. *)
Record LoopState : Type := {
  ls_pages : list EpubPage.t;
  currentPageContent : string;
  ls_pageNumber : Z
}.

(** One iteration of [elements.forEach]. *)
Definition elementStep (settings : TextSettings) (title : string)
    (st : LoopState) (element : node) : LoopState :=
  let html := elementHtml element in
  let measured := scrollHeight settings (currentPageContent st +:+ html) in
  if (measured >? pageHeight) && Js.nonEmpty (Js.trim (currentPageContent st))
  then {| ls_pages := ls_pages st ++
                      [newPage (ls_pages st) (currentPageContent st) title
                               (ls_pageNumber st)];
          currentPageContent := html;
          ls_pageNumber := ls_pageNumber st + 1 |}
  else {| ls_pages := ls_pages st;
          currentPageContent := currentPageContent st +:+ html;
          ls_pageNumber := ls_pageNumber st |}.

(** The final flush of a chapter. *)
Definition flush (title : string) (st : LoopState) : list EpubPage.t :=
  if Js.nonEmpty (Js.trim (currentPageContent st))
  then ls_pages st ++
       [newPage (ls_pages st) (currentPageContent st) title (ls_pageNumber st)]
  else ls_pages st.

(** One iteration of [chapters.forEach]. *)
Definition chapterStep (settings : TextSettings) (pages : list EpubPage.t)
    (chapter : EpubChapter.t) : list EpubPage.t :=
  let st0 := {| ls_pages := pages; currentPageContent := ""; ls_pageNumber := 1 |} in
  flush (EpubChapter.title chapter)
        (fold_left (elementStep settings (EpubChapter.title chapter))
                   (chapterElements chapter) st0).

Definition splitIntoPages (chapters : list EpubChapter.t)
    (settings : TextSettings) : list EpubPage.t :=
  fold_left (chapterStep settings) chapters [].

End WithBrowser.
End Paginator.
Import Paginator.

(** *** Vocabulary for the paginator's properties *)

(** A string that opens with a character below U+0080 that [trim]
    keeps. *)
Definition startsNonBlank (s : string) : bool :=
  match s with
  | EmptyString => false
  | String c _ => negb (Js.isWhiteSpace c) && (nat_of_ascii c <? 128)%nat
  end.

(** The markup of a run of blocks put on one page. *)
Definition groupHtml (g : list node) : string := Js.join (map elementHtml g).

(** The [content] of every page, in order. *)
Definition contents (ps : list EpubPage.t) : list string :=
  map EpubPage.content ps.

(** Whether an iteration of the inner loop closed a page. *)
Definition closesPage (st st' : LoopState) : Prop :=
  length (ls_pages st') = S (length (ls_pages st)).

(** ** Chapter extraction: the spine loop of [parseEpub] *)

(** An entry of the archive; [async_text] is [None] when reading the
    entry rejects. *)
Record ZipObject : Type := { async_text : option string }.

(** [<item id=.. href=..>] of the manifest; a missing attribute reads as
    [null]. *)
Record ManifestItem : Type := {
  item_id : option string;
  item_href : option string
}.

(** [<itemref idref=..>] of the spine. *)
Record SpineItem : Type := { idref : option string }.

(** [a === b] on attribute values ([string | null]). *)
Definition attrEq (a b : option string) : bool :=
  match a, b with
  | Some x, Some y => String.eqb x y
  | None, None => true
  | _, _ => false
  end.

Module ParseEpub.
Section WithArchive.

(** [new DOMParser().parseFromString(text, 'text/html')]: the document
    node, its children being the document's. It never throws. *)
Variable parseFromString : string -> node.

(** [epub.files] *)
Variable files : gmap string ZipObject.

(** [epub.file(path)] *)
Definition file (path : string) : option ZipObject := files !! path.

Variable basePath : string.
Variable manifestItems : list ManifestItem.

(** [doc.querySelectorAll(sel).forEach(el => el.remove())] *)
Fixpoint removeAll (tags : list string) (n : node) : node :=
  match n with
  | Text _ => n
  | Elem t attrs cs =>
      Elem t attrs
        (flat_map (fun c => if Dom.matchesSel tags c then [] else [removeAll tags c]) cs)
  end.

(** [titleElement?.textContent] with [undefined] read as falsy. *)
Definition optTextContent (o : option node) : string :=
  match o with
  | Some n => Dom.textContent n
  | None => ""
  end.

(** Lines 294-313: the chapter built from an entry's text. *)
Definition makeChapter (epubChapters : list EpubChapter.t)
    (spineIdref : option string) (fullPath chapterContent : string)
    : EpubChapter.t :=
  let doc := removeAll ["script"; "style"; "meta"; "link"]
                       (parseFromString chapterContent) in
  let titleElement := Dom.querySelector ["title"; "h1"; "h2"] doc in
  let title := Js.or (optTextContent titleElement)
                     ("Chapter " +:+ Js.ofZ (Z.of_nat (length epubChapters) + 1)) in
  let bodyElement := Dom.querySelector ["body"] doc in
  let content := match bodyElement with
                 | Some body => Dom.innerHTML body
                 | None => chapterContent
                 end in
  {| EpubChapter.id := Js.or (default "" spineIdref)
                             ("chapter-" +:+ Js.ofZ (Z.of_nat (length epubChapters)));
     EpubChapter.title := Js.trim title;
     EpubChapter.content := content;
     EpubChapter.href := fullPath |}.

(** One iteration of the spine loop (lines 271-328). *)
Definition spineStep (epubChapters : list EpubChapter.t)
    (spineItem : SpineItem) : list EpubChapter.t :=
  match List.find (fun item => attrEq (item_id item) (idref spineItem)) manifestItems with
  | Some manifestItem =>
      match item_href manifestItem with
      | Some href =>
          if Js.nonEmpty href then
            let fullPath := basePath +:+ href in
            match file fullPath with
            | Some chapterFile =>
                match async_text chapterFile with
                | Some chapterContent =>
                    epubChapters ++
                      [makeChapter epubChapters (idref spineItem) fullPath chapterContent]
                | None => epubChapters
                end
            | None => epubChapters
            end
          else epubChapters
      | None => epubChapters
      end
  | None => epubChapters
  end.

Definition extractChapters (spineItems : list SpineItem) : list EpubChapter.t :=
  fold_left spineStep spineItems [].

(** Lines 330-342: the outcome of [parseEpub] once the package document
    is read: the rethrown error message, or the chapters with the
    metadata. *)
Definition parseEpubResult (epubMetadata : EpubMetadata)
    (spineItems : list SpineItem)
    : string + (list EpubChapter.t * EpubMetadata) :=
  let epubChapters := extractChapters spineItems in
  if (length epubChapters =? 0)%nat
  then inl ("Failed to parse EPUB: " +:+ "No readable chapters found in EPUB")
  else inr (epubChapters, epubMetadata).

(** *** Vocabulary for the extraction's properties *)

Definition manifestItemOf (spineItem : SpineItem) : option ManifestItem :=
  List.find (fun item => attrEq (item_id item) (idref spineItem)) manifestItems.

(** The four ways a spine entry fails to give a chapter. *)
Inductive skipped (spineItem : SpineItem) : Prop :=
| MissingManifestItem :
    manifestItemOf spineItem = None -> skipped spineItem
| MissingHref (m : ManifestItem) :
    manifestItemOf spineItem = Some m ->
    item_href m = None \/ item_href m = Some "" ->
    skipped spineItem
| MissingArchiveEntry (m : ManifestItem) (href : string) :
    manifestItemOf spineItem = Some m ->
    item_href m = Some href ->
    file (basePath +:+ href) = None ->
    skipped spineItem
| ChapterError (m : ManifestItem) (href : string) (chapterFile : ZipObject) :
    manifestItemOf spineItem = Some m ->
    item_href m = Some href ->
    file (basePath +:+ href) = Some chapterFile ->
    async_text chapterFile = None ->
    skipped spineItem.

(** Whether a spine entry gives a chapter. *)
Definition loads (spineItem : SpineItem) : bool :=
  match manifestItemOf spineItem with
  | Some m =>
      match item_href m with
      | Some href =>
          Js.nonEmpty href
          && match file (basePath +:+ href) with
             | Some chapterFile =>
                 match async_text chapterFile with
                 | Some _ => true
                 | None => false
                 end
             | None => false
             end
      | None => false
      end
  | None => false
  end.

End WithArchive.
End ParseEpub.
Import ParseEpub.

(** ** The reading session *)

(** One call of [onProgressUpdate(bookId, progress, currentCfi, currentPage)]. *)
Record SinkCall : Type := {
  sink_bookId : string;
  sink_progress : Q;
  sink_currentCfi : string;
  sink_currentPage : Z
}.

(** An [initReader] run suspended at one of its two [await]s, with the
    text settings its closure captured. *)
Inductive RunPhase : Type := AwaitingUrl | AwaitingParse.

Record InitRun : Type := {
  run_phase : RunPhase;
  run_settings : TextSettings
}.

(** The component's state hooks and refs. *)
Record Session : Type := {
  pages : list EpubPage.t;
  currentPageIndex : Z;
  metadata : option EpubMetadata;
  isLoading : bool;
  error : option string;
  initializationRef : option string;
  mountedRef : bool;
  textSettings : TextSettings;
  doublePageView : bool;
  runs : list InitRun
}.

Definition setCurrentPageIndex (i : Z) (s : Session) : Session :=
  {| pages := pages s; currentPageIndex := i; metadata := metadata s;
     isLoading := isLoading s; error := error s;
     initializationRef := initializationRef s; mountedRef := mountedRef s;
     textSettings := textSettings s; doublePageView := doublePageView s;
     runs := runs s |}.

Definition setDoublePageView (b : bool) (s : Session) : Session :=
  {| pages := pages s; currentPageIndex := currentPageIndex s; metadata := metadata s;
     isLoading := isLoading s; error := error s;
     initializationRef := initializationRef s; mountedRef := mountedRef s;
     textSettings := textSettings s; doublePageView := b;
     runs := runs s |}.

Definition setTextSettings (t : TextSettings) (s : Session) : Session :=
  {| pages := pages s; currentPageIndex := currentPageIndex s; metadata := metadata s;
     isLoading := isLoading s; error := error s;
     initializationRef := initializationRef s; mountedRef := mountedRef s;
     textSettings := t; doublePageView := doublePageView s;
     runs := runs s |}.

Definition setInitializationRef (r : option string) (s : Session) : Session :=
  {| pages := pages s; currentPageIndex := currentPageIndex s; metadata := metadata s;
     isLoading := isLoading s; error := error s;
     initializationRef := r; mountedRef := mountedRef s;
     textSettings := textSettings s; doublePageView := doublePageView s;
     runs := runs s |}.

Definition setRuns (r : list InitRun) (s : Session) : Session :=
  {| pages := pages s; currentPageIndex := currentPageIndex s; metadata := metadata s;
     isLoading := isLoading s; error := error s;
     initializationRef := initializationRef s; mountedRef := mountedRef s;
     textSettings := textSettings s; doublePageView := doublePageView s;
     runs := r |}.

Definition setMountedRef (b : bool) (s : Session) : Session :=
  {| pages := pages s; currentPageIndex := currentPageIndex s; metadata := metadata s;
     isLoading := isLoading s; error := error s;
     initializationRef := initializationRef s; mountedRef := b;
     textSettings := textSettings s; doublePageView := doublePageView s;
     runs := runs s |}.

(** [setIsLoading(l); setError(e)] *)
Definition setLoadStatus (l : bool) (e : option string) (s : Session) : Session :=
  {| pages := pages s; currentPageIndex := currentPageIndex s; metadata := metadata s;
     isLoading := l; error := e;
     initializationRef := initializationRef s; mountedRef := mountedRef s;
     textSettings := textSettings s; doublePageView := doublePageView s;
     runs := runs s |}.

(** [pages.length] *)
Definition pagesLength (s : Session) : Z := Z.of_nat (length (pages s)).

(** The initial [textSettings] (lines 90-96). *)
Definition initialTextSettings : TextSettings :=
  {| fontSize := 18;
     fontFamily := "-apple-system, BlinkMacSystemFont, "
                   +:+ String Dom.dquote ("Segoe UI" +:+ String Dom.dquote
                                          ", Roboto, sans-serif");
     lineHeight := 16 # 10;
     margin := 40;
     theme := light |}.

(** *** Navigation (lines 567-583) *)

Definition goToNext (s : Session) : Session :=
  let increment := if doublePageView s then 2 else 1 in
  if currentPageIndex s + increment <=? pagesLength s - 1 then
    setCurrentPageIndex (Z.min (currentPageIndex s + increment) (pagesLength s - 1)) s
  else s.

Definition goToPrev (s : Session) : Session :=
  let decrement := if doublePageView s then 2 else 1 in
  if currentPageIndex s - decrement >=? 0 then
    setCurrentPageIndex (Z.max (currentPageIndex s - decrement) 0) s
  else s.

(** *** The double page checkbox (lines 977-983); [%] is the truncating
    remainder. *)
Definition onDoublePageChange (checked : bool) (s : Session) : Session :=
  let s' := setDoublePageView checked s in
  if checked && negb (Z.rem (currentPageIndex s) 2 =? 0) then
    setCurrentPageIndex (Z.max 0 (currentPageIndex s' - 1)) s'
  else s'.

(** *** The progress sink (lines 588-623) *)

Section Sink.

Variable book : Book.

(** Whether the optional [onProgressUpdate] prop is given. *)
Variable onProgressUpdate : bool.

(** The call [saveProgress] schedules behind its one second debounce. *)
Definition saveProgress (pageIndex totalPages : Z) : option SinkCall :=
  if negb onProgressUpdate || (totalPages =? 0) then None
  else
    Some {| sink_bookId := book_id book;
            sink_progress :=
              Qmax 0 (Qmin 1 (inject_Z pageIndex / inject_Z totalPages));
            sink_currentCfi := "page-" +:+ Js.ofZ (pageIndex + 1);
            sink_currentPage := pageIndex + 1 |}.

(** The call [saveProgressImmediately] makes at once. *)
Definition saveProgressImmediately (pageIndex totalPages : Z) : option SinkCall :=
  if negb onProgressUpdate || (totalPages =? 0) then None
  else
    Some {| sink_bookId := book_id book;
            sink_progress :=
              Qmax 0 (Qmin 1 (inject_Z pageIndex / inject_Z totalPages));
            sink_currentCfi := "page-" +:+ Js.ofZ (pageIndex + 1);
            sink_currentPage := pageIndex + 1 |}.

(** The page change effect (lines 626-631). *)
Definition progressEffect (s : Session) : option SinkCall :=
  if (pagesLength s >? 0) && negb (isLoading s)
  then saveProgress (currentPageIndex s) (pagesLength s)
  else None.

(** [handleBackToLibrary] (lines 634-638). *)
Definition handleBackToLibrary (s : Session) : option SinkCall :=
  if pagesLength s >? 0
  then saveProgressImmediately (currentPageIndex s) (pagesLength s)
  else None.

(** The cleanup of the effect of lines 687-699, run when the component
    unmounts and before the effect runs again. *)
Definition unmountCleanup (s : Session) : option SinkCall :=
  if (pagesLength s >? 0) && (currentPageIndex s >=? 0)
  then saveProgressImmediately (currentPageIndex s) (pagesLength s)
  else None.

End Sink.

(** *** Opening the book (lines 346-459) *)

(** Lines 425-435. [x && x > c] is [x > c] on numbers. The product of
    line 432 is the binary64 product of the progress and the page count,
    and [Math.floor] is taken of that rounded product; when the product
    is infinite, [Math.min] picks [epubPages.length - 1]. *)
Definition initialPageIndex (book : Book) (pagesLen : Z) : Z :=
  if currentPage book >? 1 then
    Z.max 0 (Z.min (currentPage book - 1) (pagesLen - 1))
  else if negb (Qle_bool (progress book) 0) then
    match Double.floor (Double.mul (Double.ofQ (progress book))
                                   (Double.ofZ pagesLen)) with
    | Some floored => Z.max 0 (Z.min floored (pagesLen - 1))
    | None => Z.max 0 (pagesLen - 1)
    end
  else 0.

Definition layoutDepsChanged (old new : TextSettings) : bool :=
  negb ((fontSize old =? fontSize new)
        && String.eqb (fontFamily old) (fontFamily new)
        && Qeq_bool (lineHeight old) (lineHeight new)
        && (margin old =? margin new)).

Fixpoint removeNth {A : Type} (k : nat) (l : list A) : list A :=
  match l, k with
  | [], _ => []
  | _ :: rest, O => rest
  | x :: rest, S k' => x :: removeNth k' rest
  end.

Inductive Event : Type :=
| SetTextSettings (new : TextSettings)
| UrlResolved (k : nat)
| ParseResolved (k : nat) (parsedChapters : list EpubChapter.t)
                (parsedMetadata : EpubMetadata)
| RunRejected (k : nat) (message : string)
| GoToNext
| GoToPrev
| DoublePageChange (checked : bool)
| Retry
| BackToLibrary
| Unmount.

Module Controller.
Section WithProps.

Variable parseFragment : string -> list node.
Variable scrollHeight : TextSettings -> string -> Z.
Variable innerHeight : Z.
Variable book : Book.
Variable onProgressUpdate : bool.

(** The initialisation effect with the synchronous head of
    [initReader] (lines 349-388). The viewer [div] is rendered, and
    [viewerRef] set, exactly when no error is shown. *)
Definition initEffect (s : Session) : Session :=
  match error s with
  | Some _ => s
  | None =>
      if attrEq (initializationRef s) (Some (book_id book)) then s
      else if negb (mountedRef s) then setInitializationRef (Some (book_id book)) s
      else
        setRuns (runs s ++ [{| run_phase := AwaitingUrl;
                               run_settings := textSettings s |}])
          (setLoadStatus true None
             (setInitializationRef (Some (book_id book)) s))
  end.

(** The re-split effect (lines 462-468), reading [pages] and [metadata]
    of the render it belongs to. *)
Definition resplitEffect (rendered s : Session) : Session :=
  if (pagesLength rendered >? 0) && bool_decide (is_Some (metadata rendered))
  then setInitializationRef None s
  else s.

(** A change of [textSettings]: the new render, then its effects in the
    order of their declaration. *)
Definition changeTextSettings (new : TextSettings) (s : Session) : Session :=
  let rendered := setTextSettings new s in
  let s1 := initEffect rendered in
  if layoutDepsChanged (textSettings s) new then resplitEffect rendered s1 else s1.

(** The [catch] of [initReader] (lines 442-454). *)
Definition initFailed (message : string) (s : Session) : Session :=
  if negb (mountedRef s) then s
  else setInitializationRef None (setLoadStatus false (Some message) s).

(** [initReader] after [getBookUrl] resolves (lines 391-395). *)
Definition afterUrl (k : nat) (s : Session) : Session :=
  match runs s !! k with
  | Some {| run_phase := AwaitingUrl; run_settings := captured |} =>
      if negb (mountedRef s)
         || negb (attrEq (initializationRef s) (Some (book_id book)))
      then setRuns (removeNth k (runs s)) s
      else setRuns (<[k := {| run_phase := AwaitingParse;
                              run_settings := captured |}]> (runs s)) s
  | _ => s
  end.

(** [initReader] after the parse resolves (lines 406-440). The state
    updates of lines 420-438 are applied together, in one render. *)
Definition afterParse (k : nat) (parsedChapters : list EpubChapter.t)
    (parsedMetadata : EpubMetadata) (s : Session) : Session :=
  match runs s !! k with
  | Some {| run_phase := AwaitingParse; run_settings := captured |} =>
      let s0 := setRuns (removeNth k (runs s)) s in
      if negb (mountedRef s0) then s0
      else if (length parsedChapters =? 0)%nat then
        initFailed "No readable chapters found in EPUB file" s0
      else
        let epubPages :=
          splitIntoPages parseFragment scrollHeight innerHeight
                         parsedChapters captured in
        {| pages := epubPages;
           currentPageIndex :=
             initialPageIndex book (Z.of_nat (length epubPages));
           metadata := Some parsedMetadata;
           isLoading := false;
           error := error s0;
           initializationRef := initializationRef s0;
           mountedRef := mountedRef s0;
           textSettings := textSettings s0;
           doublePageView := doublePageView s0;
           runs := runs s0 |}
  | _ => s
  end.

(** A rejected [await] of run [k]. *)
Definition afterReject (k : nat) (message : string) (s : Session) : Session :=
  match runs s !! k with
  | Some _ => initFailed message (setRuns (removeNth k (runs s)) s)
  | None => s
  end.

(** The retry button of the error view (lines 759-764). *)
Definition retry (s : Session) : Session :=
  match error s with
  | Some _ => setInitializationRef None (setLoadStatus true None s)
  | None => s
  end.

(** The state after the first render and its effects. *)
Definition mountSession : Session :=
  initEffect
    {| pages := []; currentPageIndex := 0; metadata := None;
       isLoading := true; error := None; initializationRef := None;
       mountedRef := true; textSettings := initialTextSettings;
       doublePageView := false; runs := [] |}.

Definition step (s : Session) (e : Event) : Session :=
  if negb (mountedRef s) then s
  else
    match e with
    | SetTextSettings new => changeTextSettings new s
    | UrlResolved k => afterUrl k s
    | ParseResolved k chapters md => afterParse k chapters md s
    | RunRejected k message => afterReject k message s
    | GoToNext => goToNext s
    | GoToPrev => goToPrev s
    | DoublePageChange checked => onDoublePageChange checked s
    | Retry => retry s
    | BackToLibrary => s
    | Unmount => setMountedRef false s
    end.

(** The dependencies of the page change effect (line 631). *)
Definition progressDepsChanged (s s' : Session) : bool :=
  negb ((currentPageIndex s =? currentPageIndex s')
        && (pagesLength s =? pagesLength s')
        && Bool.eqb (isLoading s) (isLoading s')).

(** The dependencies of the effect whose cleanup saves the position
    (line 699). *)
Definition cleanupDepsChanged (s s' : Session) : bool :=
  negb ((currentPageIndex s =? currentPageIndex s')
        && (pagesLength s =? pagesLength s')).

(** The sink calls an event causes: those made at once and those
    scheduled behind the debounce, whether or not a later event clears
    the timer. After the render that follows the event, the cleanups of
    the effects whose dependencies changed run first, with the values of
    the render they belong to, and the effects after them: the cleanup
    of lines 688-698 saves the position that is left at once, then the
    page change effect schedules the save of the new position. *)
Definition emits (s : Session) (e : Event) : list SinkCall :=
  if negb (mountedRef s) then []
  else
    match e with
    | BackToLibrary => option_list (handleBackToLibrary book onProgressUpdate s)
    | Unmount => option_list (unmountCleanup book onProgressUpdate s)
    | _ =>
        let s' := step s e in
        (if cleanupDepsChanged s s'
         then option_list (unmountCleanup book onProgressUpdate s)
         else [])
        ++ (if progressDepsChanged s s'
            then option_list (progressEffect book onProgressUpdate s')
            else [])
    end.

(** The session after a trace of events, with every sink call made on
    the way. *)
Fixpoint run (s : Session) (trace : list Event) : Session * list SinkCall :=
  match trace with
  | [] => (s, [])
  | e :: rest =>
      let '(s', calls) := run (step s e) rest in
      (s', emits s e ++ calls)
  end.

End WithProps.
End Controller.
Import Controller.

(** ** The specification's wording

    Definitions that follow the specification's sentences rather than the
    source, to be compared with the source's. *)

Module Spec.

(** "clamp to valid bounds" *)
Definition clamp (lo hi x : Z) : Z := Z.max lo (Z.min x hi).

(** "single-page mode advances the index by 1; double-page mode by 2;
    both clamp to valid bounds" *)
Definition goToNext (s : Session) : Session :=
  let increment := if doublePageView s then 2 else 1 in
  setCurrentPageIndex (clamp 0 (pagesLength s - 1) (currentPageIndex s + increment)) s.

Definition goToPrev (s : Session) : Session :=
  let decrement := if doublePageView s then 2 else 1 in
  setCurrentPageIndex (clamp 0 (pagesLength s - 1) (currentPageIndex s - decrement)) s.

(** "a fractional value [(currentPageIndex+1)/pageCount]" *)
Definition fractionalProgress (currentPageIndex pageCount : Z) : Q :=
  inject_Z (currentPageIndex + 1) / inject_Z pageCount.

(** "[|newIndex/newCount - oldIndex/oldCount| ≤ 1/newCount]" *)
Definition withinOnePage (oldIndex oldCount newIndex newCount : Z) : Prop :=
  (Qabs (inject_Z newIndex / inject_Z newCount - inject_Z oldIndex / inject_Z oldCount)
   <= 1 / inject_Z newCount)%Q.

End Spec.

(** ** A reference browser

    A small parser and a small layout rule, used to run the component on
    concrete books. The parser reads well-formed fragments made of text
    and attribute-free tags; the layout rule gives every character of
    markup the height of one font size. *)

Module Reference.

Fixpoint untilChar (c : ascii) (s : string) : string * string :=
  match s with
  | EmptyString => (EmptyString, EmptyString)
  | String d rest =>
      if Ascii.eqb d c then (EmptyString, s)
      else let '(pre, post) := untilChar c rest in (String d pre, post)
  end.

Definition dropChar (s : string) : string :=
  match s with
  | EmptyString => EmptyString
  | String _ rest => rest
  end.

Fixpoint parseNodes (fuel : nat) (s : string) : list node * string :=
  match fuel with
  | O => ([], s)
  | S fuel' =>
      match s with
      | EmptyString => ([], EmptyString)
      | String "<" (String "/" _) => ([], s)
      | String "<" rest =>
          let '(t, after) := untilChar ">" rest in
          if Dom.inTags Dom.voidTags t then
            let '(siblings, r) := parseNodes fuel' (dropChar after) in
            (Elem t [] [] :: siblings, r)
          else
            let '(kids, r1) := parseNodes fuel' (dropChar after) in
            let r2 := dropChar (snd (untilChar ">" r1)) in
            let '(siblings, r3) := parseNodes fuel' r2 in
            (Elem t [] kids :: siblings, r3)
      | _ =>
          let '(txt, after) := untilChar "<" s in
          let '(siblings, r) := parseNodes fuel' after in
          (Text txt :: siblings, r)
      end
  end.

Definition parseFragment (html : string) : list node :=
  fst (parseNodes (S (String.length html)) html).

(** The document of a chapter file: whatever the fragment parser reads,
    under a document node. *)
Definition parseFromString (text : string) : node :=
  Elem "#document" [] (parseFragment text).

Definition scrollHeight (settings : TextSettings) (html : string) : Z :=
  fontSize settings * Z.of_nat (String.length html).

(** [window.innerHeight]; the page height is then 515. *)
Definition innerHeight : Z := 800.

Definition chapter (title content : string) : EpubChapter.t :=
  {| EpubChapter.id := title;
     EpubChapter.title := title;
     EpubChapter.content := content;
     EpubChapter.href := "OEBPS/" +:+ title +:+ ".xhtml" |}.

(** [n] paragraphs of eleven characters of markup each: at font size 18
    two of them fit a page, at font size 24 one. *)
Fixpoint paragraphs (n : nat) : string :=
  match n with
  | O => ""
  | S n' => "<p>xxxx</p>" +:+ paragraphs n'
  end.

(** A book of sixteen paragraphs: ten pages at font size 18, sixteen at
    font size 24. *)
Definition chapters : list EpubChapter.t :=
  [chapter "one" (paragraphs 12); chapter "two" (paragraphs 1);
   chapter "three" (paragraphs 1); chapter "four" (paragraphs 1);
   chapter "five" (paragraphs 1)].

(** A book of twenty pages at font size 18. *)
Definition longChapters : list EpubChapter.t := [chapter "long" (paragraphs 40)].

Definition epubMetadata : EpubMetadata :=
  {| md_title := "A book"; md_author := "Unknown Author"; md_language := "en" |}.

(** A book not read yet, as the library creates it. *)
Definition newBook : Book :=
  {| book_id := "book-1"; fileName := "book.epub"; progress := 0; currentPage := 1 |}.

(** A book left half way, without a saved page. *)
Definition halfReadBook : Book :=
  {| book_id := "book-1"; fileName := "book.epub"; progress := 1 # 2; currentPage := 1 |}.

Definition largerFont : TextSettings :=
  {| fontSize := 24;
     fontFamily := fontFamily initialTextSettings;
     lineHeight := lineHeight initialTextSettings;
     margin := margin initialTextSettings;
     theme := light |}.

Definition largerFontDark : TextSettings :=
  {| fontSize := 24;
     fontFamily := fontFamily initialTextSettings;
     lineHeight := lineHeight initialTextSettings;
     margin := margin initialTextSettings;
     theme := dark |}.

(** The session of [book] after the events of [trace]. *)
Definition sessionAfter (book : Book) (trace : list Event) : Session :=
  fst (run parseFragment scrollHeight innerHeight book true
           (mountSession book) trace).

(** Opening the sixteen paragraph book. *)
Definition openTrace : list Event :=
  [UrlResolved 0; ParseResolved 0 chapters epubMetadata].

(** An archive of three spine entries whose second manifest item has no
    [href]. *)
Definition files : gmap string ZipObject :=
  <["OEBPS/c1.xhtml" := {| async_text := Some "<body><h1>One</h1><p>first</p></body>" |}]>
  (<["OEBPS/c3.xhtml" := {| async_text := Some "<body><p>third</p></body>" |}]> ∅).

Definition manifestItems : list ManifestItem :=
  [{| item_id := Some "c1"; item_href := Some "c1.xhtml" |};
   {| item_id := Some "c2"; item_href := None |};
   {| item_id := Some "c3"; item_href := Some "c3.xhtml" |}].

Definition spineItems : list SpineItem :=
  [{| idref := Some "c1" |}; {| idref := Some "c2" |}; {| idref := Some "c3" |}].

End Reference.

(** ** Further vocabulary: the shape of a pagination *)

(** A page without its id: content, chapter title and page number. *)
Definition pageBody (p : EpubPage.t) : string * string * Z :=
  (EpubPage.content p, EpubPage.chapterTitle p, EpubPage.pageNumber p).

Definition bodies (ps : list EpubPage.t) : list (string * string * Z) :=
  map pageBody ps.

(** The id of the page at position [k] of the page sequence. *)
Definition idAt (k : nat) : string := "page-" +:+ Js.ofZ (Z.of_nat k + 1).

(** Every page sits at the position its id names. *)
Definition idsInOrder (ps : list EpubPage.t) : Prop :=
  forall (k : nat) (p : EpubPage.t), nth_error ps k = Some p -> EpubPage.id p = idAt k.

(** The pages of one chapter are numbered from 1 and carry its title. *)
Definition numberedFrom (title : string) (first : Z) (ps : list EpubPage.t) : Prop :=
  forall (k : nat) (p : EpubPage.t),
    nth_error ps k = Some p ->
    EpubPage.pageNumber p = first + Z.of_nat k /\ EpubPage.chapterTitle p = title.

Module Layout.
Section WithMeasure.

Variable scrollHeight : TextSettings -> string -> Z.
Variable innerHeight : Z.
Variable settings : TextSettings.

(** A run of blocks measures within the page height. *)
Definition fits (g : list node) : Prop :=
  scrollHeight settings (groupHtml g) <= pageHeight innerHeight.

(** A run that is a lone block, or fits. *)
Definition fitsOrSingle (g : list node) : Prop :=
  length g = 1%nat \/ fits g.

(** Appending block [e] to the run [g] measures above the page height. *)
Definition overflows (g : list node) (e : node) : Prop :=
  scrollHeight settings (groupHtml g +:+ elementHtml e) > pageHeight innerHeight.

(** Every run but the last could not take the first block of the run
    that follows it. *)
Fixpoint greedyRuns (groups : list (list node)) : Prop :=
  match groups with
  | [] => True
  | g :: rest =>
      match rest with
      | (e :: _) :: _ => overflows g e
      | _ => True
      end
      /\ greedyRuns rest
  end.

(** A page content that is a lone block of [blocks], or measures within
    the page height. *)
Definition pageFits (blocks : list node) (content : string) : Prop :=
  (exists e : node, In e blocks /\ content = elementHtml e)
  \/ scrollHeight settings content <= pageHeight innerHeight.

End WithMeasure.
End Layout.
Import Layout.

(** ** The head of [parseEpub]: from the fetch to the package document *)

(** More JavaScript string operations. *)
Module JsString.

(** [s.lastIndexOf(c)] for a one character needle: the last position of
    [c], or -1. *)
Fixpoint lastIndexOf (c : ascii) (s : string) : Z :=
  match s with
  | EmptyString => -1
  | String d rest =>
      let later := lastIndexOf c rest in
      if later >=? 0 then later + 1
      else if Ascii.eqb d c then 0 else -1
  end.

(** [s.substring(0, stop)]: [stop] below 0 reads as 0, above the length
    as the length. *)
Definition substring0 (stop : Z) (s : string) : string :=
  String.substring 0 (Z.to_nat stop) s.

(** Whether [c] occurs in [s]. *)
Fixpoint includes (c : ascii) (s : string) : bool :=
  match s with
  | EmptyString => false
  | String d rest => Ascii.eqb d c || includes c rest
  end.

(** [s.endsWith(c)] for a one character suffix. *)
Fixpoint endsWith (c : ascii) (s : string) : bool :=
  match s with
  | EmptyString => false
  | String d EmptyString => Ascii.eqb d c
  | String _ rest => endsWith c rest
  end.

(** [s.startsWith(prefix)] *)
Definition startsWith (prefix s : string) : bool := String.prefix prefix s.

End JsString.

(** Selectors with a descendant combinator, as [parseEpub] uses them on
    the container and package documents. *)
Module Css.

Inductive selector : Type :=
| TypeSel (tag : string)
| DescendantSel (ancestor tag : string).

(** Whether element [n], below elements named [ancestors], matches. *)
Definition selMatches (ancestors : list string) (sel : selector) (n : node) : bool :=
  match n with
  | Text _ => false
  | Elem t _ _ =>
      match sel with
      | TypeSel x => String.eqb t x
      | DescendantSel a x => String.eqb t x && existsb (String.eqb a) ancestors
      end
  end.

Definition matchesAny (ancestors : list string) (sels : list selector) (n : node) : bool :=
  existsb (fun sel => selMatches ancestors sel n) sels.

(** The matching descendants of [n] in document order; [ancestors] names
    the elements above [n]. *)
Fixpoint selectUnder (sels : list selector) (ancestors : list string) (n : node)
    : list node :=
  match n with
  | Text _ => []
  | Elem t _ cs =>
      flat_map (fun c =>
                  (if matchesAny (t :: ancestors) sels c then [c] else [])
                  ++ selectUnder sels (t :: ancestors) c) cs
  end.

(** [document.querySelectorAll(sels)] *)
Definition querySelectorAll (sels : list selector) (document : node) : list node :=
  selectUnder sels [] document.

(** [document.querySelector(sels)] *)
Definition querySelector (sels : list selector) (document : node) : option node :=
  head (querySelectorAll sels document).

(** [element.getAttribute(name)] *)
Definition getAttribute (name : string) (n : node) : option string :=
  match n with
  | Text _ => None
  | Elem _ attrs _ =>
      match List.find (fun a => String.eqb (fst a) name) attrs with
      | Some a => Some (snd a)
      | None => None
      end
  end.

End Css.

(** What [fetch(url)], [response.arrayBuffer()] and [zip.loadAsync] give:
    a rejection with its message, or the response with, when the body was
    read and unzipped, the archive's entries. *)
Inductive FetchOutcome : Type :=
| FetchRejected (message : string)
| Responded (ok : bool) (status : Z) (statusText : string)
            (loaded : string + gmap string ZipObject).

Module ParseEpubHead.
Section WithParsers.

(** [new DOMParser().parseFromString(text, 'text/xml')] *)
Variable parseXml : string -> node.

(** [new DOMParser().parseFromString(text, 'text/html')] *)
Variable parseFromString : string -> node.

(** The message of the error a rejected [async('text')] carries. *)
Variable readError : string.

(** [book.fileName] *)
Variable bookFileName : string.

(** The [catch] of [parseEpub] (lines 338-342). *)
Definition rethrow (message : string) : string := "Failed to parse EPUB: " +:+ message.

(** Lines 259: [opfPath.substring(0, opfPath.lastIndexOf('/') + 1)] *)
Definition basePathOf (opfPath : string) : string :=
  JsString.substring0 (JsString.lastIndexOf "/" opfPath + 1) opfPath.

(** Lines 247-255. *)
Definition readMetadata (opfDoc : node) : EpubMetadata :=
  let titleElement :=
    Css.querySelector [Css.DescendantSel "metadata" "title"; Css.TypeSel "title"] opfDoc in
  let authorElement :=
    Css.querySelector [Css.DescendantSel "metadata" "creator"; Css.TypeSel "creator"] opfDoc in
  let languageElement :=
    Css.querySelector [Css.DescendantSel "metadata" "language"; Css.TypeSel "language"] opfDoc in
  {| md_title := Js.or (optTextContent titleElement) bookFileName;
     md_author := Js.or (optTextContent authorElement) "Unknown Author";
     md_language := Js.or (optTextContent languageElement) "en" |}.

(** Lines 264-265. *)
Definition readSpine (opfDoc : node) : list SpineItem :=
  map (fun n => {| idref := Css.getAttribute "idref" n |})
      (Css.querySelectorAll [Css.DescendantSel "spine" "itemref"] opfDoc).

Definition readManifest (opfDoc : node) : list ManifestItem :=
  map (fun n => {| item_id := Css.getAttribute "id" n;
                   item_href := Css.getAttribute "href" n |})
      (Css.querySelectorAll [Css.DescendantSel "manifest" "item"] opfDoc).

(** [containerDoc.querySelector('rootfile')?.getAttribute('full-path')],
    with [null], [undefined] and the empty string all falsy. *)
Definition rootfilePath (containerDoc : node) : option string :=
  match Css.querySelector [Css.TypeSel "rootfile"] containerDoc with
  | Some rootfile =>
      match Css.getAttribute "full-path" rootfile with
      | Some path => if Js.nonEmpty path then Some path else None
      | None => None
      end
  | None => None
  end.

(** [parseEpub] (lines 176-343): the rethrown error message, or the
    chapters with the metadata. *)
Definition parseEpub (outcome : FetchOutcome)
    : string + (list EpubChapter.t * EpubMetadata) :=
  match outcome with
  | FetchRejected message => inl (rethrow message)
  | Responded ok status statusText loaded =>
      if negb ok then
        inl (rethrow ("Failed to fetch EPUB: " +:+ Js.ofZ status +:+ " " +:+ statusText))
      else
        match loaded with
        | inl message => inl (rethrow message)
        | inr files =>
            match file files "META-INF/container.xml" with
            | None => inl (rethrow "Invalid EPUB: container.xml not found")
            | Some containerFile =>
                match async_text containerFile with
                | None => inl (rethrow readError)
                | Some containerContent =>
                    match rootfilePath (parseXml containerContent) with
                    | None => inl (rethrow "Invalid EPUB: OPF file path not found")
                    | Some opfPath =>
                        match file files opfPath with
                        | None => inl (rethrow "Invalid EPUB: OPF file not found")
                        | Some opfFile =>
                            match async_text opfFile with
                            | None => inl (rethrow readError)
                            | Some opfContent =>
                                let opfDoc := parseXml opfContent in
                                parseEpubResult parseFromString files
                                  (basePathOf opfPath) (readManifest opfDoc)
                                  (readMetadata opfDoc) (readSpine opfDoc)
                            end
                        end
                    end
                end
            end
        end
  end.

End WithParsers.
End ParseEpubHead.
Import ParseEpubHead.

(** The archive path a spine entry resolves to, when it gives a chapter. *)
Definition resolvedPath (files : gmap string ZipObject) (basePath : string)
    (manifestItems : list ManifestItem) (spineItem : SpineItem) : list string :=
  if loads files basePath manifestItems spineItem then
    match manifestItemOf manifestItems spineItem with
    | Some {| item_href := Some href |} => [basePath +:+ href]
    | _ => []
    end
  else [].

(** ** What the viewer shows (lines 471-558) *)

(** [pages[i]] *)
Definition pageAt (ps : list EpubPage.t) (i : Z) : option EpubPage.t :=
  if i <? 0 then None else nth_error ps (Z.to_nat i).

(** The pages the render effect puts in the viewer, each with its
    [data-page-index]; [None] when the effect returns before touching the
    viewer. *)
Definition renderedPages (s : Session) : option (list (Z * EpubPage.t)) :=
  if bool_decide (is_Some (error s)) || (pagesLength s =? 0) || isLoading s then None
  else if doublePageView s && (pagesLength s >? 1) then
    Some (flat_map (fun idx =>
                      match pageAt (pages s) (currentPageIndex s + idx) with
                      | Some page => [(currentPageIndex s + idx, page)]
                      | None => []
                      end) [0; 1])
  else
    match pageAt (pages s) (currentPageIndex s) with
    | Some currentPage => Some [(currentPageIndex s, currentPage)]
    | None => Some []
    end.

(** The index addresses a page, or is 0 while there are none. *)
Definition indexInRange (s : Session) : Prop :=
  0 <= currentPageIndex s <= Z.max 0 (pagesLength s - 1).

(** A session that shows pages: mounted, no error, pages and metadata
    loaded. *)
Definition showsPages (s : Session) : Prop :=
  mountedRef s = true /\ error s = None /\ pages s <> []
  /\ is_Some (metadata s).

(** [n] presses of the next page key. *)
Fixpoint pressNext (n : nat) (s : Session) : Session :=
  match n with
  | O => s
  | S n' => pressNext n' (goToNext s)
  end.

(** A sample archive with its container and package documents, for the
    reference parser (which reads no attributes, so attribute-bearing
    documents are given as trees). *)
Module Sample.

Definition containerDoc : node :=
  Elem "#document" []
    [Elem "container" []
       [Elem "rootfiles" []
          [Elem "rootfile" [("full-path", "OEBPS/content.opf")] []]]].

Definition opfDoc : node :=
  Elem "#document" []
    [Elem "package" []
       [Elem "metadata" []
          [Elem "title" [] [Text "A sample"]; Elem "language" [] [Text "fr"]];
        Elem "manifest" []
          [Elem "item" [("id", "c1"); ("href", "c1.xhtml")] [];
           Elem "item" [("id", "c2")] [];
           Elem "item" [("id", "c3"); ("href", "c3.xhtml")] []];
        Elem "spine" []
          [Elem "itemref" [("idref", "c1")] [];
           Elem "itemref" [("idref", "c2")] [];
           Elem "itemref" [("idref", "c3")] []]]].

(** The XML parser of the sample: the two documents by their text. *)
Definition parseXml (text : string) : node :=
  if String.eqb text "container" then containerDoc
  else if String.eqb text "package" then opfDoc
  else Elem "#document" [] [].

Definition files : gmap string ZipObject :=
  <["META-INF/container.xml" := {| async_text := Some "container" |}]>
  (<["OEBPS/content.opf" := {| async_text := Some "package" |}]> Reference.files).

(** The same archive without its container descriptor. *)
Definition filesWithoutContainer : gmap string ZipObject :=
  delete "META-INF/container.xml" files.

End Sample.

(** * Properties *)

(** ** Strings *)

Lemma append_cons (c : ascii) (s t : string) :
  String c s +:+ t = String c (s +:+ t).
Proof. reflexivity. Qed.

Lemma append_nil_r (s : string) : s +:+ "" = s.
Proof.
  induction s as [|c s IH]; [reflexivity | now rewrite append_cons, IH].
Qed.

Lemma append_assoc (a b c : string) : (a +:+ b) +:+ c = a +:+ (b +:+ c).
Proof.
  induction a as [|x a IH]; [reflexivity | now rewrite !append_cons, IH].
Qed.

Lemma join_cons (x : string) (l : list string) : Js.join (x :: l) = x +:+ Js.join l.
Proof.
  unfold Js.join. destruct l as [|y l]; simpl.
  - now rewrite append_nil_r.
  - reflexivity.
Qed.

Lemma join_app (l1 l2 : list string) : Js.join (l1 ++ l2) = Js.join l1 +:+ Js.join l2.
Proof.
  induction l1 as [|x l1 IH].
  - reflexivity.
  - rewrite <- app_comm_cons, !join_cons, IH. now rewrite append_assoc.
Qed.

Lemma trimStart_startsNonBlank (s : string) :
  startsNonBlank s = true -> Js.trimStart s = s.
Proof.
  destruct s as [|c1 r1]; [discriminate|]. simpl.
  intros H. apply andb_true_iff in H as [Hw Hlow].
  apply negb_true_iff in Hw. rewrite Hw.
  apply Nat.ltb_lt in Hlow.
  destruct r1 as [|c2 r2]; [reflexivity|].
  assert (H2 : Js.isWhiteSpace2 c1 c2 = false).
  { unfold Js.isWhiteSpace2.
    destruct (Nat.eqb_spec (nat_of_ascii c1) 194); [lia | reflexivity]. }
  rewrite H2. destruct r2 as [|c3 r3]; [reflexivity|].
  assert (H3 : Js.isWhiteSpace3 c1 c2 c3 = false).
  { unfold Js.isWhiteSpace3.
    destruct (Nat.eqb_spec (nat_of_ascii c1) 225); [lia|].
    destruct (Nat.eqb_spec (nat_of_ascii c1) 226); [lia|].
    destruct (Nat.eqb_spec (nat_of_ascii c1) 227); [lia|].
    destruct (Nat.eqb_spec (nat_of_ascii c1) 239); [lia | reflexivity]. }
  now rewrite H3.
Qed.

Lemma trimEnd_nonblank_head (s : string) :
  startsNonBlank s = true -> Js.nonEmpty (Js.trimEnd s) = true.
Proof.
  intros H. pose proof (trimStart_startsNonBlank s H) as Hs.
  destruct s as [|c rest]; [discriminate|].
  unfold Js.trimEnd. fold Js.trimEnd. rewrite Hs. reflexivity.
Qed.

Lemma trim_startsNonBlank (s : string) :
  startsNonBlank s = true -> Js.nonEmpty (Js.trim s) = true.
Proof.
  intros H. unfold Js.trim. rewrite (trimStart_startsNonBlank s H).
  now apply trimEnd_nonblank_head.
Qed.

Lemma startsNonBlank_append (s t : string) :
  startsNonBlank s = true -> startsNonBlank (s +:+ t) = true.
Proof. destruct s; [discriminate | trivial]. Qed.

Lemma trim_empty : Js.nonEmpty (Js.trim "") = false.
Proof. reflexivity. Qed.

Lemma nonEmpty_trim_nonEmpty (s : string) :
  Js.nonEmpty (Js.trim s) = true -> s <> "".
Proof. intros H ->. discriminate. Qed.

(** ** Serialised elements *)

Lemma outerHTML_startsNonBlank (n : node) :
  Dom.isElement n = true -> startsNonBlank (Dom.outerHTML n) = true.
Proof.
  destruct n as [|t attrs cs]; [discriminate|]. intros _.
  unfold Dom.outerHTML, Dom.serialize. fold Dom.serialize.
  destruct (Dom.inTags Dom.voidTags t); reflexivity.
Qed.

Lemma querySelectorAll_elements (tags : list string) (root : node) :
  Forall (fun n => Dom.isElement n = true) (Dom.querySelectorAll tags root).
Proof.
  unfold Dom.querySelectorAll. apply List.Forall_forall. intros n Hn.
  apply List.filter_In in Hn as [_ Hm]. destruct n; [discriminate | reflexivity].
Qed.

(** ** The paginator *)

Section PaginatorFacts.

Variable parseFragment : string -> list node.
Variable scrollHeight : TextSettings -> string -> Z.
Variable innerHeight : Z.

Abbreviation chapterElements := (chapterElements parseFragment).
Abbreviation elementStep := (elementStep scrollHeight innerHeight).
Abbreviation chapterStep := (chapterStep parseFragment scrollHeight innerHeight).
Abbreviation splitIntoPages := (splitIntoPages parseFragment scrollHeight innerHeight).
Abbreviation pageHeight := (pageHeight innerHeight).

Lemma chapterElements_elements (chapter : EpubChapter.t) :
  Forall (fun n => Dom.isElement n = true) (chapterElements chapter).
Proof.
  unfold Paginator.chapterElements.
  pose proof (querySelectorAll_elements blockTags (tempDiv parseFragment chapter)) as H.
  destruct (length _ =? 0)%nat; [|exact H].
  apply Forall_app; split; [exact H | repeat constructor].
Qed.

Lemma chapterElements_nonempty (chapter : EpubChapter.t) :
  chapterElements chapter <> [].
Proof.
  unfold Paginator.chapterElements.
  destruct (Dom.querySelectorAll blockTags (tempDiv parseFragment chapter)); simpl.
  - discriminate.
  - discriminate.
Qed.

Lemma elementHtml_element (n : node) :
  Dom.isElement n = true -> elementHtml n = Dom.outerHTML n.
Proof.
  intros Hn. unfold elementHtml.
  pose proof (outerHTML_startsNonBlank n Hn) as H.
  destruct (Dom.outerHTML n); [discriminate | reflexivity].
Qed.

Lemma elementHtml_startsNonBlank (n : node) :
  Dom.isElement n = true -> startsNonBlank (elementHtml n) = true.
Proof.
  intros Hn. rewrite elementHtml_element by exact Hn.
  now apply outerHTML_startsNonBlank.
Qed.

Lemma groupHtml_snoc (g : list node) (e : node) :
  groupHtml (g ++ [e]) = groupHtml g +:+ elementHtml e.
Proof.
  unfold groupHtml. rewrite map_app, join_app. simpl map.
  now rewrite join_cons, append_nil_r.
Qed.

Lemma groupHtml_single (e : node) : groupHtml [e] = elementHtml e.
Proof. unfold groupHtml. simpl map. now rewrite join_cons, append_nil_r. Qed.

(** A non-empty run of elements never trims to the empty string. *)
Lemma groupHtml_trim (g : list node) :
  Forall (fun n => Dom.isElement n = true) g ->
  Js.nonEmpty (Js.trim (groupHtml g)) = negb (length g =? 0)%nat.
Proof.
  intros Hg. destruct g as [|e g]; [reflexivity|].
  apply Forall_cons in Hg as [He _].
  unfold groupHtml. simpl map. rewrite join_cons. simpl.
  apply trim_startsNonBlank, startsNonBlank_append.
  now apply elementHtml_startsNonBlank.
Qed.

(** The inner loop cuts the blocks it is fed into consecutive runs:
    closed pages hold the earlier runs, the accumulator the last one. *)
Lemma elementLoop_partition (settings : TextSettings) (title : string)
    (els : list node) :
  Forall (fun n => Dom.isElement n = true) els ->
  forall (st : LoopState) (g0 : list node),
    Forall (fun n => Dom.isElement n = true) g0 ->
    currentPageContent st = groupHtml g0 ->
    exists (groups : list (list node)) (g' : list node),
      let st' := fold_left (elementStep settings title) els st in
      contents (ls_pages st') = contents (ls_pages st) ++ map groupHtml groups
      /\ currentPageContent st' = groupHtml g'
      /\ concat groups ++ g' = g0 ++ els
      /\ Forall (fun n => Dom.isElement n = true) g'
      /\ Forall (fun g => g <> []) groups.
Proof.
  induction 1 as [|e els He Hels IH]; intros st g0 Hg0 Hcur.
  - exists [], g0. simpl. rewrite !app_nil_r. auto.
  - simpl fold_left.
    unfold Paginator.elementStep at 2.
    destruct ((_ >? _) && Js.nonEmpty (Js.trim (currentPageContent st))) eqn:Hc.
    + apply andb_true_iff in Hc as [_ Hne].
      rewrite Hcur, groupHtml_trim in Hne by exact Hg0.
      destruct (IH {| ls_pages := ls_pages st ++
                        [newPage (ls_pages st) (currentPageContent st) title
                                 (ls_pageNumber st)];
                      currentPageContent := elementHtml e;
                      ls_pageNumber := ls_pageNumber st + 1 |} [e])
        as (groups & g' & Hp & Hc' & Hcat & Hg' & Hgs).
      { now constructor. }
      { simpl. now rewrite groupHtml_single. }
      exists (g0 :: groups), g'. cbv zeta in *. simpl in Hp.
      repeat split; try assumption.
      * rewrite Hp. unfold contents. rewrite map_app. simpl.
        rewrite Hcur, <- app_assoc. reflexivity.
      * simpl. rewrite <- app_assoc, Hcat. reflexivity.
      * constructor; [|exact Hgs]. intros ->. discriminate.
    + destruct (IH {| ls_pages := ls_pages st;
                      currentPageContent := currentPageContent st +:+ elementHtml e;
                      ls_pageNumber := ls_pageNumber st |} (g0 ++ [e]))
        as (groups & g' & Hp & Hc' & Hcat & Hg' & Hgs).
      { apply Forall_app; split; [exact Hg0 | now constructor]. }
      { simpl. now rewrite groupHtml_snoc, Hcur. }
      exists groups, g'. cbv zeta in *. simpl in Hp.
      repeat split; try assumption.
      rewrite Hcat, <- app_assoc. reflexivity.
Qed.

(** A chapter adds one page per run, and the runs are its blocks. *)
Lemma chapterStep_partition (settings : TextSettings)
    (ps : list EpubPage.t) (chapter : EpubChapter.t) :
  exists groups : list (list node),
    contents (chapterStep settings ps chapter) = contents ps ++ map groupHtml groups
    /\ concat groups = chapterElements chapter
    /\ Forall (fun g => g <> []) groups.
Proof.
  unfold Paginator.chapterStep.
  destruct (elementLoop_partition settings (EpubChapter.title chapter)
              (chapterElements chapter) (chapterElements_elements chapter)
              {| ls_pages := ps; currentPageContent := ""; ls_pageNumber := 1 |} [])
    as (groups & g' & Hp & Hc & Hcat & Hg' & Hgs); [constructor | reflexivity |].
  cbv zeta in *. simpl in Hp, Hcat.
  pose proof (groupHtml_trim g' Hg') as Ht. rewrite <- Hc in Ht.
  destruct g' as [|e g'].
  - exists groups. unfold flush. rewrite Ht. simpl.
    rewrite app_nil_r in Hcat. auto.
  - exists (groups ++ [e :: g']). unfold flush. rewrite Ht. simpl.
    repeat split.
    + unfold contents in *. rewrite !map_app, Hp, Hc. simpl.
      now rewrite app_assoc.
    + rewrite concat_app. simpl. now rewrite app_nil_r.
    + apply Forall_app; split; [exact Hgs | repeat constructor; discriminate].
Qed.

Lemma chapterLoop_partition (settings : TextSettings)
    (chapters : list EpubChapter.t) :
  forall ps : list EpubPage.t,
  exists groups : list (list node),
    contents (fold_left (chapterStep settings) chapters ps)
      = contents ps ++ map groupHtml groups
    /\ concat groups = flat_map chapterElements chapters
    /\ Forall (fun g => g <> []) groups.
Proof.
  induction chapters as [|chapter chapters IH]; intros ps.
  - exists []. simpl. rewrite app_nil_r. auto.
  - simpl fold_left.
    destruct (chapterStep_partition settings ps chapter) as (g1 & Hp1 & Hc1 & Hn1).
    destruct (IH (chapterStep settings ps chapter)) as (g2 & Hp2 & Hc2 & Hn2).
    exists (g1 ++ g2). repeat split.
    + rewrite Hp2, Hp1, map_app, app_assoc. reflexivity.
    + rewrite concat_app, Hc1, Hc2. reflexivity.
    + apply Forall_app; auto.
Qed.

Lemma join_concat_groups (groups : list (list node)) :
  Js.join (map groupHtml groups) = groupHtml (concat groups).
Proof.
  induction groups as [|g groups IH]; [reflexivity|].
  simpl map. rewrite join_cons, IH. unfold groupHtml.
  simpl concat. now rewrite map_app, join_app.
Qed.

Lemma splitIntoPages_nonempty (chapters : list EpubChapter.t)
    (settings : TextSettings) :
  chapters <> [] -> splitIntoPages chapters settings <> [].
Proof.
  intros Hne Hnil.
  destruct (chapterLoop_partition settings chapters []) as (groups & Hp & Hc & _).
  unfold Paginator.splitIntoPages in Hnil. rewrite Hnil in Hp. simpl in Hp.
  destruct groups; [|discriminate].
  destruct chapters as [|chapter chapters]; [congruence|].
  simpl in Hc. symmetry in Hc. apply app_eq_nil in Hc as [Hc _].
  now apply chapterElements_nonempty in Hc.
Qed.

(** The pages, read in order, are the element list of the chapters (each
    element selected by [querySelectorAll], or the wrapping [div] when
    none is) cut into consecutive non-empty runs, one run per page. *)
Lemma splitIntoPages_round_trip (chapters : list EpubChapter.t)
    (settings : TextSettings) :
  Js.join (contents (splitIntoPages chapters settings))
    = Js.join (map elementHtml (flat_map chapterElements chapters))
  /\ exists groups : list (list node),
       concat groups = flat_map chapterElements chapters
       /\ contents (splitIntoPages chapters settings) = map groupHtml groups
       /\ Forall (fun g => g <> []) groups.
Proof.
  destruct (chapterLoop_partition settings chapters []) as (groups & Hp & Hc & Hn).
  simpl in Hp. split.
  - unfold Paginator.splitIntoPages. rewrite Hp, join_concat_groups, Hc.
    reflexivity.
  - exists groups. auto.
Qed.

(** C1, as the code behaves where a block lies inside another block.
    For a chapter whose content is a [div] around one paragraph of text,
    under every layout and every settings, the selector lists the [div]
    and the paragraph inside it, and the page contents put together are
    the markup of the [div], the paragraph included, followed by the
    markup of the paragraph: the paragraph comes out twice, not once. *)
Theorem nested_block_emitted_twice (chapter : EpubChapter.t)
    (settings : TextSettings) (text : string) :
  let paragraph := Elem "p" [] [Text text] in
  let block := Elem "div" [] [paragraph] in
  parseFragment (EpubChapter.content chapter) = [block] ->
  chapterElements chapter = [block; paragraph]
  /\ Dom.outerHTML block = "<div>" +:+ Dom.outerHTML paragraph +:+ "</div>"
  /\ Js.join (contents (splitIntoPages [chapter] settings))
     = "<div>" +:+ Dom.outerHTML paragraph +:+ "</div>"
       +:+ Dom.outerHTML paragraph.
Proof.
  intros paragraph block Hparse.
  assert (Hels : chapterElements chapter = [block; paragraph]).
  { unfold Paginator.chapterElements, Paginator.tempDiv. rewrite Hparse.
    reflexivity. }
  assert (Hblock : Dom.outerHTML block
                   = "<div>" +:+ Dom.outerHTML paragraph +:+ "</div>").
  { subst block. unfold Dom.outerHTML, Dom.serialize. fold Dom.serialize.
    simpl Dom.inTags. cbv iota. unfold Dom.startTag, Dom.endTag.
    simpl map. rewrite !join_cons. unfold Js.join at 1 2. simpl fold_right.
    rewrite !append_nil_r. reflexivity. }
  split; [exact Hels|]. split; [exact Hblock|].
  destruct (chapterLoop_partition settings [chapter] []) as (groups & Hp & Hc & _).
  change (contents [] ++ map groupHtml groups) with (map groupHtml groups) in Hp.
  unfold Paginator.splitIntoPages.
  rewrite Hp, join_concat_groups, Hc. simpl flat_map. rewrite app_nil_r, Hels.
  unfold groupHtml. simpl map. rewrite !join_cons.
  unfold Js.join. simpl fold_right. rewrite append_nil_r.
  rewrite (elementHtml_element block), (elementHtml_element paragraph);
    [|reflexivity|reflexivity].
  rewrite Hblock, !append_assoc. reflexivity.
Qed.

(** C5. A chapter whose only block measures above the page height
    yields exactly one page, holding that block; and an iteration closes
    a page exactly when the measured height exceeds the page height and
    the accumulator was not empty before the block was appended. *)
Theorem oversized_sole_block_one_page (settings : TextSettings)
    (chapter : EpubChapter.t) (e : node)
    (st : LoopState) (g : list node) (title : string) (el : node) :
  chapterElements chapter = [e] ->
  scrollHeight settings (elementHtml e) > pageHeight ->
  Forall (fun n => Dom.isElement n = true) g ->
  currentPageContent st = groupHtml g ->
  splitIntoPages [chapter] settings
    = [{| EpubPage.id := "page-1";
          EpubPage.content := elementHtml e;
          EpubPage.chapterTitle := EpubChapter.title chapter;
          EpubPage.pageNumber := 1 |}]
  /\ (closesPage st (elementStep settings title st el)
      <-> scrollHeight settings (currentPageContent st +:+ elementHtml el)
            > pageHeight
          /\ currentPageContent st <> "").
Proof.
  intros Hsole _ Hg Hcur. split.
  - pose proof (chapterElements_elements chapter) as Hel.
    rewrite Hsole in Hel. apply Forall_cons in Hel as [He _].
    unfold Paginator.splitIntoPages, Paginator.chapterStep. simpl fold_left.
    rewrite Hsole. simpl fold_left.
    unfold Paginator.elementStep. simpl currentPageContent.
    rewrite trim_empty, andb_false_r. unfold flush.
    cbn [currentPageContent ls_pages ls_pageNumber].
    change ("" +:+ elementHtml e) with (elementHtml e).
    rewrite (trim_startsNonBlank _ (elementHtml_startsNonBlank e He)).
    reflexivity.
  - unfold closesPage, Paginator.elementStep.
    pose proof (groupHtml_trim g Hg) as Ht. rewrite <- Hcur in Ht.
    destruct (Z.gtb_spec (scrollHeight settings (currentPageContent st +:+ elementHtml el))
                         pageHeight) as [Hgt|Hle]; simpl.
    + destruct g as [|b g]; rewrite Ht; simpl.
      * split; [lia|]. intros [_ Hne]. now rewrite Hcur in Hne.
      * split; [|intros _; rewrite length_app; simpl; lia].
        intros _. split; [lia|].
        apply nonEmpty_trim_nonEmpty. exact Ht.
    + split; [lia|]. intros [Hgt _]. lia.
Qed.

(** C7, as the code behaves. A chapter whose content parses to nothing
    selects no block, so the wrapping [div] becomes its only block and
    its empty markup is flushed as a page: the chapter yields one
    page. *)
Theorem empty_chapter_yields_page (settings : TextSettings)
    (chapter : EpubChapter.t) :
  parseFragment (EpubChapter.content chapter) = [] ->
  splitIntoPages [chapter] settings
    = [{| EpubPage.id := "page-1";
          EpubPage.content := "<div></div>";
          EpubPage.chapterTitle := EpubChapter.title chapter;
          EpubPage.pageNumber := 1 |}].
Proof.
  intros Hparse.
  unfold Paginator.splitIntoPages. simpl fold_left.
  unfold Paginator.chapterStep, Paginator.chapterElements, tempDiv.
  rewrite Hparse.
  change (Dom.querySelectorAll blockTags (Elem "div" [] [])) with (@nil node).
  simpl fold_left. unfold Paginator.elementStep.
  cbn [currentPageContent ls_pages ls_pageNumber].
  rewrite trim_empty, andb_false_r. reflexivity.
Qed.

End PaginatorFacts.

Lemma oversized_sole_block_one_page_witness :
  let chapter := Reference.chapter "solo" "<p>a paragraph taller than the page</p>" in
  let e := Elem "p" [] [Text "a paragraph taller than the page"] in
  let st := {| ls_pages := []; currentPageContent := ""; ls_pageNumber := 1 |} in
  chapterElements Reference.parseFragment chapter = [e]
  /\ Reference.scrollHeight initialTextSettings (elementHtml e)
       > pageHeight Reference.innerHeight
  /\ splitIntoPages Reference.parseFragment Reference.scrollHeight
       Reference.innerHeight [chapter] initialTextSettings
     = [{| EpubPage.id := "page-1";
           EpubPage.content := "<p>a paragraph taller than the page</p>";
           EpubPage.chapterTitle := "solo";
           EpubPage.pageNumber := 1 |}].
Proof.
  cbv zeta. split; [vm_compute; reflexivity|]. split; [vm_compute; reflexivity|].
  apply (oversized_sole_block_one_page Reference.parseFragment
           Reference.scrollHeight Reference.innerHeight initialTextSettings
           (Reference.chapter "solo" "<p>a paragraph taller than the page</p>")
           (Elem "p" [] [Text "a paragraph taller than the page"])
           {| ls_pages := []; currentPageContent := ""; ls_pageNumber := 1 |}
           [] "solo" (Elem "p" [] [Text "a paragraph taller than the page"])).
  - vm_compute; reflexivity.
  - vm_compute; reflexivity.
  - constructor.
  - reflexivity.
Defined.

Lemma empty_chapter_yields_page_witness :
  Reference.parseFragment "" = []
  /\ splitIntoPages Reference.parseFragment Reference.scrollHeight
       Reference.innerHeight [Reference.chapter "blank" ""] initialTextSettings
     = [{| EpubPage.id := "page-1";
           EpubPage.content := "<div></div>";
           EpubPage.chapterTitle := "blank";
           EpubPage.pageNumber := 1 |}].
Proof.
  split; [reflexivity|].
  apply (empty_chapter_yields_page Reference.parseFragment Reference.scrollHeight
           Reference.innerHeight initialTextSettings (Reference.chapter "blank" "")).
  reflexivity.
Defined.

Lemma nested_block_emitted_twice_witness :
  let chapter := Reference.chapter "nested" "<div><p>a</p></div>" in
  Reference.parseFragment (EpubChapter.content chapter)
    = [Elem "div" [] [Elem "p" [] [Text "a"]]]
  /\ contents (splitIntoPages Reference.parseFragment Reference.scrollHeight
                 Reference.innerHeight [chapter] initialTextSettings)
     = ["<div><p>a</p></div><p>a</p>"]
  /\ Js.join (contents (splitIntoPages Reference.parseFragment
                          Reference.scrollHeight Reference.innerHeight
                          [chapter] initialTextSettings))
     = "<div><p>a</p></div><p>a</p>".
Proof.
  cbv zeta. split; [vm_compute; reflexivity|]. split; [vm_compute; reflexivity|].
  destruct (nested_block_emitted_twice Reference.parseFragment
              Reference.scrollHeight Reference.innerHeight
              (Reference.chapter "nested" "<div><p>a</p></div>")
              initialTextSettings "a") as (_ & _ & Hjoin).
  - vm_compute. reflexivity.
  - rewrite Hjoin. vm_compute. reflexivity.
Defined.

(** ** Chapter extraction *)

Section ParseEpubFacts.

Variable parseFromString : string -> node.
Variable files : gmap string ZipObject.
Variable basePath : string.
Variable manifestItems : list ManifestItem.

Abbreviation spineStep := (spineStep parseFromString files basePath manifestItems).
Abbreviation extractChapters :=
  (extractChapters parseFromString files basePath manifestItems).
Abbreviation parseEpubResult :=
  (parseEpubResult parseFromString files basePath manifestItems).
Abbreviation skipped := (skipped files basePath manifestItems).
Abbreviation loads := (loads files basePath manifestItems).

Lemma loads_false_skipped (spineItem : SpineItem) :
  loads spineItem = false <-> skipped spineItem.
Proof.
  unfold ParseEpub.loads. split.
  - destruct (manifestItemOf manifestItems spineItem) as [m|] eqn:Hm;
      [|intros _; now apply MissingManifestItem].
    destruct (item_href m) as [href|] eqn:Hh;
      [|intros _; apply (MissingHref _ _ _ _ m); auto].
    destruct href as [|c href];
      [intros _; apply (MissingHref _ _ _ _ m); auto|].
    simpl.
    destruct (file files (basePath +:+ String c href)) as [f|] eqn:Hf;
      [|intros _; now apply (MissingArchiveEntry _ _ _ _ m (String c href))].
    destruct (async_text f) eqn:Ha; [discriminate|].
    intros _. now apply (ChapterError _ _ _ _ m (String c href) f).
  - intros [Hm | m Hm [Hh|Hh] | m href Hm Hh Hf | m href f Hm Hh Hf Ha];
      rewrite Hm; try rewrite Hh; try reflexivity.
    + rewrite Hf. apply andb_false_r.
    + rewrite Hf, Ha. apply andb_false_r.
Qed.

Lemma spineStep_loads (acc : list EpubChapter.t) (spineItem : SpineItem) :
  spineStep acc spineItem
    = if loads spineItem
      then acc ++ [match manifestItemOf manifestItems spineItem with
                   | Some {| item_href := Some href |} =>
                       makeChapter parseFromString acc (idref spineItem)
                         (basePath +:+ href)
                         (default "" (file files (basePath +:+ href)
                                        ≫= async_text))
                   | _ => makeChapter parseFromString acc None "" ""
                   end]
      else acc.
Proof.
  unfold ParseEpub.spineStep, ParseEpub.loads, manifestItemOf.
  destruct (List.find _ manifestItems) as [[mid [href|]]|]; simpl; try reflexivity.
  destruct (Js.nonEmpty href); simpl; [|reflexivity].
  destruct (file files (basePath +:+ href)) as [f|]; simpl; [|reflexivity].
  destruct (async_text f); reflexivity.
Qed.

Lemma spineLoop_length (spineItems : list SpineItem) :
  forall acc : list EpubChapter.t,
    length (fold_left spineStep spineItems acc)
      = (length acc + length (List.filter loads spineItems))%nat.
Proof.
  induction spineItems as [|item rest IH]; intros acc; simpl.
  - lia.
  - rewrite IH, spineStep_loads. destruct (loads item); simpl.
    + rewrite length_app. simpl. lia.
    + reflexivity.
Qed.

Lemma extractChapters_length (spineItems : list SpineItem) :
  length (extractChapters spineItems) = length (List.filter loads spineItems).
Proof. unfold ParseEpub.extractChapters. now rewrite spineLoop_length. Qed.

Lemma extractChapters_nil_iff (spineItems : list SpineItem) :
  extractChapters spineItems = [] <-> Forall skipped spineItems.
Proof.
  rewrite <- length_zero_iff_nil, extractChapters_length.
  induction spineItems as [|item rest IH]; simpl.
  - split; auto.
  - destruct (loads item) eqn:Hl; simpl.
    + split; [discriminate|]. intros H. apply Forall_cons in H as [H _].
      apply loads_false_skipped in H. congruence.
    + rewrite IH. split; [|intros H; now apply Forall_cons in H].
      intros H. constructor; [now apply loads_false_skipped | exact H].
Qed.

Lemma parseEpubResult_fails_iff (md : EpubMetadata) (spineItems : list SpineItem) :
  parseEpubResult md spineItems
    = inl "Failed to parse EPUB: No readable chapters found in EPUB"
  <-> extractChapters spineItems = [].
Proof.
  unfold ParseEpub.parseEpubResult.
  destruct (extractChapters spineItems) as [|ch chs]; simpl.
  - split; reflexivity.
  - split; discriminate.
Qed.

Lemma parseEpubResult_succeeds (md : EpubMetadata) (spineItems : list SpineItem) :
  extractChapters spineItems <> [] ->
  parseEpubResult md spineItems = inr (extractChapters spineItems, md).
Proof.
  unfold ParseEpub.parseEpubResult.
  destruct (extractChapters spineItems); [congruence | reflexivity].
Qed.

End ParseEpubFacts.

(** ** Navigation and the double page toggle *)

Lemma goToNext_index (s : Session) :
  currentPageIndex (goToNext s)
    = if currentPageIndex s + (if doublePageView s then 2 else 1) <=? pagesLength s - 1
      then currentPageIndex s + (if doublePageView s then 2 else 1)
      else currentPageIndex s.
Proof.
  unfold goToNext.
  destruct (Z.leb_spec (currentPageIndex s + (if doublePageView s then 2 else 1))
                       (pagesLength s - 1)); simpl; [lia | reflexivity].
Qed.

Lemma goToPrev_index (s : Session) :
  currentPageIndex (goToPrev s)
    = if currentPageIndex s - (if doublePageView s then 2 else 1) >=? 0
      then currentPageIndex s - (if doublePageView s then 2 else 1)
      else currentPageIndex s.
Proof.
  unfold goToPrev.
  destruct (Z.geb_spec (currentPageIndex s - (if doublePageView s then 2 else 1)) 0);
    simpl; [lia | reflexivity].
Qed.

Lemma goToNext_pages (s : Session) : pages (goToNext s) = pages s.
Proof. unfold goToNext. now destruct (_ <=? _). Qed.

Lemma goToPrev_pages (s : Session) : pages (goToPrev s) = pages s.
Proof. unfold goToPrev. now destruct (_ >=? _). Qed.

(** C3, as the code behaves. With the index inside a non-empty page
    sequence, [goToNext] moves by the step (1, or 2 in double page mode)
    when the target is at most the last index and otherwise leaves the
    index where it is; [goToPrev] moves back by the step when the target
    is at least 0 and otherwise leaves it. Both results stay in
    [0, pageCount-1]; at the last page [goToNext] changes nothing and at
    the first page [goToPrev] changes nothing; in a 10 page book index 3
    goes to 4, or to 5 in double page mode, and index 9 stays 9. *)
Theorem navigation_guarded (s : Session) :
  0 <= currentPageIndex s <= pagesLength s - 1 ->
  let step := if doublePageView s then 2 else 1 in
  let i := currentPageIndex s in
  let n := pagesLength s in
  (i + step <= n - 1 -> currentPageIndex (goToNext s) = i + step)
  /\ (n - 1 < i + step -> goToNext s = s)
  /\ (0 <= i - step -> currentPageIndex (goToPrev s) = i - step)
  /\ (i - step < 0 -> goToPrev s = s)
  /\ 0 <= currentPageIndex (goToNext s) <= n - 1
  /\ 0 <= currentPageIndex (goToPrev s) <= n - 1
  /\ (i = n - 1 -> goToNext s = s)
  /\ (i = 0 -> goToPrev s = s)
  /\ (n = 10 -> i = 3 ->
      currentPageIndex (goToNext s) = if doublePageView s then 5 else 4)
  /\ (n = 10 -> i = 9 -> currentPageIndex (goToNext s) = 9).
Proof.
  intros Hrange step i n.
  assert (Hstep : 1 <= step <= 2) by (subst step; destruct (doublePageView s); lia).
  pose proof (goToNext_index s) as Hn. pose proof (goToPrev_index s) as Hp.
  fold step i n in Hn, Hp.
  assert (Hnext : n - 1 < i + step -> goToNext s = s).
  { intros H. unfold goToNext. fold step i n.
    destruct (Z.leb_spec (i + step) (n - 1)); [lia | reflexivity]. }
  assert (Hprev : i - step < 0 -> goToPrev s = s).
  { intros H. unfold goToPrev. fold step i n.
    destruct (Z.geb_spec (i - step) 0); [lia | reflexivity]. }
  destruct (Z.leb_spec (i + step) (n - 1)), (Z.geb_spec (i - step) 0);
    rewrite Hn, Hp; subst step;
    repeat split; intros; try (apply Hnext); try (apply Hprev);
    try (destruct (doublePageView s)); lia.
Qed.

Lemma navigation_guarded_witness :
  let s := Reference.sessionAfter Reference.newBook
             (Reference.openTrace ++ [GoToNext; GoToNext; GoToNext]) in
  pagesLength s = 10 /\ currentPageIndex s = 3
  /\ currentPageIndex (goToNext s) = 4
  /\ currentPageIndex (goToNext (setDoublePageView true s)) = 5.
Proof.
  cbv zeta. split; [vm_compute; reflexivity|]. split; [vm_compute; reflexivity|].
  split.
  - apply (navigation_guarded
             (Reference.sessionAfter Reference.newBook
                (Reference.openTrace ++ [GoToNext; GoToNext; GoToNext])));
      vm_compute; try split; congruence.
  - apply (navigation_guarded
             (setDoublePageView true
                (Reference.sessionAfter Reference.newBook
                   (Reference.openTrace ++ [GoToNext; GoToNext; GoToNext]))));
      vm_compute; try split; congruence.
Defined.

(** C3, as the specification words it, fails: in double page mode at index 8 of
    10 pages the code stays at 8 where advancing by 2 and clamping gives
    9, and at index 1 it stays at 1 where retreating by 2 and clamping
    gives 0. *)
Lemma navigation_clamp_counterexample :
  let s8 := setDoublePageView true
              (Reference.sessionAfter Reference.newBook
                 (Reference.openTrace ++ repeat GoToNext 8)) in
  let s1 := setDoublePageView true
              (Reference.sessionAfter Reference.newBook
                 (Reference.openTrace ++ [GoToNext])) in
  pagesLength s8 = 10 /\ currentPageIndex s8 = 8
  /\ currentPageIndex (goToNext s8) = 8
  /\ currentPageIndex (Spec.goToNext s8) = 9
  /\ currentPageIndex s1 = 1
  /\ currentPageIndex (goToPrev s1) = 1
  /\ currentPageIndex (Spec.goToPrev s1) = 0
  /\ goToNext s8 <> Spec.goToNext s8
  /\ goToPrev s1 <> Spec.goToPrev s1.
Proof.
  cbv zeta. repeat split; try (vm_compute; reflexivity).
  - intros H. apply (f_equal currentPageIndex) in H. vm_compute in H. discriminate.
  - intros H. apply (f_equal currentPageIndex) in H. vm_compute in H. discriminate.
Qed.

Lemma rem2_even (z : Z) : (Z.rem z 2 =? 0) = Z.even z.
Proof.
  rewrite Zrem_even. destruct (Z.even z) eqn:He; [reflexivity|].
  destruct z; [discriminate | reflexivity | reflexivity].
Qed.

(** C10. Ticking the double page box at an odd index moves the index
    down by one, not below 0, so that the index is even right after;
    ticking it at an even index, or unticking it, leaves the index
    unchanged. The box's value becomes the mode. *)
Theorem double_page_toggle_even (s : Session) (checked : bool) :
  doublePageView (onDoublePageChange checked s) = checked
  /\ currentPageIndex (onDoublePageChange checked s)
     = (if checked && Z.odd (currentPageIndex s)
        then Z.max 0 (currentPageIndex s - 1)
        else currentPageIndex s)
  /\ Z.even (currentPageIndex (onDoublePageChange true s)) = true
  /\ (Z.odd (currentPageIndex s) = true -> 1 <= currentPageIndex s ->
      currentPageIndex (onDoublePageChange true s) = currentPageIndex s - 1)
  /\ (Z.even (currentPageIndex s) = true ->
      currentPageIndex (onDoublePageChange true s) = currentPageIndex s)
  /\ currentPageIndex (onDoublePageChange false s) = currentPageIndex s
  /\ pages (onDoublePageChange checked s) = pages s.
Proof.
  assert (Hidx : forall c, currentPageIndex (onDoublePageChange c s)
                           = if c && Z.odd (currentPageIndex s)
                             then Z.max 0 (currentPageIndex s - 1)
                             else currentPageIndex s).
  { intros c. unfold onDoublePageChange. rewrite rem2_even, Z.negb_even.
    destruct (c && Z.odd (currentPageIndex s)); reflexivity. }
  repeat split.
  - unfold onDoublePageChange. destruct (checked && _); reflexivity.
  - apply Hidx.
  - rewrite Hidx. simpl. destruct (Z.odd (currentPageIndex s)) eqn:Ho.
    + destruct (Z.max_spec 0 (currentPageIndex s - 1)) as [[_ ->]|[_ ->]];
        [|reflexivity].
      rewrite Z.even_sub, <- Z.negb_odd, Ho. reflexivity.
    + now rewrite <- Z.negb_odd, Ho.
  - intros Ho Hpos. rewrite Hidx, Ho. simpl. lia.
  - intros He. rewrite Hidx, <- Z.negb_even, He. reflexivity.
  - unfold onDoublePageChange. destruct (checked && _); reflexivity.
Qed.

Lemma double_page_toggle_even_witness :
  let s := Reference.sessionAfter Reference.newBook
             (Reference.openTrace ++ [GoToNext; GoToNext; GoToNext]) in
  currentPageIndex s = 3
  /\ currentPageIndex (onDoublePageChange true s) = 2.
Proof.
  cbv zeta. split; [vm_compute; reflexivity|].
  destruct (double_page_toggle_even
              (Reference.sessionAfter Reference.newBook
                 (Reference.openTrace ++ [GoToNext; GoToNext; GoToNext])) true)
    as (_ & _ & _ & Hodd & _).
  rewrite Hodd; vm_compute; congruence.
Defined.

(** ** The progress sink *)

Lemma clamp01_bounds (x : Q) : (0 <= Qmax 0 (Qmin 1 x) <= 1)%Q.
Proof.
  split.
  - apply Q.le_max_l.
  - apply Q.max_lub; [discriminate | apply Q.le_min_l].
Qed.

Lemma clamp01_id (x : Q) : (0 <= x)%Q -> (x <= 1)%Q -> (Qmax 0 (Qmin 1 x) == x)%Q.
Proof.
  intros H0 H1. rewrite Q.max_r.
  - now apply Q.min_r.
  - rewrite Q.min_r; assumption.
Qed.

Lemma index_ratio_bounds (pageIndex totalPages : Z) :
  0 <= pageIndex <= totalPages -> 0 < totalPages ->
  (0 <= inject_Z pageIndex / inject_Z totalPages <= 1)%Q.
Proof.
  intros [H0 H1] Hpos.
  assert (Ht : (0 < inject_Z totalPages)%Q) by (unfold Qlt; simpl; lia).
  split.
  - apply Qle_shift_div_l; [exact Ht|]. rewrite Qmult_0_l. unfold Qle; simpl; lia.
  - apply Qle_shift_div_r; [exact Ht|]. rewrite Qmult_1_l. unfold Qle; simpl; lia.
Qed.

Section SinkFacts.

Variable book : Book.

Lemma saveProgressImmediately_saveProgress (b : bool) (pageIndex totalPages : Z) :
  saveProgressImmediately book b pageIndex totalPages
    = saveProgress book b pageIndex totalPages.
Proof. reflexivity. Qed.

Lemma saveProgress_some (pageIndex totalPages : Z) :
  totalPages <> 0 ->
  saveProgress book true pageIndex totalPages
    = Some {| sink_bookId := book_id book;
              sink_progress :=
                Qmax 0 (Qmin 1 (inject_Z pageIndex / inject_Z totalPages));
              sink_currentCfi := "page-" +:+ Js.ofZ (pageIndex + 1);
              sink_currentPage := pageIndex + 1 |}.
Proof.
  intros Hne. unfold saveProgress. simpl.
  destruct (Z.eqb_spec totalPages 0); [contradiction | reflexivity].
Qed.

Lemma saveProgress_call_bounds (b : bool) (pageIndex totalPages : Z) (call : SinkCall) :
  saveProgress book b pageIndex totalPages = Some call ->
  b = true /\ totalPages <> 0
  /\ (0 <= sink_progress call <= 1)%Q
  /\ sink_currentPage call = pageIndex + 1.
Proof.
  unfold saveProgress. destruct b; simpl; [|discriminate].
  destruct (Z.eqb_spec totalPages 0); [discriminate|].
  intros [= <-]. simpl. repeat split; try assumption; apply clamp01_bounds.
Qed.

(** C4, as the code behaves. With the index inside a non-empty page
    sequence, the debounced and the immediate save hand the sink the
    fraction [pageIndex / totalPages], the position token
    [page-(pageIndex+1)] and the 1-based page number [pageIndex + 1];
    the page change effect makes that call for the current index once
    pages are loaded. *)
Theorem sink_progress_index_ratio (pageIndex totalPages : Z) (s : Session) :
  0 <= pageIndex < totalPages ->
  exists call : SinkCall,
    saveProgress book true pageIndex totalPages = Some call
    /\ saveProgressImmediately book true pageIndex totalPages = Some call
    /\ (sink_progress call == inject_Z pageIndex / inject_Z totalPages)%Q
    /\ sink_currentPage call = pageIndex + 1
    /\ sink_currentCfi call = "page-" +:+ Js.ofZ (pageIndex + 1)
    /\ sink_bookId call = book_id book
    /\ (pagesLength s = totalPages -> currentPageIndex s = pageIndex ->
        isLoading s = false -> progressEffect book true s = Some call).
Proof.
  intros Hrange. eexists. split; [apply saveProgress_some; lia|].
  split; [rewrite saveProgressImmediately_saveProgress; apply saveProgress_some; lia|].
  simpl. repeat split.
  - apply clamp01_id; apply index_ratio_bounds; lia.
  - intros Hlen Hidx Hload. unfold progressEffect. rewrite Hlen, Hidx, Hload.
    destruct (Z.gtb_spec totalPages 0); [|lia]. simpl. apply saveProgress_some. lia.
Qed.

End SinkFacts.

Lemma sink_progress_index_ratio_witness :
  exists call : SinkCall,
    saveProgress Reference.newBook true 4 10 = Some call
    /\ (sink_progress call == 4 # 10)%Q
    /\ sink_currentPage call = 5.
Proof.
  destruct (sink_progress_index_ratio Reference.newBook 4 10
              (Reference.sessionAfter Reference.newBook Reference.openTrace))
    as (call & Hsave & _ & Hprogress & Hpage & _); [lia|].
  exists call. split; [exact Hsave|]. split; [|exact Hpage].
  rewrite Hprogress. reflexivity.
Defined.

(** C4, as the specification words it, fails: on the first of 10 pages the sink
    is handed the fraction 0, not [(0+1)/10]. *)
Lemma sink_progress_counterexample :
  exists call : SinkCall,
    saveProgress Reference.newBook true 0 10 = Some call
    /\ sink_currentPage call = 1
    /\ (sink_progress call == 0)%Q
    /\ ~ (sink_progress call == Spec.fractionalProgress 0 10)%Q.
Proof.
  eexists. split; [reflexivity|]. simpl. repeat split. discriminate.
Qed.

(** ** Opening the book and re-initialising *)

Lemma initialPageIndex_nonneg (book : Book) (pagesLen : Z) :
  0 <= initialPageIndex book pagesLen.
Proof.
  unfold initialPageIndex.
  destruct (currentPage book >? 1); [lia|].
  destruct (negb (Qle_bool (progress book) 0)); [|lia].
  destruct (Double.floor _); lia.
Qed.

Lemma initialPageIndex_range (book : Book) (pagesLen : Z) :
  1 <= pagesLen -> 0 <= initialPageIndex book pagesLen <= pagesLen - 1.
Proof.
  intros Hn. unfold initialPageIndex.
  destruct (currentPage book >? 1); [lia|].
  destruct (negb (Qle_bool (progress book) 0)); [|lia].
  destruct (Double.floor _); lia.
Qed.

Lemma initialPageIndex_saved_page (book : Book) (pagesLen : Z) :
  1 < currentPage book ->
  initialPageIndex book pagesLen
    = Spec.clamp 0 (pagesLen - 1) (currentPage book - 1).
Proof.
  intros Hp. unfold initialPageIndex, Spec.clamp.
  destruct (Z.gtb_spec (currentPage book) 1); [reflexivity | lia].
Qed.

Lemma initialPageIndex_progress (book : Book) (pagesLen : Z) :
  currentPage book <= 1 -> (0 < progress book)%Q ->
  initialPageIndex book pagesLen
    = match Double.floor (Double.mul (Double.ofQ (progress book))
                                     (Double.ofZ pagesLen)) with
      | Some floored => Spec.clamp 0 (pagesLen - 1) floored
      | None => Z.max 0 (pagesLen - 1)
      end.
Proof.
  intros Hp Hq. unfold initialPageIndex, Spec.clamp.
  destruct (Z.gtb_spec (currentPage book) 1); [lia|].
  destruct (Qle_bool (progress book) 0) eqn:Hle; [|reflexivity].
  apply Qle_bool_iff in Hle. exfalso. now apply (Qlt_not_le _ _ Hq).
Qed.

Lemma initialPageIndex_unread (book : Book) (pagesLen : Z) :
  currentPage book <= 1 -> (progress book <= 0)%Q ->
  initialPageIndex book pagesLen = 0.
Proof.
  intros Hp Hq. unfold initialPageIndex.
  destruct (Z.gtb_spec (currentPage book) 1); [lia|].
  apply Qle_bool_iff in Hq. now rewrite Hq.
Qed.

(** The number a rational denotes depends on its value only. *)
Lemma ofQ_Qeq (p q : Q) : (p == q)%Q -> Double.ofQ p = Double.ofQ q.
Proof. intros H. unfold Double.ofQ. now rewrite (Qred_complete p q H). Qed.

(** The index a progress gives when no page number is saved, for a
    progress given by its value. *)
Lemma initialPageIndex_of_progress (book : Book) (p : Q) (pagesLen : Z) :
  currentPage book <= 1 -> (progress book == p)%Q -> (0 < p)%Q ->
  initialPageIndex book pagesLen
    = match Double.floor (Double.mul (Double.ofQ p) (Double.ofZ pagesLen)) with
      | Some floored => Spec.clamp 0 (pagesLen - 1) floored
      | None => Z.max 0 (pagesLen - 1)
      end.
Proof.
  intros Hp Hq Hpos.
  rewrite initialPageIndex_progress; [|exact Hp|now rewrite Hq].
  now rewrite (ofQ_Qeq _ _ Hq).
Qed.

(** The record the sink writes at an index is the record that resumes
    at that index. *)
Lemma resume_round_trip (book : Book) (pageIndex totalPages : Z) :
  0 <= pageIndex < totalPages ->
  currentPage book = pageIndex + 1 ->
  (progress book == inject_Z pageIndex / inject_Z totalPages)%Q ->
  initialPageIndex book totalPages = pageIndex.
Proof.
  intros Hrange Hpage Hprogress.
  destruct (Z.eq_dec pageIndex 0) as [->|Hpos].
  - apply initialPageIndex_unread; [lia|]. rewrite Hprogress.
    apply (index_ratio_bounds 0 totalPages); lia.
  - rewrite initialPageIndex_saved_page by lia. unfold Spec.clamp. lia.
Qed.

Section ControllerFacts.

Variable parseFragment : string -> list node.
Variable scrollHeight : TextSettings -> string -> Z.
Variable innerHeight : Z.
Variable book : Book.
Variable onProgressUpdate : bool.

Abbreviation splitIntoPages := (splitIntoPages parseFragment scrollHeight innerHeight).
Abbreviation afterParse := (afterParse parseFragment scrollHeight innerHeight book).
Abbreviation step := (step parseFragment scrollHeight innerHeight book).
Abbreviation emits := (emits parseFragment scrollHeight innerHeight book onProgressUpdate).
Abbreviation run := (run parseFragment scrollHeight innerHeight book onProgressUpdate).

(** What a completed [initReader] run leaves. *)
Lemma afterParse_success (k : nat) (parsedChapters : list EpubChapter.t)
    (parsedMetadata : EpubMetadata) (captured : TextSettings) (s : Session) :
  runs s !! k = Some {| run_phase := AwaitingParse; run_settings := captured |} ->
  mountedRef s = true ->
  parsedChapters <> [] ->
  pages (afterParse k parsedChapters parsedMetadata s)
    = splitIntoPages parsedChapters captured
  /\ currentPageIndex (afterParse k parsedChapters parsedMetadata s)
     = initialPageIndex book
         (Z.of_nat (length (splitIntoPages parsedChapters captured)))
  /\ isLoading (afterParse k parsedChapters parsedMetadata s) = false
  /\ metadata (afterParse k parsedChapters parsedMetadata s) = Some parsedMetadata.
Proof.
  intros Hrun Hmounted Hne. unfold Controller.afterParse. rewrite Hrun. simpl.
  rewrite Hmounted. simpl.
  destruct parsedChapters; [contradiction|]. simpl. auto.
Qed.

Lemma splitIntoPages_length (chapters : list EpubChapter.t) (settings : TextSettings) :
  chapters <> [] -> 1 <= Z.of_nat (length (splitIntoPages chapters settings)).
Proof.
  intros Hne.
  pose proof (splitIntoPages_nonempty parseFragment scrollHeight innerHeight
                chapters settings Hne) as Hp.
  destruct (splitIntoPages chapters settings); [contradiction | simpl; lia].
Qed.

(** C6. When an [initReader] run completes with chapters, the page
    sequence is not empty and the index it sets lies in
    [0, pageCount-1]: it is the saved 1-based page number minus one when
    that number exceeds 1, else the floor of progress times pageCount
    when the progress is positive, else 0, the first two clamped into the
    range. The product is the binary64 product the code computes: with
    progress 0.5 and no saved page, 20 pages give index 10, and with
    progress 0.58, 50 pages give index 28, the product being rounded to
    28.999999999999996. *)
Theorem initial_index_from_saved_position (k : nat)
    (parsedChapters : list EpubChapter.t) (parsedMetadata : EpubMetadata)
    (captured : TextSettings) (s : Session) :
  runs s !! k = Some {| run_phase := AwaitingParse; run_settings := captured |} ->
  mountedRef s = true ->
  parsedChapters <> [] ->
  let s' := afterParse k parsedChapters parsedMetadata s in
  let n := pagesLength s' in
  let i := currentPageIndex s' in
  pages s' = splitIntoPages parsedChapters captured
  /\ 1 <= n
  /\ 0 <= i <= n - 1
  /\ (1 < currentPage book -> i = Spec.clamp 0 (n - 1) (currentPage book - 1))
  /\ (currentPage book <= 1 -> (0 < progress book)%Q ->
      match Double.floor (Double.mul (Double.ofQ (progress book))
                                     (Double.ofZ n)) with
      | Some floored => i = Spec.clamp 0 (n - 1) floored
      | None => i = n - 1
      end)
  /\ (currentPage book <= 1 -> (progress book <= 0)%Q -> i = 0)
  /\ (currentPage book <= 1 -> (progress book == 1 # 2)%Q -> n = 20 -> i = 10)
  /\ (currentPage book <= 1 -> (progress book == 58 # 100)%Q -> n = 50 ->
      i = 28).
Proof.
  intros Hrun Hmounted Hne s' n i.
  destruct (afterParse_success k parsedChapters parsedMetadata captured s
              Hrun Hmounted Hne) as (Hpages & Hidx & _).
  assert (Hn : n = Z.of_nat (length (splitIntoPages parsedChapters captured))).
  { subst n s'. unfold pagesLength. now rewrite Hpages. }
  assert (Hi : i = initialPageIndex book n) by (subst i s'; now rewrite Hn).
  assert (Hpos : 1 <= n) by (rewrite Hn; now apply splitIntoPages_length).
  split; [exact Hpages|]. split; [exact Hpos|]. rewrite Hi.
  split; [now apply initialPageIndex_range|].
  split; [apply initialPageIndex_saved_page|].
  split.
  { intros Hp Hq. rewrite (initialPageIndex_progress book n Hp Hq).
    destruct (Double.floor _); [reflexivity | lia]. }
  split; [apply initialPageIndex_unread|].
  split.
  - intros Hp Hq ->.
    rewrite (initialPageIndex_of_progress book (1 # 2) 20 Hp Hq); reflexivity.
  - intros Hp Hq ->.
    rewrite (initialPageIndex_of_progress book (58 # 100) 50 Hp Hq); reflexivity.
Qed.

(** *** The index never goes below zero *)

Lemma initEffect_index (s : Session) :
  currentPageIndex (initEffect book s) = currentPageIndex s
  /\ pages (initEffect book s) = pages s.
Proof.
  unfold initEffect. destruct (error s); [auto|].
  destruct (attrEq _ _); [auto|]. destruct (negb (mountedRef s)); auto.
Qed.

Lemma changeTextSettings_index (new : TextSettings) (s : Session) :
  currentPageIndex (changeTextSettings book new s) = currentPageIndex s
  /\ pages (changeTextSettings book new s) = pages s.
Proof.
  unfold changeTextSettings, resplitEffect.
  destruct (initEffect_index (setTextSettings new s)) as [Hi Hp].
  destruct (layoutDepsChanged _ _); [|auto].
  destruct (_ && _); auto.
Qed.

Lemma initFailed_index (message : string) (s : Session) :
  currentPageIndex (initFailed message s) = currentPageIndex s
  /\ pages (initFailed message s) = pages s.
Proof. unfold initFailed. destruct (negb (mountedRef s)); auto. Qed.

Lemma afterUrl_index (k : nat) (s : Session) :
  currentPageIndex (afterUrl book k s) = currentPageIndex s
  /\ pages (afterUrl book k s) = pages s.
Proof.
  unfold afterUrl. destruct (runs s !! k) as [[[] captured]|]; [|auto|auto].
  destruct (_ || _); auto.
Qed.

Lemma afterReject_index (k : nat) (message : string) (s : Session) :
  currentPageIndex (afterReject k message s) = currentPageIndex s
  /\ pages (afterReject k message s) = pages s.
Proof.
  unfold afterReject. destruct (runs s !! k); [|auto].
  apply (initFailed_index message (setRuns (removeNth k (runs s)) s)).
Qed.

Lemma retry_index (s : Session) :
  currentPageIndex (retry s) = currentPageIndex s /\ pages (retry s) = pages s.
Proof. unfold retry. destruct (error s); auto. Qed.

Lemma afterParse_index_nonneg (k : nat) (parsedChapters : list EpubChapter.t)
    (parsedMetadata : EpubMetadata) (s : Session) :
  0 <= currentPageIndex s ->
  0 <= currentPageIndex (afterParse k parsedChapters parsedMetadata s).
Proof.
  intros Hs. unfold Controller.afterParse.
  destruct (runs s !! k) as [[[] captured]|]; [exact Hs| |exact Hs].
  destruct (negb _); [exact Hs|].
  destruct (length parsedChapters =? 0)%nat.
  - now rewrite (proj1 (initFailed_index _ _)).
  - apply initialPageIndex_nonneg.
Qed.

Lemma onDoublePageChange_index_nonneg (checked : bool) (s : Session) :
  0 <= currentPageIndex s -> 0 <= currentPageIndex (onDoublePageChange checked s).
Proof.
  intros Hs. unfold onDoublePageChange.
  destruct (checked && _); simpl; [lia | exact Hs].
Qed.

Lemma step_index_nonneg (s : Session) (e : Event) :
  0 <= currentPageIndex s -> 0 <= currentPageIndex (step s e).
Proof.
  intros Hs. unfold Controller.step. destruct (negb (mountedRef s)); [exact Hs|].
  destruct e.
  - now rewrite (proj1 (changeTextSettings_index _ _)).
  - now rewrite (proj1 (afterUrl_index _ _)).
  - now apply afterParse_index_nonneg.
  - now rewrite (proj1 (afterReject_index _ _ _)).
  - rewrite goToNext_index. destruct (_ <=? _); [|exact Hs].
    destruct (doublePageView s); lia.
  - rewrite goToPrev_index. destruct (Z.geb_spec (currentPageIndex s
        - (if doublePageView s then 2 else 1)) 0); [lia | exact Hs].
  - now apply onDoublePageChange_index_nonneg.
  - now rewrite (proj1 (retry_index _)).
  - exact Hs.
  - exact Hs.
Qed.

(** The calls of the three call sites, for an index that is not
    negative. *)
Lemma call_site_bounds (s : Session) (call : SinkCall) :
  0 <= currentPageIndex s ->
  progressEffect book onProgressUpdate s = Some call
  \/ handleBackToLibrary book onProgressUpdate s = Some call
  \/ unmountCleanup book onProgressUpdate s = Some call ->
  onProgressUpdate = true /\ pagesLength s <> 0
  /\ (0 <= sink_progress call <= 1)%Q /\ 1 <= sink_currentPage call.
Proof.
  intros Hs Hcall.
  assert (Hsave : saveProgress book onProgressUpdate (currentPageIndex s)
                    (pagesLength s) = Some call).
  { destruct Hcall as [H|[H|H]].
    - unfold progressEffect in H. destruct (_ && _); [exact H | discriminate].
    - unfold handleBackToLibrary in H. destruct (_ >? _); [exact H | discriminate].
    - unfold unmountCleanup in H. destruct (_ && _); [exact H | discriminate]. }
  apply saveProgress_call_bounds in Hsave as (Hb & Hn & Hq & Hp).
  repeat split; try assumption; try apply Hq. lia.
Qed.

Lemma emits_bounds (s : Session) (e : Event) (call : SinkCall) :
  0 <= currentPageIndex s ->
  In call (emits s e) ->
  onProgressUpdate = true
  /\ (0 <= sink_progress call <= 1)%Q /\ 1 <= sink_currentPage call.
Proof.
  intros Hs Hin. pose proof (step_index_nonneg s e Hs) as Hs'.
  assert (Hsite : forall t, 0 <= currentPageIndex t ->
            In call (option_list (progressEffect book onProgressUpdate t))
            \/ In call (option_list (handleBackToLibrary book onProgressUpdate t))
            \/ In call (option_list (unmountCleanup book onProgressUpdate t)) ->
            onProgressUpdate = true
            /\ (0 <= sink_progress call <= 1)%Q /\ 1 <= sink_currentPage call).
  { intros t Ht Hcases.
    destruct (call_site_bounds t call Ht) as (Hb & _ & Hq & Hp); [|auto].
    destruct Hcases as [H|[H|H]];
      [left | right; left | right; right];
      (destruct (_ book onProgressUpdate t) as [c|]; simpl in H;
       [destruct H as [->|[]]; reflexivity | contradiction]). }
  unfold Controller.emits in Hin.
  destruct (negb (mountedRef s)); [contradiction|].
  destruct e;
    try (apply in_app_or in Hin as [Hin|Hin];
         [destruct (cleanupDepsChanged _ _); [|contradiction];
          apply (Hsite _ Hs); right; now right
         |destruct (progressDepsChanged _ _); [|contradiction];
          apply (Hsite _ Hs'); now left]).
  - apply (Hsite _ Hs). right. now left.
  - apply (Hsite _ Hs). right. now right.
Qed.

Lemma run_bounds (trace : list Event) :
  forall (s : Session) (call : SinkCall),
    0 <= currentPageIndex s ->
    In call (snd (run s trace)) ->
    onProgressUpdate = true
    /\ (0 <= sink_progress call <= 1)%Q /\ 1 <= sink_currentPage call.
Proof.
  induction trace as [|e rest IH]; intros s call Hs Hin; simpl in Hin.
  - contradiction.
  - destruct (run (step s e) rest) as [s' calls] eqn:Hrun. simpl in Hin.
    apply in_app_or in Hin as [Hin|Hin].
    + now apply (emits_bounds s e).
    + apply (IH (step s e) call); [now apply step_index_nonneg|].
      now rewrite Hrun.
Qed.

Lemma mountSession_index : currentPageIndex (mountSession book) = 0.
Proof. unfold mountSession. now rewrite (proj1 (initEffect_index _)). Qed.

(** C9. Whatever the events since the component mounted, every call
    handed to the progress sink (by the page change effect, by the
    cleanup that saves the position being left or the position at
    unmount, or by the back to library handler) carries a fraction in
    [[0,1]] and a page number of at least 1, and is made only when the
    callback was given; with a page count of zero, or without the
    callback, the debounced save, the immediate save and their three
    call sites make no call. *)
Theorem sink_calls_within_contract (trace : list Event) (call : SinkCall) :
  In call (snd (run (mountSession book) trace)) ->
  (0 <= sink_progress call <= 1)%Q
  /\ 1 <= sink_currentPage call
  /\ onProgressUpdate = true
  /\ (forall (b : bool) (pageIndex : Z),
        saveProgress book b pageIndex 0 = None
        /\ saveProgressImmediately book b pageIndex 0 = None)
  /\ (forall pageIndex totalPages : Z,
        saveProgress book false pageIndex totalPages = None
        /\ saveProgressImmediately book false pageIndex totalPages = None)
  /\ (forall (b : bool) (s : Session),
        pagesLength s = 0 ->
        progressEffect book b s = None
        /\ handleBackToLibrary book b s = None
        /\ unmountCleanup book b s = None).
Proof.
  intros Hin.
  destruct (run_bounds trace (mountSession book) call) as (Hb & Hq & Hp);
    [rewrite mountSession_index; lia | exact Hin |].
  split; [exact Hq|]. split; [exact Hp|]. split; [exact Hb|].
  split; [|split].
  - intros b pageIndex. unfold saveProgress, saveProgressImmediately.
    simpl. now rewrite orb_true_r.
  - intros pageIndex totalPages. split; reflexivity.
  - intros b s Hlen.
    unfold progressEffect, handleBackToLibrary, unmountCleanup.
    rewrite Hlen. auto.
Qed.

(** C2, as the code behaves. In a session that shows the pages of this
    book, a change of font size, font family, line height or margin
    paginates nothing again and remaps nothing, against the comment of
    lines 461-466 ("re-split into pages when text settings change"): the
    pages stay those of the old layout, the index stays where it was, no
    [initReader] run is started and nothing is handed to the sink; all
    the change leaves behind is the cleared initialisation guard. With
    no run in flight, no fetch or parse that resolves afterwards
    replaces the pages either. *)
Theorem layout_change_repaginates_nothing (s : Session) (new : TextSettings) :
  showsPages s ->
  initializationRef s = Some (book_id book) ->
  layoutDepsChanged (textSettings s) new = true ->
  let changed := step s (SetTextSettings new) in
  changed = setInitializationRef None (setTextSettings new s)
  /\ pages changed = pages s
  /\ currentPageIndex changed = currentPageIndex s
  /\ runs changed = runs s
  /\ emits s (SetTextSettings new) = []
  /\ (runs s = [] ->
      forall (k : nat) (parsedChapters : list EpubChapter.t)
             (parsedMetadata : EpubMetadata),
        step changed (UrlResolved k) = changed
        /\ step changed (ParseResolved k parsedChapters parsedMetadata) = changed).
Proof.
  intros (Hm & He & Hp & Hmd) Hguard Hlayout changed.
  assert (Hchanged : changed = setInitializationRef None (setTextSettings new s)).
  { subst changed. unfold Controller.step. rewrite Hm. simpl negb. cbv iota.
    unfold changeTextSettings. rewrite Hlayout.
    assert (Hinit : initEffect book (setTextSettings new s) = setTextSettings new s).
    { unfold initEffect. simpl. rewrite He, Hguard. simpl.
      now rewrite String.eqb_refl. }
    rewrite Hinit. unfold resplitEffect.
    change (pagesLength (setTextSettings new s)) with (pagesLength s).
    change (metadata (setTextSettings new s)) with (metadata s).
    rewrite (bool_decide_eq_true_2 _ Hmd).
    destruct (Z.gtb_spec (pagesLength s) 0) as [_|Hzero]; [reflexivity|].
    unfold pagesLength in Hzero.
    destruct (pages s); [contradiction | simpl in Hzero; lia]. }
  split; [exact Hchanged|].
  split; [now rewrite Hchanged|]. split; [now rewrite Hchanged|].
  split; [now rewrite Hchanged|].
  split.
  - unfold Controller.emits. rewrite Hm. simpl negb. cbv iota.
    fold changed. rewrite Hchanged.
    unfold cleanupDepsChanged, progressDepsChanged. simpl.
    change (pagesLength (setInitializationRef None (setTextSettings new s)))
      with (pagesLength s).
    rewrite !Z.eqb_refl, eqb_reflx. reflexivity.
  - intros Hruns k parsedChapters parsedMetadata.
    rewrite Hchanged. unfold Controller.step. simpl mountedRef. rewrite Hm.
    simpl negb. cbv iota. unfold afterUrl, Controller.afterParse.
    simpl runs. rewrite Hruns. rewrite lookup_nil. auto.
Qed.

End ControllerFacts.

Lemma initial_index_from_saved_position_witness :
  let s := Reference.sessionAfter Reference.halfReadBook [UrlResolved 0] in
  let s' := afterParse Reference.parseFragment Reference.scrollHeight
              Reference.innerHeight Reference.halfReadBook 0
              Reference.longChapters Reference.epubMetadata s in
  runs s !! 0%nat = Some {| run_phase := AwaitingParse;
                            run_settings := initialTextSettings |}
  /\ mountedRef s = true
  /\ Reference.longChapters <> []
  /\ pagesLength s' = 20
  /\ 0 <= currentPageIndex s' <= pagesLength s' - 1
  /\ currentPageIndex s' = 10.
Proof.
  cbv zeta. split; [reflexivity|]. split; [reflexivity|].
  split; [discriminate|]. split; [vm_compute; reflexivity|].
  destruct (initial_index_from_saved_position Reference.parseFragment
              Reference.scrollHeight Reference.innerHeight Reference.halfReadBook
              0 Reference.longChapters Reference.epubMetadata initialTextSettings
              (Reference.sessionAfter Reference.halfReadBook [UrlResolved 0]))
    as (_ & _ & Hrange & _ & _ & _ & Hhalf & _);
    [reflexivity | reflexivity | discriminate |].
  split; [exact Hrange|].
  apply Hhalf.
  - vm_compute. discriminate.
  - reflexivity.
  - vm_compute. reflexivity.
Defined.

Lemma sink_calls_within_contract_witness :
  let left := {| sink_bookId := "book-1"; sink_progress := 0;
                 sink_currentCfi := "page-1"; sink_currentPage := 1 |} in
  let reached := {| sink_bookId := "book-1"; sink_progress := 1 # 10;
                    sink_currentCfi := "page-2"; sink_currentPage := 2 |} in
  snd (run Reference.parseFragment Reference.scrollHeight
           Reference.innerHeight Reference.newBook true
           (mountSession Reference.newBook)
           (Reference.openTrace ++ [GoToNext; BackToLibrary]))
  = [left; left; reached; reached]
  /\ (0 <= sink_progress reached <= 1)%Q
  /\ 1 <= sink_currentPage reached.
Proof.
  cbv zeta.
  assert (Hcalls : snd (run Reference.parseFragment Reference.scrollHeight
                            Reference.innerHeight Reference.newBook true
                            (mountSession Reference.newBook)
                            (Reference.openTrace ++ [GoToNext; BackToLibrary]))
                   = [ {| sink_bookId := "book-1"; sink_progress := 0;
                          sink_currentCfi := "page-1"; sink_currentPage := 1 |};
                       {| sink_bookId := "book-1"; sink_progress := 0;
                          sink_currentCfi := "page-1"; sink_currentPage := 1 |};
                       {| sink_bookId := "book-1"; sink_progress := 1 # 10;
                          sink_currentCfi := "page-2"; sink_currentPage := 2 |};
                       {| sink_bookId := "book-1"; sink_progress := 1 # 10;
                          sink_currentCfi := "page-2"; sink_currentPage := 2 |} ]).
  { vm_compute. reflexivity. }
  split; [exact Hcalls|].
  destruct (sink_calls_within_contract Reference.parseFragment
              Reference.scrollHeight Reference.innerHeight Reference.newBook true
              (Reference.openTrace ++ [GoToNext; BackToLibrary])
              {| sink_bookId := "book-1"; sink_progress := 1 # 10;
                 sink_currentCfi := "page-2"; sink_currentPage := 2 |})
    as (Hq & Hp & _).
  { rewrite Hcalls. right. right. left. reflexivity. }
  split; [exact Hq | exact Hp].
Defined.

Lemma layout_change_repaginates_nothing_witness :
  let before := Reference.sessionAfter Reference.newBook
                  (Reference.openTrace ++ repeat GoToNext 4) in
  let changed := step Reference.parseFragment Reference.scrollHeight
                   Reference.innerHeight Reference.newBook before
                   (SetTextSettings Reference.largerFont) in
  showsPages before
  /\ initializationRef before = Some (book_id Reference.newBook)
  /\ layoutDepsChanged (textSettings before) Reference.largerFont = true
  /\ pagesLength before = 10
  /\ currentPageIndex before = 4
  /\ length (splitIntoPages Reference.parseFragment Reference.scrollHeight
                Reference.innerHeight Reference.chapters Reference.largerFont)
     = 16%nat
  /\ pages changed = pages before
  /\ currentPageIndex changed = currentPageIndex before
  /\ runs changed = runs before.
Proof.
  cbv zeta.
  assert (Hshows : showsPages
                     (Reference.sessionAfter Reference.newBook
                        (Reference.openTrace ++ repeat GoToNext 4))).
  { split; [reflexivity|]. split; [reflexivity|].
    split; [vm_compute; discriminate | vm_compute; eauto]. }
  split; [exact Hshows|]. split; [vm_compute; reflexivity|].
  split; [vm_compute; reflexivity|]. split; [vm_compute; reflexivity|].
  split; [vm_compute; reflexivity|]. split; [vm_compute; reflexivity|].
  destruct (layout_change_repaginates_nothing Reference.parseFragment
              Reference.scrollHeight Reference.innerHeight Reference.newBook true
              (Reference.sessionAfter Reference.newBook
                 (Reference.openTrace ++ repeat GoToNext 4))
              Reference.largerFont Hshows)
    as (_ & Hpages & Hindex & Hruns & _).
  - vm_compute. reflexivity.
  - vm_compute. reflexivity.
  - split; [exact Hpages|]. split; [exact Hindex | exact Hruns].
Defined.

(** The same reader followed further. A reader on index 4 of 10 pages
    enlarges the font: the change itself paginates nothing again. Once
    a later change has started a run and that run has completed, the
    book has 16 pages and the index is 0, read from the record the book
    was opened with; that is not within one page of the progress held
    before. The record the sink wrote at index 4 would give index 4,
    which is no closer. *)
Example layout_change_then_reinitialised :
  let before := Reference.sessionAfter Reference.newBook
                  (Reference.openTrace ++ repeat GoToNext 4) in
  let changed := Reference.sessionAfter Reference.newBook
                   (Reference.openTrace ++ repeat GoToNext 4
                    ++ [SetTextSettings Reference.largerFont]) in
  let after := Reference.sessionAfter Reference.newBook
                 (Reference.openTrace ++ repeat GoToNext 4
                  ++ [SetTextSettings Reference.largerFont;
                      SetTextSettings Reference.largerFontDark;
                      UrlResolved 0;
                      ParseResolved 0 Reference.chapters Reference.epubMetadata]) in
  pagesLength before = 10 /\ currentPageIndex before = 4
  /\ pages changed = pages before /\ currentPageIndex changed = 4
  /\ pagesLength after = 16 /\ currentPageIndex after = 0
  /\ ~ Spec.withinOnePage 4 10 (currentPageIndex after) 16
  /\ initialPageIndex {| book_id := "book-1"; fileName := "book.epub";
                         progress := 4 # 10; currentPage := 5 |} 16 = 4
  /\ ~ Spec.withinOnePage 4 10 4 16.
Proof.
  cbv zeta.
  do 6 (split; [vm_compute; reflexivity|]).
  split; [unfold Spec.withinOnePage; intros H; vm_compute in H; now apply H|].
  split; [vm_compute; reflexivity|].
  unfold Spec.withinOnePage. intros H. vm_compute in H. now apply H.
Qed.

(** ** Chapter extraction: the whole loop *)

(** C8. A spine entry whose manifest item is missing, whose item has no
    [href], whose archive entry is missing or whose text cannot be read
    leaves the chapter list as it was; every other entry appends one
    chapter. The extraction fails, with the no-readable-chapters message,
    exactly when the chapter list ends up empty, which is when every
    entry was skipped; otherwise it returns the chapters. An archive of
    three spine entries, the second of which names a manifest item
    without [href], yields two chapters and the parse succeeds. *)
Theorem chapter_failures_skipped :
  (forall (parseFromString : string -> node) (files : gmap string ZipObject)
          (basePath : string) (manifestItems : list ManifestItem)
          (epubMetadata : EpubMetadata) (spineItems : list SpineItem),
      (forall (acc : list EpubChapter.t) (spineItem : SpineItem),
          skipped files basePath manifestItems spineItem ->
          spineStep parseFromString files basePath manifestItems acc spineItem = acc)
      /\ (forall (acc : list EpubChapter.t) (spineItem : SpineItem),
            ~ skipped files basePath manifestItems spineItem ->
            exists chapter : EpubChapter.t,
              spineStep parseFromString files basePath manifestItems acc spineItem
                = acc ++ [chapter])
      /\ length (extractChapters parseFromString files basePath manifestItems spineItems)
         = length (List.filter (loads files basePath manifestItems) spineItems)
      /\ (parseEpubResult parseFromString files basePath manifestItems
                          epubMetadata spineItems
           = inl "Failed to parse EPUB: No readable chapters found in EPUB"
         <-> extractChapters parseFromString files basePath manifestItems spineItems
             = [])
      /\ (extractChapters parseFromString files basePath manifestItems spineItems = []
         <-> Forall (skipped files basePath manifestItems) spineItems)
      /\ (extractChapters parseFromString files basePath manifestItems spineItems <> []
         -> parseEpubResult parseFromString files basePath manifestItems
                            epubMetadata spineItems
            = inr (extractChapters parseFromString files basePath manifestItems
                                   spineItems, epubMetadata)))
  /\ (forall (parseFromString : string -> node) (epubMetadata : EpubMetadata),
        let epubChapters := extractChapters parseFromString Reference.files "OEBPS/"
                              Reference.manifestItems Reference.spineItems in
        length Reference.spineItems = 3%nat
        /\ skipped Reference.files "OEBPS/" Reference.manifestItems
                   {| idref := Some "c2" |}
        /\ length epubChapters = 2%nat
        /\ map EpubChapter.href epubChapters = ["OEBPS/c1.xhtml"; "OEBPS/c3.xhtml"]
        /\ parseEpubResult parseFromString Reference.files "OEBPS/"
                           Reference.manifestItems epubMetadata Reference.spineItems
           = inr (epubChapters, epubMetadata)).
Proof.
  split.
  - intros parseFromString files basePath manifestItems epubMetadata spineItems.
    split; [|split; [|split; [|split; [|split]]]].
    + intros acc spineItem Hskip.
      apply loads_false_skipped in Hskip.
      now rewrite spineStep_loads, Hskip.
    + intros acc spineItem Hload.
      rewrite spineStep_loads.
      destruct (loads files basePath manifestItems spineItem) eqn:Hl.
      * eexists. reflexivity.
      * exfalso. apply Hload. now apply loads_false_skipped.
    + apply extractChapters_length.
    + apply parseEpubResult_fails_iff.
    + apply extractChapters_nil_iff.
    + apply parseEpubResult_succeeds.
  - intros parseFromString epubMetadata. cbv zeta.
    assert (Hlen : length (extractChapters parseFromString Reference.files "OEBPS/"
                             Reference.manifestItems Reference.spineItems) = 2%nat).
    { rewrite extractChapters_length. vm_compute. reflexivity. }
    split; [reflexivity|].
    split.
    { apply (MissingHref _ _ _ _ {| item_id := Some "c2"; item_href := None |});
        [reflexivity | now left]. }
    split; [exact Hlen|].
    split.
    { unfold extractChapters. simpl fold_left.
      rewrite !spineStep_loads.
      reflexivity. }
    apply parseEpubResult_succeeds. intros Hnil. rewrite Hnil in Hlen. discriminate.
Qed.

Lemma chapter_failures_skipped_witness :
  let epubChapters := extractChapters Reference.parseFromString Reference.files
                        "OEBPS/" Reference.manifestItems Reference.spineItems in
  epubChapters <> []
  /\ map EpubChapter.title epubChapters = ["One"; "Chapter 2"]
  /\ parseEpubResult Reference.parseFromString Reference.files "OEBPS/"
                     Reference.manifestItems Reference.epubMetadata
                     Reference.spineItems
     = inr (epubChapters, Reference.epubMetadata).
Proof.
  cbv zeta. split; [vm_compute; discriminate|]. split; [vm_compute; reflexivity|].
  destruct chapter_failures_skipped as [Hgeneral _].
  destruct (Hgeneral Reference.parseFromString Reference.files "OEBPS/"
              Reference.manifestItems Reference.epubMetadata Reference.spineItems)
    as (_ & _ & _ & _ & _ & Hsucceeds).
  apply Hsucceeds. vm_compute. discriminate.
Defined.

(** * Further properties *)

(** ** The paginator: ids, numbering, fit and greediness *)

Lemma nth_error_snoc {A : Type} (l : list A) (x : A) (k : nat) (y : A) :
  nth_error (l ++ [x]) k = Some y ->
  nth_error l k = Some y \/ (k = length l /\ y = x).
Proof.
  intros H. destruct (Nat.lt_ge_cases k (length l)) as [Hlt|Hge].
  - left. now rewrite nth_error_app1 in H.
  - right. rewrite nth_error_app2 in H by exact Hge.
    destruct (k - length l)%nat as [|m] eqn:Hk; simpl in H.
    + injection H as <-. split; [lia | reflexivity].
    + destruct m; discriminate.
Qed.

Section PaginatorShape.

Variable parseFragment : string -> list node.
Variable scrollHeight : TextSettings -> string -> Z.
Variable innerHeight : Z.

Abbreviation chapterElements := (chapterElements parseFragment).
Abbreviation elementStep := (elementStep scrollHeight innerHeight).
Abbreviation chapterStep := (chapterStep parseFragment scrollHeight innerHeight).
Abbreviation splitIntoPages := (splitIntoPages parseFragment scrollHeight innerHeight).
Abbreviation pageHeight := (pageHeight innerHeight).

Lemma idsInOrder_snoc (ps : list EpubPage.t) (content title : string) (n : Z) :
  idsInOrder ps -> idsInOrder (ps ++ [newPage ps content title n]).
Proof.
  intros Hps k p Hk. apply nth_error_snoc in Hk as [Hk|[-> ->]].
  - now apply Hps.
  - reflexivity.
Qed.

Lemma elementLoop_ids (settings : TextSettings) (title : string) (els : list node) :
  forall st : LoopState,
    idsInOrder (ls_pages st) ->
    idsInOrder (ls_pages (fold_left (elementStep settings title) els st)).
Proof.
  induction els as [|e els IH]; intros st Hst; [exact Hst|].
  simpl fold_left. apply IH. unfold Paginator.elementStep.
  destruct (_ && _); simpl; [now apply idsInOrder_snoc | exact Hst].
Qed.

Lemma chapterStep_ids (settings : TextSettings) (ps : list EpubPage.t)
    (chapter : EpubChapter.t) :
  idsInOrder ps -> idsInOrder (chapterStep settings ps chapter).
Proof.
  intros Hps. unfold Paginator.chapterStep, flush.
  set (st := fold_left _ _ _).
  assert (Hst : idsInOrder (ls_pages st)) by (now apply elementLoop_ids).
  destruct (Js.nonEmpty _); [now apply idsInOrder_snoc | exact Hst].
Qed.

(** X1. The page at position [k] (from 0) of a pagination has the id
    [page-(k+1)]: ids are unique and follow the reading order. *)
Theorem page_ids_follow_positions (chapters : list EpubChapter.t)
    (settings : TextSettings) (k : nat) (p : EpubPage.t) :
  nth_error (splitIntoPages chapters settings) k = Some p ->
  EpubPage.id p = "page-" +:+ Js.ofZ (Z.of_nat k + 1).
Proof.
  revert k p. change (idsInOrder (splitIntoPages chapters settings)).
  unfold Paginator.splitIntoPages.
  assert (Hgen : forall ps, idsInOrder ps ->
            idsInOrder (fold_left (chapterStep settings) chapters ps)).
  { induction chapters as [|chapter rest IH]; intros ps Hps; [exact Hps|].
    simpl. apply IH. now apply chapterStep_ids. }
  apply Hgen. intros k p Hk. destruct k; discriminate.
Qed.

(** *** Pages never span chapters *)

(** The inner loop adds the same page bodies whatever pages came before. *)
Lemma elementLoop_bodies (settings : TextSettings) (title : string) (els : list node) :
  forall st1 st2 : LoopState,
    currentPageContent st1 = currentPageContent st2 ->
    ls_pageNumber st1 = ls_pageNumber st2 ->
    let r1 := fold_left (elementStep settings title) els st1 in
    let r2 := fold_left (elementStep settings title) els st2 in
    currentPageContent r1 = currentPageContent r2
    /\ ls_pageNumber r1 = ls_pageNumber r2
    /\ exists added : list (string * string * Z),
         bodies (ls_pages r1) = bodies (ls_pages st1) ++ added
         /\ bodies (ls_pages r2) = bodies (ls_pages st2) ++ added.
Proof.
  induction els as [|e els IH]; intros st1 st2 Hc Hn; cbv zeta.
  - simpl. repeat split; try assumption. exists []. now rewrite !app_nil_r.
  - simpl fold_left.
    destruct (IH (elementStep settings title st1 e) (elementStep settings title st2 e))
      as (Hc' & Hn' & added & H1 & H2).
    + unfold Paginator.elementStep. rewrite Hc. destruct (_ && _); simpl; congruence.
    + unfold Paginator.elementStep. rewrite Hc. destruct (_ && _); simpl; congruence.
    + split; [exact Hc'|]. split; [exact Hn'|].
      cbv zeta in H1, H2. rewrite H1, H2. clear H1 H2.
      unfold Paginator.elementStep. rewrite Hc, Hn.
      destruct (_ && _); simpl.
      * exists ((currentPageContent st2, title, ls_pageNumber st2) :: added).
        unfold bodies. rewrite !map_app. simpl. unfold pageBody at 2 4. simpl.
        now rewrite <- !app_assoc.
      * exists added. auto.
Qed.

Lemma chapterStep_bodies (settings : TextSettings) (ps : list EpubPage.t)
    (chapter : EpubChapter.t) :
  bodies (chapterStep settings ps chapter)
    = bodies ps ++ bodies (chapterStep settings [] chapter).
Proof.
  unfold Paginator.chapterStep.
  destruct (elementLoop_bodies settings (EpubChapter.title chapter)
              (chapterElements chapter)
              {| ls_pages := ps; currentPageContent := ""; ls_pageNumber := 1 |}
              {| ls_pages := []; currentPageContent := ""; ls_pageNumber := 1 |}
              eq_refl eq_refl) as (Hc & Hn & added & H1 & H2).
  cbv zeta in *. simpl in H1, H2. unfold flush. rewrite Hc, Hn.
  destruct (Js.nonEmpty _).
  - unfold bodies in *. rewrite !map_app, H1, H2. simpl.
    unfold pageBody at 2 4. simpl. now rewrite <- app_assoc.
  - now rewrite H1, H2.
Qed.

Lemma chapterLoop_bodies (settings : TextSettings) (chapters : list EpubChapter.t) :
  forall ps : list EpubPage.t,
    bodies (fold_left (chapterStep settings) chapters ps)
      = bodies ps ++ flat_map (fun chapter => bodies (splitIntoPages [chapter] settings))
                              chapters.
Proof.
  induction chapters as [|chapter rest IH]; intros ps; simpl.
  - now rewrite app_nil_r.
  - rewrite IH, chapterStep_bodies, <- app_assoc. reflexivity.
Qed.

(** X2. Pages never span chapters: apart from the ids, the pagination of
    a book is the pagination of each chapter taken alone, one after the
    other; in particular the pagination of two chapter lists put together
    is the two paginations put together. *)
Theorem pagination_by_chapter (chapters more : list EpubChapter.t)
    (settings : TextSettings) :
  bodies (splitIntoPages chapters settings)
    = flat_map (fun chapter => bodies (splitIntoPages [chapter] settings)) chapters
  /\ bodies (splitIntoPages (chapters ++ more) settings)
     = bodies (splitIntoPages chapters settings)
       ++ bodies (splitIntoPages more settings).
Proof.
  assert (Hone : forall cs, bodies (splitIntoPages cs settings)
                   = flat_map (fun chapter => bodies (splitIntoPages [chapter] settings)) cs).
  { intros cs. unfold Paginator.splitIntoPages at 1. now rewrite chapterLoop_bodies. }
  split; [apply Hone|]. rewrite !Hone. apply flat_map_app.
Qed.

(** *** Page numbers within a chapter *)

Lemma numberedFrom_snoc (title : string) (ps : list EpubPage.t) (content : string)
    (before : list EpubPage.t) :
  numberedFrom title 1 ps ->
  numberedFrom title 1
    (ps ++ [newPage before content title (1 + Z.of_nat (length ps))]).
Proof.
  intros Hps k p Hk. apply nth_error_snoc in Hk as [Hk|[-> ->]].
  - now apply Hps.
  - split; reflexivity.
Qed.

Lemma elementLoop_numbered (settings : TextSettings) (title : string)
    (els : list node) :
  forall (st : LoopState) (own : list EpubPage.t) (before : list EpubPage.t),
    ls_pages st = before ++ own ->
    numberedFrom title 1 own ->
    ls_pageNumber st = 1 + Z.of_nat (length own) ->
    exists own' : list EpubPage.t,
      let st' := fold_left (elementStep settings title) els st in
      ls_pages st' = before ++ own'
      /\ numberedFrom title 1 own'
      /\ ls_pageNumber st' = 1 + Z.of_nat (length own').
Proof.
  induction els as [|e els IH]; intros st own before Hp Hn Hpn.
  - exists own. auto.
  - simpl fold_left. unfold Paginator.elementStep at 2.
    destruct (_ && _).
    + apply (IH _ (own ++ [newPage (ls_pages st) (currentPageContent st) title
                             (ls_pageNumber st)]) before); simpl.
      * now rewrite Hp, <- app_assoc.
      * rewrite Hpn. now apply numberedFrom_snoc.
      * rewrite length_app. simpl. lia.
    + now apply (IH _ own before).
Qed.

(** X3. The pages of a chapter are numbered 1, 2, 3, ... in order and
    each carries the chapter's title. *)
Theorem chapter_pages_numbered (chapter : EpubChapter.t) (settings : TextSettings)
    (k : nat) (p : EpubPage.t) :
  nth_error (splitIntoPages [chapter] settings) k = Some p ->
  EpubPage.pageNumber p = Z.of_nat k + 1
  /\ EpubPage.chapterTitle p = EpubChapter.title chapter.
Proof.
  unfold Paginator.splitIntoPages. simpl fold_left. unfold Paginator.chapterStep.
  destruct (elementLoop_numbered settings (EpubChapter.title chapter)
              (chapterElements chapter)
              {| ls_pages := []; currentPageContent := ""; ls_pageNumber := 1 |}
              [] []) as (own & Hp & Hn & Hpn); [reflexivity | | reflexivity |].
  { intros j q Hj. destruct j; discriminate. }
  cbv zeta in *. simpl in Hp. unfold flush. rewrite Hp, Hpn.
  intros Hk. destruct (Js.nonEmpty _).
  - destruct (numberedFrom_snoc (EpubChapter.title chapter) own
                (currentPageContent (fold_left
                   (elementStep settings (EpubChapter.title chapter))
                   (chapterElements chapter)
                   {| ls_pages := []; currentPageContent := ""; ls_pageNumber := 1 |}))
                own Hn k p Hk) as [H1 H2].
    split; [lia | exact H2].
  - destruct (Hn k p Hk) as [H1 H2]. split; [lia | exact H2].
Qed.

(** *** Fit and greediness *)

Abbreviation fits := (fits scrollHeight innerHeight).
Abbreviation fitsOrSingle := (fitsOrSingle scrollHeight innerHeight).
Abbreviation overflows := (overflows scrollHeight innerHeight).
Abbreviation greedyRuns := (greedyRuns scrollHeight innerHeight).
Abbreviation pageFits := (pageFits scrollHeight innerHeight).

Lemma greedyRuns_cons (settings : TextSettings) (g : list node) (e : node)
    (groups : list (list node)) (g' : list node) :
  overflows settings g e ->
  concat groups ++ g' = e :: tl (concat groups ++ g') ->
  Forall (fun x => x <> []) groups ->
  greedyRuns settings (groups ++ [g']) ->
  greedyRuns settings (g :: groups ++ [g']).
Proof.
  intros Hov Hhead Hne Hrest. simpl. split; [|exact Hrest].
  destruct groups as [|g1 groups]; simpl in *.
  - destruct g'; [trivial|].
    simpl in Hhead. injection Hhead as ->. exact Hov.
  - apply Forall_cons in Hne as [Hg1 _]. destruct g1; [contradiction|].
    simpl in Hhead. injection Hhead as ->. exact Hov.
Qed.

(** The inner loop, with what each run measures. *)
Lemma elementLoop_layout (settings : TextSettings) (title : string)
    (els : list node) :
  Forall (fun n => Dom.isElement n = true) els ->
  forall (st : LoopState) (g0 : list node),
    Forall (fun n => Dom.isElement n = true) g0 ->
    currentPageContent st = groupHtml g0 ->
    (length g0 <= 1)%nat \/ fits settings g0 ->
    exists (groups : list (list node)) (g' : list node),
      let st' := fold_left (elementStep settings title) els st in
      contents (ls_pages st') = contents (ls_pages st) ++ map groupHtml groups
      /\ currentPageContent st' = groupHtml g'
      /\ concat groups ++ g' = g0 ++ els
      /\ Forall (fun n => Dom.isElement n = true) g'
      /\ Forall (fun g => g <> []) groups
      /\ Forall (fitsOrSingle settings) groups
      /\ ((length g' <= 1)%nat \/ fits settings g')
      /\ greedyRuns settings (groups ++ [g']).
Proof.
  induction 1 as [|e els He Hels IH]; intros st g0 Hg0 Hcur Hfit.
  - exists [], g0. simpl. rewrite !app_nil_r. repeat split; auto.
  - simpl fold_left. unfold Paginator.elementStep at 2.
    destruct (Z.gtb_spec
                (scrollHeight settings (currentPageContent st +:+ elementHtml e))
                pageHeight) as [Hgt|Hle];
      [destruct (Js.nonEmpty (Js.trim (currentPageContent st))) eqn:Hne|]; simpl andb;
      cbv iota.
    + rewrite Hcur, groupHtml_trim in Hne by exact Hg0.
      destruct (IH {| ls_pages := ls_pages st ++
                        [newPage (ls_pages st) (currentPageContent st) title
                                 (ls_pageNumber st)];
                      currentPageContent := elementHtml e;
                      ls_pageNumber := ls_pageNumber st + 1 |} [e])
        as (groups & g' & Hp & Hc' & Hcat & Hg' & Hgs & Hfs & Hf' & Hgr).
      { now constructor. }
      { simpl. now rewrite groupHtml_single. }
      { left. simpl. lia. }
      exists (g0 :: groups), g'. cbv zeta in *. simpl in Hp.
      split; [|split; [exact Hc'|split; [|split; [exact Hg'|split; [|split; [|split]]]]]].
      * rewrite Hp. unfold contents. rewrite map_app. simpl.
        rewrite Hcur, <- app_assoc. reflexivity.
      * simpl. rewrite <- app_assoc, Hcat. reflexivity.
      * constructor; [|exact Hgs]. intros ->. discriminate.
      * constructor; [|exact Hfs].
        destruct g0 as [|b g0]; [discriminate|].
        destruct Hfit as [Hlen|Hfit]; [left | now right].
        simpl in *. lia.
      * exact Hf'.
      * apply (greedyRuns_cons settings g0 e groups g'); try assumption.
        -- unfold Layout.overflows. rewrite <- Hcur. lia.
        -- rewrite Hcat. reflexivity.
    + destruct (IH {| ls_pages := ls_pages st;
                      currentPageContent := currentPageContent st +:+ elementHtml e;
                      ls_pageNumber := ls_pageNumber st |} (g0 ++ [e]))
        as (groups & g' & Hp & Hc' & Hcat & Hg' & Hgs & Hfs & Hf' & Hgr).
      { apply Forall_app; split; [exact Hg0 | now constructor]. }
      { simpl. now rewrite groupHtml_snoc, Hcur. }
      { left. rewrite Hcur, groupHtml_trim in Hne by exact Hg0.
        destruct g0; [simpl; lia | discriminate]. }
      exists groups, g'. cbv zeta in *. simpl in Hp.
      repeat split; try assumption.
      rewrite Hcat, <- app_assoc. reflexivity.
    + destruct (IH {| ls_pages := ls_pages st;
                      currentPageContent := currentPageContent st +:+ elementHtml e;
                      ls_pageNumber := ls_pageNumber st |} (g0 ++ [e]))
        as (groups & g' & Hp & Hc' & Hcat & Hg' & Hgs & Hfs & Hf' & Hgr).
      { apply Forall_app; split; [exact Hg0 | now constructor]. }
      { simpl. now rewrite groupHtml_snoc, Hcur. }
      { right. unfold Layout.fits. rewrite groupHtml_snoc, <- Hcur. exact Hle. }
      exists groups, g'. cbv zeta in *. simpl in Hp.
      repeat split; try assumption.
      rewrite Hcat, <- app_assoc. reflexivity.
Qed.

Lemma greedyRuns_drop_empty (settings : TextSettings) (groups : list (list node)) :
  greedyRuns settings (groups ++ [[]]) -> greedyRuns settings groups.
Proof.
  induction groups as [|g groups IH].
  - intros _. exact I.
  - simpl. intros [Hhead Hrest]. split; [|now apply IH].
    destruct groups as [|g1 groups].
    + exact I.
    + exact Hhead.
Qed.

Lemma chapterStep_layout (settings : TextSettings) (ps : list EpubPage.t)
    (chapter : EpubChapter.t) :
  exists groups : list (list node),
    contents (chapterStep settings ps chapter) = contents ps ++ map groupHtml groups
    /\ concat groups = chapterElements chapter
    /\ Forall (fun g => g <> []) groups
    /\ Forall (fitsOrSingle settings) groups
    /\ greedyRuns settings groups.
Proof.
  unfold Paginator.chapterStep.
  destruct (elementLoop_layout settings (EpubChapter.title chapter)
              (chapterElements chapter)
              (chapterElements_elements parseFragment chapter)
              {| ls_pages := ps; currentPageContent := ""; ls_pageNumber := 1 |} [])
    as (groups & g' & Hp & Hc & Hcat & Hg' & Hgs & Hfs & Hf' & Hgr);
    [constructor | reflexivity | left; simpl; lia |].
  cbv zeta in *. simpl in Hp, Hcat.
  pose proof (groupHtml_trim g' Hg') as Ht. rewrite <- Hc in Ht.
  destruct g' as [|e g'].
  - exists groups. unfold flush. rewrite Ht. simpl.
    rewrite app_nil_r in Hcat. repeat split; auto.
    now apply greedyRuns_drop_empty.
  - exists (groups ++ [e :: g']). unfold flush. rewrite Ht. simpl.
    split; [|split; [|split; [|split]]].
    + unfold contents in *. rewrite !map_app, Hp, Hc. simpl.
      now rewrite app_assoc.
    + rewrite concat_app. simpl. now rewrite app_nil_r.
    + apply Forall_app; split; [exact Hgs | repeat constructor; discriminate].
    + apply Forall_app; split; [exact Hfs|]. constructor; [|constructor].
      destruct Hf' as [Hlen|Hfit]; [left | now right].
      simpl in *. lia.
    + exact Hgr.
Qed.

(** X4. A chapter is paginated greedily: its pages are its blocks cut
    into consecutive runs, every run is a lone block or measures within
    the page height, and every run but the last measured above the page
    height when the first block of the next run was appended to it. *)
Theorem chapter_paginated_greedily (chapter : EpubChapter.t)
    (settings : TextSettings) :
  exists groups : list (list node),
    concat groups = chapterElements chapter
    /\ contents (splitIntoPages [chapter] settings) = map groupHtml groups
    /\ Forall (fitsOrSingle settings) groups
    /\ greedyRuns settings groups.
Proof.
  destruct (chapterStep_layout settings [] chapter)
    as (groups & Hp & Hc & _ & Hf & Hg).
  exists groups. auto.
Qed.

Lemma fitsOrSingle_pageFits (settings : TextSettings) (groups : list (list node)) :
  Forall (fitsOrSingle settings) groups ->
  Forall (pageFits settings (concat groups)) (map groupHtml groups).
Proof.
  induction 1 as [|g groups Hg Hgs IH]; [constructor|].
  simpl. constructor.
  - destruct Hg as [Hlen|Hfit]; [left | now right].
    destruct g as [|e [|? ?]]; try discriminate.
    exists e. split; [now left | apply groupHtml_single].
  - eapply List.Forall_impl; [|exact IH]. intros c [(e & He & Hc)|H]; [left | now right].
    exists e. split; [|exact Hc]. apply in_or_app. now right.
Qed.

Lemma chapterLoop_layout (settings : TextSettings) (chapters : list EpubChapter.t) :
  forall ps : list EpubPage.t,
  exists groups : list (list node),
    contents (fold_left (chapterStep settings) chapters ps)
      = contents ps ++ map groupHtml groups
    /\ concat groups = flat_map chapterElements chapters
    /\ Forall (fitsOrSingle settings) groups.
Proof.
  induction chapters as [|chapter chapters IH]; intros ps.
  - exists []. simpl. rewrite app_nil_r. auto.
  - simpl fold_left.
    destruct (chapterStep_layout settings ps chapter) as (g1 & Hp1 & Hc1 & _ & Hf1 & _).
    destruct (IH (chapterStep settings ps chapter)) as (g2 & Hp2 & Hc2 & Hf2).
    exists (g1 ++ g2). repeat split.
    + rewrite Hp2, Hp1, map_app, app_assoc. reflexivity.
    + rewrite concat_app, Hc1, Hc2. reflexivity.
    + apply Forall_app; auto.
Qed.

(** X5. Every page of a pagination either holds a single block of the
    book or measures within the page height: only a block that is too
    tall on its own makes a page overflow. *)
Theorem pages_fit_or_single_block (chapters : list EpubChapter.t)
    (settings : TextSettings) (p : EpubPage.t) :
  In p (splitIntoPages chapters settings) ->
  (exists e : node,
      In e (flat_map chapterElements chapters)
      /\ EpubPage.content p = elementHtml e)
  \/ scrollHeight settings (EpubPage.content p) <= pageHeight.
Proof.
  intros Hin.
  destruct (chapterLoop_layout settings chapters []) as (groups & Hp & Hc & Hf).
  simpl in Hp. apply fitsOrSingle_pageFits in Hf. rewrite Hc, <- Hp in Hf.
  rewrite List.Forall_forall in Hf.
  apply (Hf (EpubPage.content p)). unfold contents. now apply in_map.
Qed.

(** X6. A pagination has at least one page per chapter and at most one
    page per block, and no page content is blank. *)
Theorem page_count_bounds (chapters : list EpubChapter.t) (settings : TextSettings) :
  (length chapters <= length (splitIntoPages chapters settings))%nat
  /\ (length (splitIntoPages chapters settings)
      <= length (flat_map chapterElements chapters))%nat
  /\ Forall (fun p => Js.nonEmpty (Js.trim (EpubPage.content p)) = true)
            (splitIntoPages chapters settings).
Proof.
  split; [|split].
  - unfold Paginator.splitIntoPages.
    assert (Hgen : forall ps,
              (length ps + length chapters
               <= length (fold_left (chapterStep settings) chapters ps))%nat).
    { induction chapters as [|chapter rest IH]; intros ps; simpl; [lia|].
      specialize (IH (chapterStep settings ps chapter)).
      destruct (chapterStep_partition parseFragment scrollHeight innerHeight
                  settings ps chapter) as (groups & Hp & Hc & _).
      apply (f_equal (@length string)) in Hp.
      unfold contents in Hp. rewrite length_app, !length_map in Hp.
      destruct groups as [|g groups].
      - simpl in Hc. symmetry in Hc.
        now apply chapterElements_nonempty in Hc.
      - simpl in Hp. lia. }
    apply (Hgen []).
  - destruct (chapterLoop_partition parseFragment scrollHeight innerHeight
                settings chapters []) as (groups & Hp & Hc & Hn).
    simpl in Hp. apply (f_equal (@length string)) in Hp.
    unfold contents in Hp. rewrite !length_map in Hp.
    unfold Paginator.splitIntoPages. rewrite Hp, <- Hc.
    clear Hp Hc. induction Hn as [|g groups Hg Hn IH]; simpl; [lia|].
    rewrite length_app. destruct g; [contradiction | simpl; lia].
  - destruct (chapterLoop_partition parseFragment scrollHeight innerHeight
                settings chapters []) as (groups & Hp & Hc & Hn).
    simpl in Hp.
    assert (Hel : Forall (fun n => Dom.isElement n = true) (concat groups)).
    { rewrite Hc. apply Forall_flat_map. apply List.Forall_forall.
      intros chapter _. apply chapterElements_elements. }
    assert (Hall : Forall (fun c => Js.nonEmpty (Js.trim c) = true)
                     (map groupHtml groups)).
    { clear Hp Hc. induction Hn as [|g groups Hg Hn IH]; [constructor|].
      simpl in Hel. apply Forall_app in Hel as [Hg1 Hg2].
      simpl. constructor; [|now apply IH].
      rewrite groupHtml_trim by exact Hg1. destruct g; [contradiction | reflexivity]. }
    unfold Paginator.splitIntoPages in *. rewrite <- Hp in Hall.
    unfold contents in Hall. rewrite List.Forall_map in Hall. exact Hall.
Qed.

End PaginatorShape.

Lemma page_ids_follow_positions_witness :
  nth_error (splitIntoPages Reference.parseFragment Reference.scrollHeight
               Reference.innerHeight Reference.chapters initialTextSettings) 7
  = Some {| EpubPage.id := "page-8";
            EpubPage.content := "<p>xxxx</p>";
            EpubPage.chapterTitle := "three";
            EpubPage.pageNumber := 1 |}
  /\ idAt 7 = "page-8".
Proof.
  split; [vm_compute; reflexivity|].
  symmetry.
  apply (page_ids_follow_positions Reference.parseFragment Reference.scrollHeight
           Reference.innerHeight Reference.chapters initialTextSettings 7
           {| EpubPage.id := "page-8";
              EpubPage.content := "<p>xxxx</p>";
              EpubPage.chapterTitle := "three";
              EpubPage.pageNumber := 1 |}).
  vm_compute. reflexivity.
Defined.

(** ** Sanitising a chapter document *)

Lemma node_nested_ind (P : node -> Prop) :
  (forall s : string, P (Text s)) ->
  (forall (t : string) (attrs : list (string * string)) (cs : list node),
      Forall P cs -> P (Elem t attrs cs)) ->
  forall n : node, P n.
Proof.
  intros HText HElem. fix IH 1. intros [s|t attrs cs]; [apply HText|].
  apply HElem. revert cs. fix IHcs 1. intros [|c cs].
  - constructor.
  - constructor; [apply IH | apply IHcs].
Qed.

Lemma matchesSel_removeAll (tags sel : list string) (n : node) :
  Dom.matchesSel sel (removeAll tags n) = Dom.matchesSel sel n.
Proof. destruct n; reflexivity. Qed.

(** X7. After [script, style, meta, link] (or any tag list) is removed
    from a document, no element of those names is left anywhere in it;
    a document without such elements is returned unchanged, so removing
    twice is removing once. *)
Theorem removeAll_leaves_none (tags : list string) (n : node) :
  Dom.querySelectorAll tags (removeAll tags n) = []
  /\ (Dom.querySelectorAll tags n = [] -> removeAll tags n = n)
  /\ removeAll tags (removeAll tags n) = removeAll tags n.
Proof.
  assert (Hclean : forall m, Dom.querySelectorAll tags (removeAll tags m) = []).
  { unfold Dom.querySelectorAll. induction m as [s|t attrs cs IH] using node_nested_ind;
      [reflexivity|].
    simpl. induction IH as [|c cs Hc Hcs IHcs]; [reflexivity|].
    simpl. destruct (Dom.matchesSel tags c) eqn:Hm; simpl; [exact IHcs|].
    rewrite matchesSel_removeAll, Hm, List.filter_app, Hc. exact IHcs. }
  assert (Hid : forall m, Dom.querySelectorAll tags m = [] -> removeAll tags m = m).
  { unfold Dom.querySelectorAll. induction m as [s|t attrs cs IH] using node_nested_ind;
      [reflexivity|].
    simpl. intros Hnone. f_equal.
    induction IH as [|c cs Hc Hcs IHcs]; [reflexivity|].
    simpl in Hnone. destruct (Dom.matchesSel tags c) eqn:Hm; [discriminate|].
    rewrite List.filter_app in Hnone. apply app_eq_nil in Hnone as [H1 H2].
    simpl. rewrite Hm, (Hc H1), (IHcs H2). reflexivity. }
  split; [apply Hclean|]. split; [apply Hid|]. apply Hid, Hclean.
Qed.

Lemma removeAll_leaves_none_witness :
  let doc := Elem "#document" []
               [Elem "body" [] [Elem "p" [] [Text "kept"]; Elem "h1" [] [Text "Title"]]] in
  Dom.querySelectorAll ["script"; "style"; "meta"; "link"] doc = []
  /\ removeAll ["script"; "style"; "meta"; "link"] doc = doc.
Proof.
  cbv zeta. split; [reflexivity|].
  apply (removeAll_leaves_none ["script"; "style"; "meta"; "link"]). reflexivity.
Defined.

(** ** Selectors of the package document *)

Lemma selectUnder_types (tags : list string) (n : node) :
  forall ancestors : list string,
    Css.selectUnder (map Css.TypeSel tags) ancestors n
      = List.filter (Dom.matchesSel tags) (Dom.descendants n).
Proof.
  assert (Hm : forall anc c, Css.matchesAny anc (map Css.TypeSel tags) c
                             = Dom.matchesSel tags c).
  { intros anc [s|t attrs cs]; unfold Css.matchesAny, Dom.matchesSel, Dom.inTags.
    - induction tags as [|x tags IHt]; [reflexivity | exact IHt].
    - induction tags as [|x tags IHt]; [reflexivity|]. simpl in *. now rewrite IHt. }
  induction n as [s|t attrs cs IH] using node_nested_ind; intros ancestors;
    [reflexivity|].
  simpl. induction IH as [|c cs Hc Hcs IHcs]; [reflexivity|].
  simpl. rewrite List.filter_app, IHcs, Hm, Hc. simpl.
  destruct (Dom.matchesSel tags c); reflexivity.
Qed.

Lemma selectUnder_redundant (a x : string) (n : node) :
  forall ancestors : list string,
    Css.selectUnder [Css.DescendantSel a x; Css.TypeSel x] ancestors n
      = Css.selectUnder [Css.TypeSel x] ancestors n.
Proof.
  assert (Hm : forall anc c,
            Css.matchesAny anc [Css.DescendantSel a x; Css.TypeSel x] c
            = Css.matchesAny anc [Css.TypeSel x] c).
  { intros anc [s|t attrs cs]; [reflexivity|]. unfold Css.matchesAny. simpl.
    destruct (String.eqb t x); simpl; [now rewrite orb_true_r | reflexivity]. }
  induction n as [s|t attrs cs IH] using node_nested_ind; intros ancestors;
    [reflexivity|].
  cbn [Css.selectUnder]. induction IH as [|c cs Hc Hcs IHcs]; [reflexivity|].
  cbn [flat_map]. now rewrite IHcs, Hm, Hc.
Qed.

(** X8. The metadata of a book is read from the first [title],
    [creator] and [language] element of the package document, wherever
    they stand (the [metadata x] alternative of each selector list never
    changes what is selected); a missing or empty one is replaced by the
    file name, [Unknown Author] and [en], so author and language are
    never empty. *)
Theorem metadata_defaults (bookFileName : string) (opfDoc : node) :
  let md := readMetadata bookFileName opfDoc in
  md_title md
    = Js.or (optTextContent (Dom.querySelector ["title"] opfDoc)) bookFileName
  /\ md_author md
     = Js.or (optTextContent (Dom.querySelector ["creator"] opfDoc)) "Unknown Author"
  /\ md_language md
     = Js.or (optTextContent (Dom.querySelector ["language"] opfDoc)) "en"
  /\ md_author md <> ""
  /\ md_language md <> ""
  /\ (bookFileName <> "" -> md_title md <> "").
Proof.
  assert (Hq : forall x, Css.querySelector [Css.DescendantSel "metadata" x; Css.TypeSel x] opfDoc
                         = Dom.querySelector [x] opfDoc).
  { intros x. unfold Css.querySelector, Css.querySelectorAll, Dom.querySelector,
      Dom.querySelectorAll.
    now rewrite selectUnder_redundant, (selectUnder_types [x]). }
  assert (Hor : forall a b, b <> "" -> Js.or a b <> "").
  { intros [|c a] b Hb; [exact Hb | discriminate]. }
  cbv zeta. unfold readMetadata. simpl. rewrite !Hq.
  repeat split; try apply Hor; discriminate.
Qed.

Lemma metadata_defaults_witness :
  readMetadata "book.epub" Sample.opfDoc
  = {| md_title := "A sample"; md_author := "Unknown Author"; md_language := "fr" |}
  /\ md_title (readMetadata "book.epub" (Elem "#document" [] [])) <> "".
Proof.
  split; [reflexivity|].
  apply (metadata_defaults "book.epub" (Elem "#document" [] [])). discriminate.
Defined.

(** ** The base path of the package document *)

Lemma substring0_cons (n : nat) (c : ascii) (s : string) :
  String.substring 0 (S n) (String c s) = String c (String.substring 0 n s).
Proof. reflexivity. Qed.

Lemma substring0_zero (s : string) : String.substring 0 0 s = "".
Proof. destruct s; reflexivity. Qed.

Lemma lastIndexOf_split (c : ascii) (s : string) :
  let k := JsString.lastIndexOf c s in
  (k = -1 /\ JsString.includes c s = false)
  \/ (0 <= k
      /\ JsString.endsWith c (JsString.substring0 (k + 1) s) = true
      /\ exists rest : string,
           s = JsString.substring0 (k + 1) s +:+ rest
           /\ JsString.includes c rest = false).
Proof.
  induction s as [|d s IH]; cbv zeta in *; [left; split; reflexivity|].
  simpl JsString.lastIndexOf.
  destruct IH as [[Hk Hnone]|(Hk & Hend & rest & Hs & Hrest)].
  - rewrite Hk. simpl. destruct (Ascii.eqb d c) eqn:Hd.
    + right. split; [lia|]. unfold JsString.substring0.
      change (Z.to_nat (0 + 1)) with 1%nat. rewrite substring0_cons, substring0_zero.
      split; [cbn [JsString.endsWith]; exact Hd|].
      exists s. split; [reflexivity | exact Hnone].
    + left. split; [reflexivity|]. simpl. exact Hnone.
  - destruct (Z.geb_spec (JsString.lastIndexOf c s) 0) as [_|Hneg]; [|lia].
    right. split; [lia|]. unfold JsString.substring0 in *.
    replace (Z.to_nat (JsString.lastIndexOf c s + 1 + 1))
      with (S (Z.to_nat (JsString.lastIndexOf c s + 1))) by lia.
    rewrite substring0_cons. split.
    + destruct (String.substring 0 (Z.to_nat (JsString.lastIndexOf c s + 1)) s)
        eqn:Hsub; [discriminate | exact Hend].
    + exists rest. split; [|exact Hrest]. rewrite append_cons. now f_equal.
Qed.

(** X9. The base path is the directory part of the package document's
    path: the path is the base path followed by a name without [/], and
    the base path is empty (exactly when the path has no [/]) or ends
    with [/]. *)
Theorem basePath_is_directory (opfPath : string) :
  (exists name : string,
      opfPath = basePathOf opfPath +:+ name
      /\ JsString.includes "/" name = false)
  /\ (JsString.includes "/" opfPath = false -> basePathOf opfPath = "")
  /\ (JsString.includes "/" opfPath = true ->
      JsString.endsWith "/" (basePathOf opfPath) = true).
Proof.
  unfold basePathOf.
  destruct (lastIndexOf_split "/" opfPath) as [[Hk Hnone]|(Hk & Hend & rest & Hs & Hrest)].
  - rewrite Hk. unfold JsString.substring0. simpl Z.to_nat. rewrite substring0_zero.
    split; [exists opfPath; split; [reflexivity | exact Hnone]|].
    split; [reflexivity | congruence].
  - split; [exists rest; split; assumption|]. split; [|intros _; exact Hend].
    intros Hnone. exfalso. rewrite Hs in Hnone.
    destruct (JsString.substring0 (JsString.lastIndexOf "/" opfPath + 1) opfPath)
      as [|d pre] eqn:Hpre; [discriminate|].
    clear Hs Hpre. revert d Hend Hnone. induction pre as [|d' pre IHp]; intros d Hend Hnone.
    + simpl in Hend. rewrite append_cons in Hnone. simpl in Hnone.
      now rewrite Hend in Hnone.
    + rewrite append_cons in Hnone. simpl in Hnone.
      apply orb_false_iff in Hnone as [_ Hnone]. now apply (IHp d').
Qed.

Lemma basePath_is_directory_witness :
  basePathOf "OEBPS/text/content.opf" = "OEBPS/text/"
  /\ JsString.endsWith "/" (basePathOf "OEBPS/text/content.opf") = true
  /\ basePathOf "content.opf" = "".
Proof.
  split; [reflexivity|]. split.
  - apply (basePath_is_directory "OEBPS/text/content.opf"). reflexivity.
  - apply (basePath_is_directory "content.opf"). reflexivity.
Defined.

(** ** [parseEpub] as a whole *)

Lemma prefix_append (p s : string) : String.prefix p (p +:+ s) = true.
Proof.
  induction p as [|c p IH]; [now destruct s|].
  rewrite append_cons. simpl. destruct (ascii_dec c c); [exact IH | contradiction].
Qed.

Section ExtractionOrder.

Variable parseFromString : string -> node.
Variable files : gmap string ZipObject.
Variable basePath : string.
Variable manifestItems : list ManifestItem.

Abbreviation spineStep := (spineStep parseFromString files basePath manifestItems).
Abbreviation extractChapters :=
  (extractChapters parseFromString files basePath manifestItems).

Lemma spineStep_hrefs (acc : list EpubChapter.t) (spineItem : SpineItem) :
  map EpubChapter.href (spineStep acc spineItem)
    = map EpubChapter.href acc ++ resolvedPath files basePath manifestItems spineItem.
Proof.
  unfold ParseEpub.spineStep, resolvedPath, loads, manifestItemOf.
  destruct (List.find _ manifestItems) as [[mid [href|]]|]; simpl;
    try (now rewrite app_nil_r).
  destruct (Js.nonEmpty href); simpl; [|now rewrite app_nil_r].
  destruct (file files (basePath +:+ href)) as [f|]; simpl; [|now rewrite app_nil_r].
  destruct (async_text f); simpl; [|now rewrite app_nil_r].
  now rewrite map_app.
Qed.

Lemma spineLoop_hrefs (spineItems : list SpineItem) :
  forall acc : list EpubChapter.t,
    map EpubChapter.href (fold_left spineStep spineItems acc)
      = map EpubChapter.href acc
        ++ flat_map (resolvedPath files basePath manifestItems) spineItems.
Proof.
  induction spineItems as [|item rest IH]; intros acc; simpl.
  - now rewrite app_nil_r.
  - now rewrite IH, spineStep_hrefs, <- app_assoc.
Qed.

Lemma extractChapters_hrefs (spineItems : list SpineItem) :
  map EpubChapter.href (extractChapters spineItems)
    = flat_map (resolvedPath files basePath manifestItems) spineItems.
Proof. unfold ParseEpub.extractChapters. now rewrite spineLoop_hrefs. Qed.

Lemma extractChapters_under_basePath (spineItems : list SpineItem) :
  Forall (fun chapter => JsString.startsWith basePath (EpubChapter.href chapter) = true)
         (extractChapters spineItems).
Proof.
  rewrite <- List.Forall_map with (f := EpubChapter.href)
                                  (P := fun h => JsString.startsWith basePath h = true).
  rewrite extractChapters_hrefs. apply List.Forall_forall. intros h Hh.
  apply in_flat_map in Hh as (item & _ & Hh). unfold resolvedPath in Hh.
  destruct (loads _ _ _ item); [|contradiction].
  destruct (manifestItemOf manifestItems item) as [[mid [href|]]|]; try contradiction.
  destruct Hh as [<-|[]]. apply prefix_append.
Qed.

(** X10. The chapters come out in spine order: their archive paths are
    the paths the spine entries resolve to (base path followed by the
    manifest [href]), entry after entry, the skipped entries left out. *)
Theorem chapters_in_spine_order (spineItems more : list SpineItem) :
  map EpubChapter.href (extractChapters spineItems)
    = flat_map (resolvedPath files basePath manifestItems) spineItems
  /\ map EpubChapter.href (extractChapters (spineItems ++ more))
     = map EpubChapter.href (extractChapters spineItems)
       ++ flat_map (resolvedPath files basePath manifestItems) more
  /\ Forall (fun chapter => JsString.startsWith basePath (EpubChapter.href chapter) = true)
            (extractChapters spineItems).
Proof.
  split; [apply extractChapters_hrefs|].
  split; [now rewrite !extractChapters_hrefs, flat_map_app|].
  apply extractChapters_under_basePath.
Qed.

End ExtractionOrder.

Lemma chapters_in_spine_order_witness :
  map EpubChapter.href
      (extractChapters Reference.parseFromString Reference.files "OEBPS/"
                       Reference.manifestItems Reference.spineItems)
  = ["OEBPS/c1.xhtml"; "OEBPS/c3.xhtml"].
Proof.
  etransitivity.
  - apply (chapters_in_spine_order Reference.parseFromString Reference.files "OEBPS/"
             Reference.manifestItems Reference.spineItems []).
  - vm_compute. reflexivity.
Defined.

Section ParseEpubWhole.

Variable parseXml : string -> node.
Variable parseFromString : string -> node.
Variable readError : string.
Variable bookFileName : string.

Abbreviation parseEpub := (parseEpub parseXml parseFromString readError bookFileName).

(** X11. Every failure of [parseEpub] is reported as
    [Failed to parse EPUB: ] followed by one reason: the rejection of the
    fetch, the refused response with its status, the rejection of the
    unzipping, the missing container descriptor, a rejected read, the
    missing package path, the missing package document, or the absence of
    readable chapters. *)
Theorem parseEpub_failures (outcome : FetchOutcome) (message : string) :
  parseEpub outcome = inl message ->
  exists reason : string,
    message = "Failed to parse EPUB: " +:+ reason
    /\ match outcome with
       | FetchRejected rejection => reason = rejection
       | Responded ok status statusText loaded =>
           if ok then
             match loaded with
             | inl rejection => reason = rejection
             | inr _ =>
                 In reason ["Invalid EPUB: container.xml not found"; readError;
                            "Invalid EPUB: OPF file path not found";
                            "Invalid EPUB: OPF file not found";
                            "No readable chapters found in EPUB"]
             end
           else reason = "Failed to fetch EPUB: " +:+ Js.ofZ status +:+ " " +:+ statusText
       end.
Proof.
  unfold ParseEpubHead.parseEpub, rethrow.
  destruct outcome as [rejection|ok status statusText loaded].
  - intros [= <-]. eexists. split; reflexivity.
  - destruct ok; simpl; [|intros [= <-]; eexists; split; reflexivity].
    destruct loaded as [rejection|files]; [intros [= <-]; eexists; split; reflexivity|].
    destruct (file files "META-INF/container.xml") as [containerFile|];
      [|intros [= <-]; eexists; split; [reflexivity | simpl; auto]].
    destruct (async_text containerFile) as [containerContent|];
      [|intros [= <-]; eexists; split; [reflexivity | simpl; auto]].
    destruct (rootfilePath (parseXml containerContent)) as [opfPath|];
      [|intros [= <-]; eexists; split; [reflexivity | simpl; auto]].
    destruct (file files opfPath) as [opfFile|];
      [|intros [= <-]; eexists; split; [reflexivity | simpl; auto 6]].
    destruct (async_text opfFile) as [opfContent|];
      [|intros [= <-]; eexists; split; [reflexivity | simpl; auto]].
    unfold parseEpubResult. destruct (length _ =? 0)%nat; [|discriminate].
    intros [= <-]. eexists. split; [reflexivity | simpl; auto 6].
Qed.

(** X12. When [parseEpub] succeeds there is at least one chapter, every
    chapter lies under the directory of the package document named by
    the container descriptor, and the metadata is the package
    document's; and an archive without [META-INF/container.xml] always
    fails with the container message, whatever else it holds. *)
Theorem parseEpub_success (files : gmap string ZipObject) (status : Z)
    (statusText : string) (epubChapters : list EpubChapter.t)
    (epubMetadata : EpubMetadata) :
  (parseEpub (Responded true status statusText (inr files))
   = inr (epubChapters, epubMetadata) ->
   epubChapters <> []
   /\ exists (containerContent opfPath opfContent : string),
        file files "META-INF/container.xml" ≫= async_text = Some containerContent
        /\ rootfilePath (parseXml containerContent) = Some opfPath
        /\ file files opfPath ≫= async_text = Some opfContent
        /\ epubMetadata = readMetadata bookFileName (parseXml opfContent)
        /\ Forall (fun chapter =>
                     JsString.startsWith (basePathOf opfPath)
                                         (EpubChapter.href chapter) = true)
                  epubChapters)
  /\ (file files "META-INF/container.xml" = None ->
      parseEpub (Responded true status statusText (inr files))
      = inl "Failed to parse EPUB: Invalid EPUB: container.xml not found").
Proof.
  split.
  - unfold ParseEpubHead.parseEpub. simpl.
    destruct (file files "META-INF/container.xml") as [containerFile|] eqn:Hc;
      [|discriminate].
    destruct (async_text containerFile) as [containerContent|] eqn:Hct; [|discriminate].
    destruct (rootfilePath (parseXml containerContent)) as [opfPath|] eqn:Hr;
      [|discriminate].
    destruct (file files opfPath) as [opfFile|] eqn:Ho; [|discriminate].
    destruct (async_text opfFile) as [opfContent|] eqn:Hot; [|discriminate].
    unfold parseEpubResult.
    destruct (ParseEpub.extractChapters _ _ _ _ _) as [|ch chs] eqn:He; [discriminate|].
    simpl. intros [= <- <-]. split; [discriminate|].
    exists containerContent, opfPath, opfContent.
    rewrite Ho. simpl. repeat split; try assumption.
    rewrite <- He. apply extractChapters_under_basePath.
  - intros Hnone. unfold ParseEpubHead.parseEpub. simpl. now rewrite Hnone.
Qed.

End ParseEpubWhole.

Lemma parseEpub_failures_witness :
  parseEpub Sample.parseXml Reference.parseFromString "read error" "book.epub"
            (Responded true 200 "OK" (inr Sample.filesWithoutContainer))
  = inl "Failed to parse EPUB: Invalid EPUB: container.xml not found"
  /\ exists reason : string,
       "Failed to parse EPUB: Invalid EPUB: container.xml not found"
       = "Failed to parse EPUB: " +:+ reason.
Proof.
  assert (H : parseEpub Sample.parseXml Reference.parseFromString "read error"
                "book.epub" (Responded true 200 "OK" (inr Sample.filesWithoutContainer))
              = inl "Failed to parse EPUB: Invalid EPUB: container.xml not found")
    by (vm_compute; reflexivity).
  split; [exact H|].
  destruct (parseEpub_failures Sample.parseXml Reference.parseFromString "read error"
              "book.epub" _ _ H) as (reason & Hreason & _).
  exists reason. exact Hreason.
Defined.

Lemma parseEpub_success_witness :
  exists (epubChapters : list EpubChapter.t) (epubMetadata : EpubMetadata),
    parseEpub Sample.parseXml Reference.parseFromString "read error" "book.epub"
              (Responded true 200 "OK" (inr Sample.files))
    = inr (epubChapters, epubMetadata)
    /\ map EpubChapter.href epubChapters = ["OEBPS/c1.xhtml"; "OEBPS/c3.xhtml"]
    /\ epubChapters <> [].
Proof.
  eexists. eexists. split; [vm_compute; reflexivity|]. split; [reflexivity|].
  eapply (parseEpub_success Sample.parseXml Reference.parseFromString "read error"
            "book.epub" Sample.files 200 "OK").
  vm_compute. reflexivity.
Defined.

(** ** Navigation *)

Lemma setCurrentPageIndex_same (s : Session) :
  setCurrentPageIndex (currentPageIndex s) s = s.
Proof. now destruct s. Qed.

Lemma setCurrentPageIndex_twice (i j : Z) (s : Session) :
  setCurrentPageIndex i (setCurrentPageIndex j s) = setCurrentPageIndex i s.
Proof. reflexivity. Qed.

(** X13. [goToNext] and [goToPrev] undo each other: from an index that
    is not negative, a [goToNext] that had room to move is undone by
    [goToPrev], and from an index inside the book a [goToPrev] that had
    room to move is undone by [goToNext]. *)
Theorem next_prev_inverse (s : Session) :
  let step := if doublePageView s then 2 else 1 in
  (0 <= currentPageIndex s ->
   currentPageIndex s + step <= pagesLength s - 1 ->
   goToPrev (goToNext s) = s)
  /\ (currentPageIndex s <= pagesLength s - 1 ->
      0 <= currentPageIndex s - step ->
      goToNext (goToPrev s) = s).
Proof.
  cbv zeta. split; intros H1 H2.
  - unfold goToNext.
    destruct (Z.leb_spec (currentPageIndex s + (if doublePageView s then 2 else 1))
                         (pagesLength s - 1)); [|lia].
    unfold goToPrev. simpl.
    destruct (Z.geb_spec (Z.min (currentPageIndex s + (if doublePageView s then 2 else 1))
                                (pagesLength s - 1)
                          - (if doublePageView s then 2 else 1)) 0) as [_|Hneg];
      [|destruct (doublePageView s); lia].
    rewrite setCurrentPageIndex_twice.
    replace (Z.max _ 0) with (currentPageIndex s) by (destruct (doublePageView s); lia).
    apply setCurrentPageIndex_same.
  - unfold goToPrev.
    destruct (Z.geb_spec (currentPageIndex s - (if doublePageView s then 2 else 1)) 0);
      [|lia].
    unfold goToNext. simpl.
    change (pagesLength (setCurrentPageIndex _ s)) with (pagesLength s).
    destruct (Z.leb_spec (Z.max (currentPageIndex s - (if doublePageView s then 2 else 1)) 0
                          + (if doublePageView s then 2 else 1))
                         (pagesLength s - 1)) as [_|Hover];
      [|destruct (doublePageView s); lia].
    rewrite setCurrentPageIndex_twice.
    replace (Z.min _ _) with (currentPageIndex s) by (destruct (doublePageView s); lia).
    apply setCurrentPageIndex_same.
Qed.

Lemma next_prev_inverse_witness :
  let s := Reference.sessionAfter Reference.newBook
             (Reference.openTrace ++ [GoToNext; GoToNext; GoToNext]) in
  0 <= currentPageIndex s
  /\ currentPageIndex s + 1 <= pagesLength s - 1
  /\ goToPrev (goToNext s) = s.
Proof.
  cbv zeta. split; [vm_compute; discriminate|]. split; [vm_compute; discriminate|].
  destruct (next_prev_inverse
              (Reference.sessionAfter Reference.newBook
                 (Reference.openTrace ++ [GoToNext; GoToNext; GoToNext])))
    as [Hundo _].
  apply Hundo; vm_compute; discriminate.
Defined.

(** ** What the viewer shows *)

Lemma pageAt_in_range (ps : list EpubPage.t) (i : Z) :
  0 <= i <= Z.of_nat (length ps) - 1 -> is_Some (pageAt ps i).
Proof.
  intros Hi. unfold pageAt. destruct (Z.ltb_spec i 0); [lia|].
  destruct (nth_error ps (Z.to_nat i)) eqn:Hn; [eauto|].
  apply nth_error_None in Hn. lia.
Qed.

Lemma pageAt_out_of_range (ps : list EpubPage.t) (i : Z) :
  Z.of_nat (length ps) <= i -> pageAt ps i = None.
Proof.
  intros Hi. unfold pageAt. destruct (Z.ltb_spec i 0); [reflexivity|].
  apply nth_error_None. lia.
Qed.

Lemma renderedPages_shown (s : Session) :
  error s = None -> isLoading s = false ->
  0 <= currentPageIndex s <= pagesLength s - 1 ->
  exists p : EpubPage.t,
    pageAt (pages s) (currentPageIndex s) = Some p
    /\ renderedPages s
       = Some ((currentPageIndex s, p)
               :: (if doublePageView s then
                     match pageAt (pages s) (currentPageIndex s + 1) with
                     | Some q => [(currentPageIndex s + 1, q)]
                     | None => []
                     end
                   else [])).
Proof.
  intros He Hl Hi.
  destruct (pageAt_in_range (pages s) (currentPageIndex s) Hi) as [p Hp].
  exists p. split; [exact Hp|]. unfold renderedPages. rewrite He, Hl.
  destruct (Z.eqb_spec (pagesLength s) 0); [lia|]. simpl.
  destruct (doublePageView s); simpl.
  - destruct (Z.gtb_spec (pagesLength s) 1) as [Hmany|Hone].
    + rewrite Z.add_0_r, Hp. simpl. now destruct (pageAt _ (_ + 1)).
    + rewrite Hp, pageAt_out_of_range; [reflexivity|]. unfold pagesLength in *. lia.
  - now rewrite Hp.
Qed.

Lemma pressNext_moves (k : nat) :
  forall s : Session,
    let step := if doublePageView s then 2 else 1 in
    0 <= currentPageIndex s ->
    currentPageIndex s + step * Z.of_nat k <= pagesLength s - 1 ->
    pressNext k s = setCurrentPageIndex (currentPageIndex s + step * Z.of_nat k) s.
Proof.
  induction k as [|k IH]; intros s step H0 Hroom.
  - simpl. rewrite Z.mul_0_r, Z.add_0_r. symmetry. apply setCurrentPageIndex_same.
  - simpl pressNext.
    assert (Hstep : 1 <= step <= 2) by (subst step; destruct (doublePageView s); lia).
    assert (Hnext : goToNext s = setCurrentPageIndex (currentPageIndex s + step) s).
    { unfold goToNext. fold step.
      destruct (Z.leb_spec (currentPageIndex s + step) (pagesLength s - 1)); [|lia].
      f_equal. lia. }
    rewrite Hnext, IH; simpl.
    + fold step. rewrite setCurrentPageIndex_twice. f_equal. lia.
    + lia.
    + fold step. change (pagesLength (setCurrentPageIndex _ s)) with (pagesLength s). lia.
Qed.

(** X14. No page is out of reach of the next page key: from the first
    page of a loaded book, in single or in double page mode, every page
    of the book is shown after some number of presses. *)
Theorem every_page_reachable (s : Session) (j : Z) :
  error s = None -> isLoading s = false ->
  currentPageIndex s = 0 ->
  0 <= j <= pagesLength s - 1 ->
  exists (presses : nat) (p : EpubPage.t) (shown : list (Z * EpubPage.t)),
    pageAt (pages s) j = Some p
    /\ renderedPages (pressNext presses s) = Some shown
    /\ In (j, p) shown.
Proof.
  intros He Hl H0 Hj.
  set (step := if doublePageView s then 2 else 1).
  assert (Hstep : 1 <= step <= 2) by (subst step; destruct (doublePageView s); lia).
  set (k := Z.to_nat (j / step)).
  assert (Hk : Z.of_nat k = j / step).
  { subst k. rewrite Z2Nat.id; [reflexivity|]. apply Z.div_pos; lia. }
  pose proof (Z.div_mod j step ltac:(lia)) as Hdiv.
  pose proof (Z.mod_pos_bound j step ltac:(lia)) as Hmod.
  assert (Hpress : pressNext k s = setCurrentPageIndex (step * (j / step)) s).
  { rewrite pressNext_moves; fold step; rewrite ?H0, ?Hk; [reflexivity | lia | lia]. }
  destruct (renderedPages_shown (pressNext k s)) as (p & Hp & Hshown);
    rewrite ?Hpress; try assumption.
  { simpl. change (pagesLength (setCurrentPageIndex _ s)) with (pagesLength s). lia. }
  rewrite Hpress in Hp, Hshown. simpl in Hp, Hshown.
  destruct (Z.eq_dec (j mod step) 0) as [Hzero|Hone].
  - exists k, p. eexists. rewrite Hpress.
    split; [|split; [exact Hshown | left; f_equal; lia]].
    rewrite <- Hp. f_equal. lia.
  - assert (Hdouble : doublePageView s = true).
    { subst step. destruct (doublePageView s); [reflexivity | lia]. }
    assert (Hnext : step * (j / step) + 1 = j) by lia.
    rewrite Hdouble, Hnext in Hshown.
    destruct (pageAt_in_range (pages s) j) as [q Hq]; [unfold pagesLength in Hj; lia|].
    rewrite Hq in Hshown.
    exists k, q. eexists. rewrite Hpress.
    split; [exact Hq | split; [exact Hshown | right; left; reflexivity]].
Qed.

Lemma every_page_reachable_witness :
  let s := setDoublePageView true
             (Reference.sessionAfter Reference.newBook Reference.openTrace) in
  pagesLength s = 10
  /\ exists (presses : nat) (p : EpubPage.t) (shown : list (Z * EpubPage.t)),
       pageAt (pages s) 9 = Some p
       /\ renderedPages (pressNext presses s) = Some shown
       /\ In (9, p) shown.
Proof.
  cbv zeta. split; [vm_compute; reflexivity|].
  apply (every_page_reachable
           (setDoublePageView true
              (Reference.sessionAfter Reference.newBook Reference.openTrace)) 9);
    vm_compute; try reflexivity; split; discriminate.
Defined.

(** ** The session over its whole life *)

Section SessionLife.

Variable parseFragment : string -> list node.
Variable scrollHeight : TextSettings -> string -> Z.
Variable innerHeight : Z.
Variable book : Book.
Variable onProgressUpdate : bool.

Abbreviation splitIntoPages := (splitIntoPages parseFragment scrollHeight innerHeight).
Abbreviation afterParse := (afterParse parseFragment scrollHeight innerHeight book).
Abbreviation step := (step parseFragment scrollHeight innerHeight book).
Abbreviation emits := (emits parseFragment scrollHeight innerHeight book onProgressUpdate).
Abbreviation run := (run parseFragment scrollHeight innerHeight book onProgressUpdate).

Lemma run_fst (trace : list Event) :
  forall s : Session, fst (run s trace) = fold_left step trace s.
Proof.
  induction trace as [|e rest IH]; intros s; [reflexivity|].
  simpl. specialize (IH (step s e)). destruct (run (step s e) rest). exact IH.
Qed.

Lemma indexInRange_same (s t : Session) :
  currentPageIndex t = currentPageIndex s -> pages t = pages s ->
  indexInRange s -> indexInRange t.
Proof. unfold indexInRange, pagesLength. intros -> ->. trivial. Qed.

Lemma afterParse_indexInRange (k : nat) (parsedChapters : list EpubChapter.t)
    (parsedMetadata : EpubMetadata) (s : Session) :
  indexInRange s -> indexInRange (afterParse k parsedChapters parsedMetadata s).
Proof.
  intros Hs. unfold Controller.afterParse.
  destruct (runs s !! k) as [[[] captured]|]; [exact Hs| |exact Hs].
  destruct (negb _); [exact Hs|].
  destruct (length parsedChapters =? 0)%nat eqn:Hempty.
  - eapply indexInRange_same; [apply initFailed_index | apply initFailed_index | exact Hs].
  - unfold indexInRange, pagesLength. simpl.
    assert (Hne : parsedChapters <> []) by (intros ->; discriminate).
    pose proof (splitIntoPages_length parseFragment scrollHeight innerHeight
                  parsedChapters captured Hne) as Hlen.
    pose proof (initialPageIndex_range book _ Hlen). lia.
Qed.

Lemma step_indexInRange (s : Session) (e : Event) :
  indexInRange s -> indexInRange (step s e).
Proof.
  intros Hs. unfold Controller.step. destruct (negb (mountedRef s)); [exact Hs|].
  destruct e; try exact Hs.
  - eapply indexInRange_same; [apply changeTextSettings_index
                              | apply changeTextSettings_index | exact Hs].
  - eapply indexInRange_same; [apply afterUrl_index | apply afterUrl_index | exact Hs].
  - now apply afterParse_indexInRange.
  - eapply indexInRange_same; [apply afterReject_index | apply afterReject_index | exact Hs].
  - unfold indexInRange, pagesLength in *. rewrite goToNext_pages, goToNext_index.
    unfold pagesLength.
    destruct (Z.leb_spec (currentPageIndex s + (if doublePageView s then 2 else 1))
                         (Z.of_nat (length (pages s)) - 1));
      [destruct (doublePageView s); lia | exact Hs].
  - unfold indexInRange, pagesLength in *. rewrite goToPrev_pages, goToPrev_index.
    destruct (Z.geb_spec (currentPageIndex s - (if doublePageView s then 2 else 1)) 0);
      [destruct (doublePageView s); lia | exact Hs].
  - unfold indexInRange, pagesLength, onDoublePageChange in *.
    destruct (checked && _); simpl; lia.
  - eapply indexInRange_same; [apply retry_index | apply retry_index | exact Hs].
Qed.

Lemma trace_indexInRange (trace : list Event) :
  forall s : Session, indexInRange s -> indexInRange (fold_left step trace s).
Proof.
  induction trace as [|e rest IH]; intros s Hs; [exact Hs|].
  simpl. apply IH. now apply step_indexInRange.
Qed.

Lemma mountSession_indexInRange : indexInRange (mountSession book).
Proof.
  eapply indexInRange_same with (s := {| pages := []; currentPageIndex := 0;
      metadata := None; isLoading := true; error := None; initializationRef := None;
      mountedRef := true; textSettings := initialTextSettings;
      doublePageView := false; runs := [] |});
    [apply initEffect_index | apply initEffect_index |].
  unfold indexInRange, pagesLength. simpl. lia.
Qed.

(** X15. Whatever happens after the component mounts (loads, failures,
    navigation, toggles, settings changes), the current index is never
    negative and never past the last page; so whenever pages are shown
    (no error, not loading, pages present) the viewer holds the current
    page, labelled with the current index, and in double page mode the
    page after it as well, when there is one. *)
Theorem viewer_always_shows_current_page (trace : list Event) :
  let s := fst (run (mountSession book) trace) in
  0 <= currentPageIndex s <= Z.max 0 (pagesLength s - 1)
  /\ (error s = None -> isLoading s = false -> pages s <> [] ->
      exists p : EpubPage.t,
        pageAt (pages s) (currentPageIndex s) = Some p
        /\ renderedPages s
           = Some ((currentPageIndex s, p)
                   :: (if doublePageView s then
                         match pageAt (pages s) (currentPageIndex s + 1) with
                         | Some q => [(currentPageIndex s + 1, q)]
                         | None => []
                         end
                       else []))).
Proof.
  cbv zeta. rewrite run_fst.
  pose proof (trace_indexInRange trace _ mountSession_indexInRange) as Hrange.
  split; [exact Hrange|]. intros He Hl Hp.
  apply renderedPages_shown; try assumption.
  unfold indexInRange, pagesLength in *.
  destruct (pages (fold_left step trace (mountSession book))); [contradiction|].
  simpl length in *. lia.
Qed.

(** *** Double page mode keeps an even left page *)

Lemma goToNext_even (s : Session) :
  doublePageView s = true -> Z.even (currentPageIndex s) = true ->
  Z.even (currentPageIndex (goToNext s)) = true.
Proof.
  intros Hd He. rewrite goToNext_index, Hd. destruct (_ <=? _); [|exact He].
  now rewrite Z.even_add, He.
Qed.

Lemma goToPrev_even (s : Session) :
  doublePageView s = true -> Z.even (currentPageIndex s) = true ->
  Z.even (currentPageIndex (goToPrev s)) = true.
Proof.
  intros Hd He. rewrite goToPrev_index, Hd. destruct (_ >=? _); [|exact He].
  now rewrite Z.even_sub, He.
Qed.

Lemma goToNext_doublePageView (s : Session) :
  doublePageView (goToNext s) = doublePageView s.
Proof. unfold goToNext. now destruct (_ <=? _). Qed.

Lemma goToPrev_doublePageView (s : Session) :
  doublePageView (goToPrev s) = doublePageView s.
Proof. unfold goToPrev. now destruct (_ >=? _). Qed.

(** X16. Once the double page box is ticked, paging forward and back
    keeps the index even: the left page of every spread is an even
    page, however many times the next and previous keys are pressed. *)
Theorem double_page_navigation_stays_even (s : Session) (keys : list Event) :
  mountedRef s = true ->
  Forall (fun e => e = GoToNext \/ e = GoToPrev) keys ->
  let s' := fst (run (step s (DoublePageChange true)) keys) in
  Z.even (currentPageIndex s') = true /\ doublePageView s' = true.
Proof.
  intros Hm Hkeys. cbv zeta. rewrite run_fst.
  assert (Hgen : forall t,
            mountedRef t = true -> doublePageView t = true ->
            Z.even (currentPageIndex t) = true ->
            Z.even (currentPageIndex (fold_left step keys t)) = true
            /\ doublePageView (fold_left step keys t) = true).
  { induction Hkeys as [|e keys He Hkeys IH]; intros t Hmt Hd Heven.
    - simpl. auto.
    - simpl.
      assert (Hstep : step t e = match e with GoToNext => goToNext t | _ => goToPrev t end).
      { unfold Controller.step. rewrite Hmt. destruct He as [-> | ->]; reflexivity. }
      rewrite Hstep. destruct He as [-> | ->]; apply IH.
      + unfold goToNext. now destruct (_ <=? _).
      + now rewrite goToNext_doublePageView.
      + now apply goToNext_even.
      + unfold goToPrev. now destruct (_ >=? _).
      + now rewrite goToPrev_doublePageView.
      + now apply goToPrev_even. }
  apply Hgen; unfold Controller.step; rewrite Hm; simpl.
  - unfold onDoublePageChange. now destruct (true && _).
  - unfold onDoublePageChange. now destruct (true && _).
  - unfold onDoublePageChange. rewrite rem2_even. simpl.
    destruct (Z.even (currentPageIndex s)) eqn:He; simpl; [exact He|].
    destruct (Z.max_spec 0 (currentPageIndex s - 1)) as [[_ ->]|[_ ->]]; [|reflexivity].
    now rewrite Z.even_sub, He.
Qed.

(** *** Layout changes *)

Lemma initEffect_ref (s : Session) :
  error s = None -> mountedRef s = true ->
  initializationRef (initEffect book s) = Some (book_id book).
Proof.
  intros He Hm. unfold initEffect. rewrite He.
  destruct (initializationRef s) as [r|] eqn:Hr; simpl.
  - destruct (String.eqb_spec r (book_id book)) as [->|Hne]; [exact Hr|].
    rewrite Hm. reflexivity.
  - rewrite Hm. reflexivity.
Qed.


(** *** What navigation reports *)

(** X20. In a loaded session with a progress callback, a next or
    previous key that moves the index makes two sink calls: the cleanup
    of the render that is left saves the old position at once, and the
    page change effect schedules the save of the new position. A key
    that cannot move reports nothing. *)
Theorem navigation_reports_both_positions (s : Session) :
  mountedRef s = true -> isLoading s = false -> onProgressUpdate = true ->
  0 <= currentPageIndex s <= pagesLength s - 1 ->
  let step_size := if doublePageView s then 2 else 1 in
  let position (pageIndex : Z) :=
    {| sink_bookId := book_id book;
       sink_progress :=
         Qmax 0 (Qmin 1 (inject_Z pageIndex / inject_Z (pagesLength s)));
       sink_currentCfi := "page-" +:+ Js.ofZ (pageIndex + 1);
       sink_currentPage := pageIndex + 1 |} in
  emits s GoToNext
    = (if currentPageIndex s + step_size <=? pagesLength s - 1
       then [position (currentPageIndex s);
             position (currentPageIndex s + step_size)]
       else [])
  /\ emits s GoToPrev
     = (if currentPageIndex s - step_size >=? 0
        then [position (currentPageIndex s);
              position (currentPageIndex s - step_size)]
        else []).
Proof.
  intros Hm Hl Hsink Hrange. cbv zeta.
  assert (Hstep : 1 <= (if doublePageView s then 2 else 1) <= 2)
    by (destruct (doublePageView s); lia).
  assert (Hnl : pagesLength (goToNext s) = pagesLength s)
    by (unfold pagesLength; now rewrite goToNext_pages).
  assert (Hpl : pagesLength (goToPrev s) = pagesLength s)
    by (unfold pagesLength; now rewrite goToPrev_pages).
  assert (Hpos : (pagesLength s >? 0) = true)
    by (destruct (Z.gtb_spec (pagesLength s) 0); [reflexivity | lia]).
  assert (Hnz : (pagesLength s =? 0) = false)
    by (destruct (Z.eqb_spec (pagesLength s) 0); [lia | reflexivity]).
  assert (Hln : isLoading (goToNext s) = false)
    by (unfold goToNext; destruct (_ <=? _); exact Hl).
  assert (Hlp : isLoading (goToPrev s) = false)
    by (unfold goToPrev; destruct (_ >=? _); exact Hl).
  assert (Hidx : (currentPageIndex s >=? 0) = true)
    by (destruct (Z.geb_spec (currentPageIndex s) 0); [reflexivity | lia]).
  unfold Controller.emits, Controller.step. rewrite Hm, Hsink. simpl negb. cbv iota.
  unfold cleanupDepsChanged, progressDepsChanged, progressEffect, unmountCleanup,
    saveProgress, saveProgressImmediately.
  rewrite Hnl, Hpl, Hpos, Hnz, Hidx, goToNext_index, goToPrev_index, Z.eqb_refl.
  rewrite Hln, Hlp, Hl. simpl.
  split.
  - destruct (Z.leb_spec (currentPageIndex s + (if doublePageView s then 2 else 1))
                         (pagesLength s - 1)).
    + destruct (Z.eqb_spec (currentPageIndex s)
                  (currentPageIndex s + (if doublePageView s then 2 else 1))); [lia|].
      reflexivity.
    + now rewrite Z.eqb_refl.
  - destruct (Z.geb_spec (currentPageIndex s - (if doublePageView s then 2 else 1)) 0).
    + destruct (Z.eqb_spec (currentPageIndex s)
                  (currentPageIndex s - (if doublePageView s then 2 else 1))); [lia|].
      reflexivity.
    + now rewrite Z.eqb_refl.
Qed.

End SessionLife.

(** ** Saving and resuming *)

(** X21. What the sink is handed at a page resumes at that page: a book
    record holding the fraction and page number of a sink call made at
    index [i] of [n] pages opens, with [n] pages again, at index [i];
    with another page count it opens at the same index when that index
    is past the first page, clamped to the last page. *)
Theorem saved_position_resumes (book record : Book) (pageIndex totalPages newCount : Z)
    (call : SinkCall) :
  0 <= pageIndex < totalPages ->
  saveProgress book true pageIndex totalPages = Some call ->
  currentPage record = sink_currentPage call ->
  (progress record == sink_progress call)%Q ->
  initialPageIndex record totalPages = pageIndex
  /\ (1 <= pageIndex -> 1 <= newCount ->
      initialPageIndex record newCount = Z.min pageIndex (newCount - 1)).
Proof.
  intros Hrange Hsave Hpage Hprogress.
  rewrite saveProgress_some in Hsave by lia. injection Hsave as <-.
  simpl in Hpage, Hprogress. split.
  - apply resume_round_trip; [exact Hrange | exact Hpage|].
    rewrite Hprogress. apply clamp01_id; apply index_ratio_bounds; lia.
  - intros Hpast Hcount. rewrite initialPageIndex_saved_page by lia.
    unfold Spec.clamp. lia.
Qed.

Lemma saved_position_resumes_witness :
  let record := {| book_id := "book-1"; fileName := "book.epub";
                   progress := 4 # 10; currentPage := 5 |} in
  saveProgress Reference.newBook true 4 10
  = Some {| sink_bookId := "book-1"; sink_progress := 4 # 10;
            sink_currentCfi := "page-5"; sink_currentPage := 5 |}
  /\ initialPageIndex record 10 = 4.
Proof.
  cbv zeta. split; [reflexivity|].
  destruct (saved_position_resumes Reference.newBook
              {| book_id := "book-1"; fileName := "book.epub";
                 progress := 4 # 10; currentPage := 5 |} 4 10 16
              {| sink_bookId := "book-1"; sink_progress := 4 # 10;
                 sink_currentCfi := "page-5"; sink_currentPage := 5 |})
    as [Hresume _]; [lia | reflexivity | reflexivity | reflexivity | exact Hresume].
Defined.

(** ** The further properties on the reference book *)

Lemma chapter_pages_numbered_witness :
  let chapter := Reference.chapter "one" (Reference.paragraphs 12) in
  let p := {| EpubPage.id := "page-3";
              EpubPage.content := "<p>xxxx</p><p>xxxx</p>";
              EpubPage.chapterTitle := "one";
              EpubPage.pageNumber := 3 |} in
  nth_error (splitIntoPages Reference.parseFragment Reference.scrollHeight
               Reference.innerHeight [chapter] initialTextSettings) 2 = Some p
  /\ EpubPage.pageNumber p = 3.
Proof.
  cbv zeta. split; [vm_compute; reflexivity|].
  apply (chapter_pages_numbered Reference.parseFragment Reference.scrollHeight
           Reference.innerHeight
           (Reference.chapter "one" (Reference.paragraphs 12)) initialTextSettings 2).
  vm_compute. reflexivity.
Defined.

Lemma pages_fit_or_single_block_witness :
  let p := {| EpubPage.id := "page-3";
              EpubPage.content := "<p>xxxx</p><p>xxxx</p>";
              EpubPage.chapterTitle := "one";
              EpubPage.pageNumber := 3 |} in
  In p (splitIntoPages Reference.parseFragment Reference.scrollHeight
          Reference.innerHeight Reference.chapters initialTextSettings)
  /\ Reference.scrollHeight initialTextSettings (EpubPage.content p)
     <= pageHeight Reference.innerHeight.
Proof.
  cbv zeta.
  assert (Hin : In {| EpubPage.id := "page-3";
                      EpubPage.content := "<p>xxxx</p><p>xxxx</p>";
                      EpubPage.chapterTitle := "one";
                      EpubPage.pageNumber := 3 |}
                   (splitIntoPages Reference.parseFragment Reference.scrollHeight
                      Reference.innerHeight Reference.chapters initialTextSettings)).
  { vm_compute. right. right. left. reflexivity. }
  split; [exact Hin|].
  destruct (pages_fit_or_single_block Reference.parseFragment Reference.scrollHeight
              Reference.innerHeight Reference.chapters initialTextSettings _ Hin)
    as [(e & _ & He)|Hfit]; [|exact Hfit].
  vm_compute. discriminate.
Defined.

Lemma viewer_always_shows_current_page_witness :
  let s := Reference.sessionAfter Reference.newBook
             (Reference.openTrace ++ [GoToNext; DoublePageChange true; GoToNext]) in
  error s = None /\ isLoading s = false /\ pages s <> []
  /\ currentPageIndex s = 2
  /\ exists p : EpubPage.t, pageAt (pages s) (currentPageIndex s) = Some p.
Proof.
  cbv zeta. split; [reflexivity|]. split; [vm_compute; reflexivity|].
  split; [vm_compute; discriminate|]. split; [vm_compute; reflexivity|].
  destruct (viewer_always_shows_current_page Reference.parseFragment
              Reference.scrollHeight Reference.innerHeight Reference.newBook true
              (Reference.openTrace ++ [GoToNext; DoublePageChange true; GoToNext]))
    as [_ Hshown].
  destruct Hshown as (p & Hp & _);
    [reflexivity | vm_compute; reflexivity | vm_compute; discriminate |].
  exists p. exact Hp.
Defined.

Lemma double_page_navigation_stays_even_witness :
  let s := Reference.sessionAfter Reference.newBook
             (Reference.openTrace ++ [GoToNext; GoToNext; GoToNext]) in
  let keys := [GoToNext; GoToNext; GoToPrev; GoToNext] in
  mountedRef s = true /\ currentPageIndex s = 3
  /\ Z.even (currentPageIndex
               (fst (run Reference.parseFragment Reference.scrollHeight
                         Reference.innerHeight Reference.newBook true
                         (step Reference.parseFragment Reference.scrollHeight
                               Reference.innerHeight Reference.newBook s
                               (DoublePageChange true)) keys))) = true.
Proof.
  cbv zeta. split; [reflexivity|]. split; [vm_compute; reflexivity|].
  apply (double_page_navigation_stays_even Reference.parseFragment
           Reference.scrollHeight Reference.innerHeight Reference.newBook true
           (Reference.sessionAfter Reference.newBook
              (Reference.openTrace ++ [GoToNext; GoToNext; GoToNext]))
           [GoToNext; GoToNext; GoToPrev; GoToNext]).
  - reflexivity.
  - repeat (apply List.Forall_cons;
            [first [left; reflexivity | right; reflexivity]|]).
    apply List.Forall_nil.
Defined.


Lemma navigation_reports_both_positions_witness :
  let s := Reference.sessionAfter Reference.newBook Reference.openTrace in
  mountedRef s = true /\ isLoading s = false
  /\ 0 <= currentPageIndex s <= pagesLength s - 1
  /\ emits Reference.parseFragment Reference.scrollHeight Reference.innerHeight
           Reference.newBook true s GoToNext
     = [ {| sink_bookId := "book-1"; sink_progress := 0;
            sink_currentCfi := "page-1"; sink_currentPage := 1 |};
         {| sink_bookId := "book-1"; sink_progress := 1 # 10;
            sink_currentCfi := "page-2"; sink_currentPage := 2 |} ]
  /\ emits Reference.parseFragment Reference.scrollHeight Reference.innerHeight
           Reference.newBook true s GoToPrev = [].
Proof.
  cbv zeta. split; [reflexivity|]. split; [vm_compute; reflexivity|].
  split; [vm_compute; split; discriminate|].
  destruct (navigation_reports_both_positions Reference.parseFragment
              Reference.scrollHeight Reference.innerHeight Reference.newBook true
              (Reference.sessionAfter Reference.newBook Reference.openTrace))
    as [Hnext Hprev];
    [reflexivity | vm_compute; reflexivity | reflexivity
     | vm_compute; split; discriminate |].
  split.
  - rewrite Hnext. vm_compute. reflexivity.
  - rewrite Hprev. vm_compute. reflexivity.
Defined.
